(** * Verification of the scheduling and optimization core

    A shallow embedding of four modules of the repository:

    - [src/utils/quantum_entanglement.py]  (similarity, entangled groups),
    - [src/core/quantum/scheduler.py]      (annealing scheduler),
    - [src/core/optimization/synergy_core.py] (action synthesis),
    - [src/ai/models/continual_learner.py] (online predictors).

    Python floats are binary64 numbers.  Every definition below is written
    once, over an interface [Arith] of the arithmetic the code uses, and
    the interface has two instances: Rocq's primitive binary64 floats, on
    which the definitions run exactly as the Python code does (including
    nan and inf), and the real numbers, an exact reading used for
    comparisons and identities that rounding does not disturb.  What the
    code computes is what the binary64 instance computes. *)

From Stdlib Require Import ZArith List Bool String Ascii Lia.
From Stdlib Require Import Reals Lra.
From Stdlib Require Import Permutation Sorted.
From Stdlib Require Floats.PrimFloat Floats.FloatOps Floats.SpecFloat Floats.FloatAxioms.
Import ListNotations.

Set Implicit Arguments.

(* ================================================================== *)
(** * Numbers *)

(** The arithmetic of Python floats (and of numpy float64 arrays, whose
    division by zero yields nan or inf and never raises). *)
Class Arith (A : Type) : Type := {
  of_Z  : Z -> A;             (* int -> float conversion *)
  fadd  : A -> A -> A;
  fsub  : A -> A -> A;
  fmul  : A -> A -> A;
  fdiv  : A -> A -> A;
  fabs  : A -> A;
  fsqrt : A -> A;
  flt   : A -> A -> bool;     (* x < y *)
  fle   : A -> A -> bool;     (* x <= y *)
  feq   : A -> A -> bool;     (* x == y *)
  trunc : A -> option Z       (* int(x); None when int(x) raises *)
}.

Declare Scope py_scope.
Delimit Scope py_scope with py.
Notation "x + y" := (fadd x y) : py_scope.
Notation "x - y" := (fsub x y) : py_scope.
Notation "x * y" := (fmul x y) : py_scope.
Notation "x / y" := (fdiv x y) : py_scope.
Notation "x <? y" := (flt x y) : py_scope.
Notation "x <=? y" := (fle x y) : py_scope.
Notation "x >? y" := (flt y x) (at level 70) : py_scope.
Notation "x >=? y" := (fle y x) (at level 70) : py_scope.
Notation "x =? y" := (feq x y) : py_scope.

(** The decimal literal [p/q] (0.7 is [dec 7 10]): the binary64 number
    nearest to it, since the division of two exactly represented integers
    is correctly rounded. *)
Definition dec {A} `{Arith A} (p q : Z) : A := (of_Z p / of_Z q)%py.

Module Float64.
Import PrimFloat FloatOps SpecFloat.

Definition of_Z (z : Z) : float := SF2Prim (binary_normalize prec emax z 0 false).

(** [int(x)]: truncation toward zero; raises on nan and inf. *)
Definition trunc (x : float) : option Z :=
  match Prim2SF x with
  | S754_zero _ => Some 0%Z
  | S754_finite s m e =>
      let a := (if (0 <=? e)%Z then Z.shiftl (Zpos m) e
                else Z.shiftr (Zpos m) (- e))%Z in
      Some (if s then (- a)%Z else a)
  | S754_infinity _ => None
  | S754_nan => None
  end.

End Float64.

#[export] Instance float_arith : Arith PrimFloat.float := {|
  of_Z := Float64.of_Z;
  fadd := PrimFloat.add;
  fsub := PrimFloat.sub;
  fmul := PrimFloat.mul;
  fdiv := PrimFloat.div;
  fabs := PrimFloat.abs;
  fsqrt := PrimFloat.sqrt;
  flt := PrimFloat.ltb;
  fle := PrimFloat.leb;
  feq := PrimFloat.eqb;
  trunc := Float64.trunc
|}.

Module Exact.

Definition ltb (x y : R) : bool := if Rlt_dec x y then true else false.
Definition leb (x y : R) : bool := if Rle_dec x y then true else false.
Definition eqb (x y : R) : bool := if Req_dec_T x y then true else false.

(** Truncation toward zero. *)
Definition trunc (x : R) : option Z :=
  Some (if Rle_dec 0 x then Int_part x else (- Int_part (- x))%Z).

End Exact.

(** Exact arithmetic: the code's formulas read without rounding.  The
    program computes in binary64, so a value proved here (a norm that is
    exactly 1, say) is not the value the program returns; this instance
    serves for order comparisons with slack, for symmetries and for
    counting, which rounding leaves alone.  [Rdiv x 0] is [0] in Rocq; a
    statement about this instance says something about the code only where
    the code divides by a non-zero number. *)
#[export] Instance real_arith : Arith R := {|
  of_Z := IZR;
  fadd := Rplus;
  fsub := Rminus;
  fmul := Rmult;
  fdiv := Rdiv;
  fabs := Rabs;
  fsqrt := sqrt;
  flt := Exact.ltb;
  fle := Exact.leb;
  feq := Exact.eqb;
  trunc := Exact.trunc
|}.

(* ================================================================== *)
(** * numpy vectors and Python builtins *)

Section Numpy.
Context {A : Type} `{Arith A}.
Local Open Scope py_scope.

(** One-dimensional float64 arrays. *)
Definition ndarray := list A.

Definition np_zeros (n : nat) : ndarray := repeat (of_Z 0) n.

(** Elementwise operations of two arrays of one shape. *)
Definition vadd (u v : ndarray) : ndarray := map (fun p => fst p + snd p) (combine u v).
Definition vsub (u v : ndarray) : ndarray := map (fun p => fst p - snd p) (combine u v).
(** Array and scalar. *)
Definition vscale (c : A) (v : ndarray) : ndarray := map (fun x => c * x) v.
Definition vmuls (v : ndarray) (c : A) : ndarray := map (fun x => x * c) v.
Definition vdivs (v : ndarray) (c : A) : ndarray := map (fun x => x / c) v.

Definition np_sum (v : ndarray) : A := fold_left fadd v (of_Z 0).

(** [np.dot] of two vectors. *)
Definition np_dot (u v : ndarray) : A :=
  fold_left (fun acc p => acc + fst p * snd p) (combine u v) (of_Z 0).

(** [np.linalg.norm]: the L2 norm. *)
Definition np_linalg_norm (v : ndarray) : A := fsqrt (np_dot v v).

(** [np.mean]. *)
Definition np_mean (v : ndarray) : A := np_sum v / of_Z (Z.of_nat (List.length v)).

(** [np.any]: some element is truthy, that is, differs from zero (nan
    differs from zero). *)
Definition np_any (v : ndarray) : bool := existsb (fun x => negb (x =? of_Z 0)) v.

(** Python's [max(a, b)]: [b] when [b > a], else [a]. *)
Definition py_max (a b : A) : A := if a <? b then b else a.

End Numpy.

(* ================================================================== *)
(** * src/utils/quantum_entanglement.py *)

Module QuantumEntanglement.
Section Defs.
Context {A : Type} `{Arith A}.
Local Open Scope py_scope.

(** A process as the entanglement module receives it: a dict, read with
    [.get(key, 0)], so that every key may be absent. *)
Record Process : Type := {
  pid : option Z;
  cpu_percent : option A;
  memory_percent : option A;
  io_rate : option A
}.

Definition get0 (x : option A) : A :=
  match x with Some v => v | None => of_Z 0 end.

(** [np.array([p.get('cpu_percent', 0), p.get('memory_percent', 0),
    p.get('io_rate', 0)])]. *)
Definition metrics (p : Process) : ndarray :=
  [get0 (cpu_percent p); get0 (memory_percent p); get0 (io_rate p)].

(** [m / np.linalg.norm(m) if np.any(m) else m], together with the number
    the line divides by, when it divides. *)
Definition normalize (m : ndarray) : ndarray * option A :=
  if np_any m then (vdivs m (np_linalg_norm m), Some (np_linalg_norm m))
  else (m, None).

(** The norms [_calculate_similarity] divides by on the two processes. *)
Definition divisors (process1 process2 : Process) : list A :=
  let d1 := snd (normalize (metrics process1)) in
  let d2 := snd (normalize (metrics process2)) in
  match d1 with Some d => [d] | None => [] end ++
  match d2 with Some d => [d] | None => [] end.

Definition _calculate_similarity (process1 process2 : Process) : A :=
  let metrics1 := metrics process1 in
  let metrics2 := metrics process2 in
  let metrics1 := fst (normalize metrics1) in
  let metrics2 := fst (normalize metrics2) in
  let similarity := np_dot metrics1 metrics2 in
  py_max (of_Z 0) similarity.

End Defs.
End QuantumEntanglement.

(* ================================================================== *)
(** * Python containers *)

(** A Python [dict] with integer keys: an association list in insertion
    order with distinct keys.  Iteration follows insertion order, and
    assigning to a key that is present keeps its position. *)
Module PyDict.
Section Dict.
Variable V : Type.

Definition dict := list (Z * V).

Fixpoint get (k : Z) (d : dict) : option V :=
  match d with
  | [] => None
  | (k', v) :: d' => if Z.eqb k k' then Some v else get k d'
  end.

(** [k in d]. *)
Definition contains (k : Z) (d : dict) : bool :=
  match get k d with Some _ => true | None => false end.

(** [d[k] = v]. *)
Fixpoint set (k : Z) (v : V) (d : dict) : dict :=
  match d with
  | [] => [(k, v)]
  | (k', v') :: d' => if Z.eqb k k' then (k, v) :: d' else (k', v') :: set k v d'
  end.

Definition keys (d : dict) : list Z := map fst d.
Definition values (d : dict) : list V := map snd d.

End Dict.
End PyDict.

(** [l[i] = x] on a list; the index is in range wherever the code below
    assigns. *)
Fixpoint list_set {X : Type} (i : nat) (x : X) (l : list X) : list X :=
  match l, i with
  | [], _ => []
  | _ :: l', O => x :: l'
  | y :: l', S i' => y :: list_set i' x l'
  end.

(* ================================================================== *)
(** * src/utils/quantum_entanglement.py: the entangled groups *)

Module Entangled.
Import QuantumEntanglement.
Section Defs.
Context {A : Type} `{Arith A}.
Local Open Scope py_scope.

(** [enumerate(l)]. *)
Definition enumerate {X : Type} (l : list X) : list (nat * X) :=
  combine (seq 0 (List.length l)) l.

(** The inner loop of [entangle_processes]: the pids (as [.get('pid')]
    returns them) of the processes at another position whose similarity
    to [process] exceeds 0.7. *)
Definition related_to (processes : list Process) (i : nat) (process : Process)
    : list (option Z) :=
  flat_map
    (fun jo : nat * Process =>
       if Nat.eqb i (fst jo) then []
       else if _calculate_similarity process (snd jo) >? dec 7 10
            then [pid (snd jo)] else [])
    (enumerate processes).

(** [entangle_processes]: the dict is cleared and filled again; a process
    without a pid is passed over, and so is one with nothing related. *)
Definition entangle_processes (processes : list Process)
    : PyDict.dict (list (option Z)) :=
  fold_left
    (fun (d : PyDict.dict (list (option Z))) (ip : nat * Process) =>
       match pid (snd ip) with
       | None => d
       | Some k =>
           match related_to processes (fst ip) (snd ip) with
           | [] => d
           | related => PyDict.set k related d
           end
       end)
    (enumerate processes) [].

(** [self.entangled_processes.get(pid, [])]. *)
Definition get_entangled_processes (entangled_processes : PyDict.dict (list (option Z)))
    (k : Z) : list (option Z) :=
  match PyDict.get k entangled_processes with
  | Some related => related
  | None => []
  end.

(** numpy's [tanh] and [sin], and [np.pi]. *)
Variable np_tanh : A -> A.
Variable np_sin : A -> A.
Variable np_pi : A.

Definition calculate_entanglement_effect
    (entangled_processes : PyDict.dict (list (option Z))) (process : Process) : A :=
  match pid process with
  | None => of_Z 0
  | Some k =>
      match get_entangled_processes entangled_processes k with
      | [] => of_Z 0
      | entangled =>
          let base_effect := np_tanh (of_Z (Z.of_nat (List.length entangled)) / of_Z 5) in
          let phase := np_pi * (get0 (cpu_percent process) / of_Z 100) in
          let quantum_effect := np_sin phase * np_sin phase in
          base_effect * quantum_effect
      end
  end.

End Defs.
End Entangled.

(* ================================================================== *)
(** * src/core/monitoring/system_monitor.py: the telemetry records *)

Module SystemMonitor.
Section Defs.
Context {A : Type}.

(** [io_counters]: psutil's counters as a dict. *)
Record IoCounters : Type := {
  read_bytes : Z;
  write_bytes : Z
}.

Record ProcessMetrics : Type := {
  pid : Z;
  name : string;
  cpu_percent : A;
  memory_percent : A;
  io_counters : option IoCounters;
  thread_count : Z;
  priority : Z
}.

(** [timestamp] and every other time below: microseconds, the resolution
    of [datetime]. *)
Record SystemMetrics : Type := {
  timestamp : Z;
  sys_cpu_percent : A;
  sys_memory_percent : A;
  processes : list ProcessMetrics;
  context_switches : Z;
  interrupts : Z
}.

(** [c['read_bytes'] + c['write_bytes'] if c else 0]. *)
Definition io_total (c : option IoCounters) : Z :=
  match c with
  | Some c => (read_bytes c + write_bytes c)%Z
  | None => 0%Z
  end.

End Defs.
Arguments ProcessMetrics : clear implicits.
Arguments SystemMetrics : clear implicits.
End SystemMonitor.

(** [timedelta.total_seconds()] of a difference of [d] microseconds. *)
Definition total_seconds {A} `{Arith A} (d : Z) : A := (of_Z d / of_Z 1000000)%py.

(* ================================================================== *)
(** * src/core/quantum/scheduler.py *)

Module QuantumScheduler.
Import SystemMonitor.
Section Defs.
Context {A : Type} `{Arith A}.
Local Open Scope py_scope.

(** The outside world of the scheduler: [clock n] is the n-th reading of
    [datetime.now()], [rand k n] the k-th draw [np.random.rand(n)]. *)
Variable clock : nat -> Z.
Variable rand : nat -> nat -> ndarray (A := A).

Record World : Type := { reads : nat; draws : nat }.

Definition datetime_now (w : World) : Z * World :=
  (clock (reads w), {| reads := S (reads w); draws := draws w |}).

Definition np_random_rand (n : nat) (w : World) : ndarray (A := A) * World :=
  (rand (draws w) n, {| reads := reads w; draws := S (draws w) |}).

(** [resource_usage]: the dict with the keys 'cpu', 'memory' and 'io'. *)
Record ResourceUsage : Type := {
  cpu : A;
  memory : A;
  io : Z
}.

Record ProcessState : Type := {
  st_pid : Z;
  st_priority : A;
  quantum_state : ndarray (A := A);
  last_update : Z;
  resource_usage : ResourceUsage
}.

Record HistoryRecord : Type := {
  h_timestamp : Z;
  h_temperature : A;
  h_priorities : PyDict.dict A
}.

Record Scheduler : Type := {
  num_qubits : nat;
  process_states : PyDict.dict ProcessState;
  optimization_history : list HistoryRecord;
  last_optimization : Z;
  temperature : A;
  annealing_rate : A;
  min_temperature : A
}.

(** [QuantumScheduler(num_qubits)]. *)
Definition init (n : nat) (w : World) : Scheduler * World :=
  let (now, w) := datetime_now w in
  ({| num_qubits := n;
      process_states := [];
      optimization_history := [];
      last_optimization := now;
      temperature := of_Z 1;
      annealing_rate := dec 95 100;
      min_temperature := dec 1 100 |}, w).

Definition usage_of (proc : ProcessMetrics A) : ResourceUsage :=
  {| cpu := cpu_percent proc;
     memory := memory_percent proc;
     io := io_total (io_counters proc) |}.

Definition _update_process_states (s : Scheduler) (system_metrics : SystemMetrics A)
    (w : World) : Scheduler * World :=
  fold_left
    (fun (sw : Scheduler * World) (proc : ProcessMetrics A) =>
       let (s, w) := sw in
       match PyDict.get (pid proc) (process_states s) with
       | None =>
           let (q, w) := np_random_rand (num_qubits s) w in
           let state := {| st_pid := pid proc;
                           st_priority := of_Z 0;
                           quantum_state := q;
                           last_update := timestamp system_metrics;
                           resource_usage := usage_of proc |} in
           ({| num_qubits := num_qubits s;
               process_states := PyDict.set (pid proc) state (process_states s);
               optimization_history := optimization_history s;
               last_optimization := last_optimization s;
               temperature := temperature s;
               annealing_rate := annealing_rate s;
               min_temperature := min_temperature s |}, w)
       | Some state =>
           let state := {| st_pid := st_pid state;
                           st_priority := st_priority state;
                           quantum_state := quantum_state state;
                           last_update := timestamp system_metrics;
                           resource_usage := usage_of proc |} in
           ({| num_qubits := num_qubits s;
               process_states := PyDict.set (pid proc) state (process_states s);
               optimization_history := optimization_history s;
               last_optimization := last_optimization s;
               temperature := temperature s;
               annealing_rate := annealing_rate s;
               min_temperature := min_temperature s |}, w)
       end)
    (processes system_metrics) (s, w).

Definition _should_optimize (s : Scheduler) (w : World) : bool * World :=
  let (now, w) := datetime_now w in
  let time_since_last : A := total_seconds (now - last_optimization s) in
  (time_since_last >=? of_Z 1, w).

Definition _calculate_interaction (state1 state2 : ProcessState) : A :=
  let cpu_diff := fabs (cpu (resource_usage state1) - cpu (resource_usage state2)) in
  let mem_diff := fabs (memory (resource_usage state1) - memory (resource_usage state2)) in
  let io_diff := Z.abs (io (resource_usage state1) - io (resource_usage state2)) in
  let total_diff := (cpu_diff + mem_diff + of_Z io_diff) / of_Z 3 in
  total_diff.

(** Two-dimensional arrays, by rows. *)
Definition matrix := list (ndarray (A := A)).

Definition np_zeros2 (n m : nat) : matrix := repeat (np_zeros m) n.

(** [h[i, j]]. *)
Definition entry (h : matrix) (i j : nat) : A := nth j (nth i h []) (of_Z 0).

(** [h[i, j] = x]. *)
Definition set_entry (h : matrix) (i j : nat) (x : A) : matrix :=
  list_set i (list_set j x (nth i h [])) h.

Definition _create_hamiltonian (states : list ProcessState) : matrix :=
  let n := List.length states in
  let hamiltonian := np_zeros2 n n in
  fold_left
    (fun hamiltonian i =>
       fold_left
         (fun hamiltonian j =>
            match nth_error states i, nth_error states j with
            | Some si, Some sj =>
                let interaction := _calculate_interaction si sj in
                let hamiltonian := set_entry hamiltonian i j interaction in
                set_entry hamiltonian j i interaction
            | _, _ => hamiltonian
            end)
         (seq (i + 1) (n - (i + 1))) hamiltonian)
    (seq 0 n) hamiltonian.

(** The force on process [i]: the inner loop over [j]. *)
Definition force_on (nq : nat) (hamiltonian : matrix)
    (current_states : list (ndarray (A := A))) (i : nat) : ndarray :=
  fold_left
    (fun force j =>
       if Nat.eqb i j then force
       else vadd force
              (vscale (entry hamiltonian i j)
                      (vsub (nth j current_states []) (nth i current_states []))))
    (seq 0 (List.length current_states)) (np_zeros nq).

(** [current_states[i] += force * self.temperature]. *)
Definition pushed (nq : nat) (temp : A) (hamiltonian : matrix)
    (current_states : list (ndarray (A := A))) (i : nat) : ndarray :=
  vadd (nth i current_states []) (vmuls (force_on nq hamiltonian current_states i) temp).

(** The body of the loop over [i]: push the state, then divide it by its
    norm. *)
Definition evolve (nq : nat) (temp : A) (hamiltonian : matrix)
    (current_states : list (ndarray (A := A))) (i : nat) : list ndarray :=
  let v := pushed nq temp hamiltonian current_states i in
  list_set i (vdivs v (np_linalg_norm v)) current_states.

(** One annealing step: the loop over [i]. *)
Definition anneal_step (nq : nat) (temp : A) (hamiltonian : matrix)
    (current_states : list (ndarray (A := A))) : list ndarray :=
  fold_left (evolve nq temp hamiltonian) (seq 0 (List.length current_states)) current_states.

Definition anneal_steps (k : nat) (nq : nat) (temp : A) (hamiltonian : matrix)
    (current_states : list (ndarray (A := A))) : list ndarray :=
  Nat.iter k (anneal_step nq temp hamiltonian) current_states.

Definition _quantum_annealing (s : Scheduler) (hamiltonian : matrix)
    (states : list ProcessState) : list ndarray :=
  let current_states := map quantum_state states in
  anneal_steps 100 (num_qubits s) (temperature s) hamiltonian current_states.

Definition _calculate_priority (quantum_state : ndarray (A := A))
    (resource_usage : ResourceUsage) : A :=
  let quantum_score := np_mean quantum_state in
  let resource_score := (cpu resource_usage + memory resource_usage) / of_Z 2 in
  dec 7 10 * quantum_score + dec 3 10 * resource_score.

(** The loop over [zip(states, optimized_states)]: the states are the
    objects the dict holds, so the assignment updates the dict in place;
    [zip] stops at the shorter list. *)
Definition optimized (state : ProcessState) (optimized_state : ndarray (A := A))
    : ProcessState :=
  {| st_pid := st_pid state;
     st_priority := _calculate_priority optimized_state (resource_usage state);
     quantum_state := optimized_state;
     last_update := last_update state;
     resource_usage := resource_usage state |}.

Fixpoint store_optimized (d : PyDict.dict ProcessState)
    (optimized_states : list (ndarray (A := A))) : PyDict.dict ProcessState :=
  match d, optimized_states with
  | (k, state) :: d', optimized_state :: rest =>
      (k, optimized state optimized_state) :: store_optimized d' rest
  | _, _ => d
  end.

Definition _optimize_scheduling (s : Scheduler) (w : World) : Scheduler * World :=
  let states := PyDict.values (process_states s) in
  match states with
  | [] => (s, w)
  | _ =>
      let hamiltonian := _create_hamiltonian states in
      let optimized_states := _quantum_annealing s hamiltonian states in
      let d := store_optimized (process_states s) optimized_states in
      let (now, w) := datetime_now w in
      let record := {| h_timestamp := now;
                       h_temperature := temperature s;
                       h_priorities :=
                         fold_left (fun ps state => PyDict.set (st_pid state) (st_priority state) ps)
                                   (PyDict.values d) [] |} in
      let (now', w) := datetime_now w in
      ({| num_qubits := num_qubits s;
          process_states := d;
          optimization_history := optimization_history s ++ [record];
          last_optimization := now';
          temperature := py_max (min_temperature s) (temperature s * annealing_rate s);
          annealing_rate := annealing_rate s;
          min_temperature := min_temperature s |}, w)
  end.

Definition update (s : Scheduler) (system_metrics : SystemMetrics A) (w : World)
    : Scheduler * World :=
  let (s, w) := _update_process_states s system_metrics w in
  let (go, w) := _should_optimize s w in
  if go then _optimize_scheduling s w else (s, w).

(** [self.process_states.get(pid, None)]. *)
Definition get_process_priority (s : Scheduler) (pid : Z) : option ProcessState :=
  PyDict.get pid (process_states s).

End Defs.
End QuantumScheduler.

(* ================================================================== *)
(** * Python strings and sorting *)

(** [str.lower()] on ASCII text. *)
Definition lower_ascii (c : ascii) : ascii :=
  let n := nat_of_ascii c in
  if andb (Nat.leb 65 n) (Nat.leb n 90) then ascii_of_nat (n + 32) else c.

Fixpoint lower (s : string) : string :=
  match s with
  | EmptyString => EmptyString
  | String c s' => String (lower_ascii c) (lower s')
  end.

(** [x in l] for a list of strings. *)
Definition str_in (x : string) (l : list string) : bool := existsb (String.eqb x) l.

Section Sorted.
Context {A : Type} `{Arith A}.
Variable X : Type.
Variable key : X -> A.

(** [sorted(l, key=key, reverse=True)]: the stable sort by descending key;
    like Python's, it compares keys with [<] only.  [insert_desc x l] puts
    [x], which stood before the elements of [l], in front of the first
    element whose key is not greater than its own. *)
Fixpoint insert_desc (x : X) (l : list X) : list X :=
  match l with
  | [] => [x]
  | y :: l' => if (key x <? key y)%py then y :: insert_desc x l' else x :: l
  end.

Definition sorted_desc (l : list X) : list X := fold_right insert_desc [] l.

End Sorted.

(* ================================================================== *)
(** * src/core/optimization/synergy_core.py *)

Module SynergyCore.
Import SystemMonitor.

Inductive ActionType : Type :=
| cpu_optimization
| memory_optimization
| io_optimization
| thread_optimization.

(** The values of the [parameters] dict of an action. *)
Inductive Value : Type :=
| VStr (s : string)
| VInt (z : Z).

Definition value_eqb (a b : Value) : bool :=
  match a, b with
  | VStr s, VStr t => String.eqb s t
  | VInt x, VInt y => Z.eqb x y
  | _, _ => false
  end.

Definition Parameters := list (string * Value).

Fixpoint param (k : string) (ps : Parameters) : option Value :=
  match ps with
  | [] => None
  | (k', v) :: ps' => if String.eqb k k' then Some v else param k ps'
  end.

(** The calls [_apply_optimization] makes to the Windows API; the handle
    [OpenProcess] returns is identified with the pid it opens. *)
Inductive Win32Call : Type :=
| OpenProcess (pid : Z)
| SetPriorityClass (handle : Z)
| SetProcessAffinityMask (handle : Z) (mask : Z)
| SetProcessWorkingSetSizeEx (handle : Z) (limit : Z)
| CloseHandle (handle : Z).

Section Defs.
Context {A : Type} `{Arith A}.
Local Open Scope py_scope.

(** The outside world of the synthesizer: the operating system, whose
    state a call changes and which makes a call return ([true]) or raise
    ([false]); the wall clock; what psutil reports about the host. *)
Variable OS : Type.
Variable win32 : Win32Call -> OS -> OS * bool.
Variable clock : nat -> Z.
Variable cpu_count : option Z.
Variable total_memory : Z.

Record World : Type := {
  reads : nat;
  os : OS;
  calls : list Win32Call
}.

Definition datetime_now (w : World) : Z * World :=
  (clock (reads w), {| reads := S (reads w); os := os w; calls := calls w |}).

Record OptimizationAction : Type := {
  a_pid : Z;
  action_type : ActionType;
  parameters : Parameters;
  a_timestamp : Z;
  a_priority : A
}.

Record Core : Type := {
  optimization_history : list OptimizationAction;
  action_threshold : A;
  last_optimization : Z;
  cpu_threshold : A;
  memory_threshold : A;
  io_threshold : Z
}.

(** [SynergyCore()]. *)
Definition init (w : World) : Core * World :=
  let (now, w) := datetime_now w in
  ({| optimization_history := [];
      action_threshold := dec 7 10;
      last_optimization := now;
      cpu_threshold := of_Z 80;
      memory_threshold := of_Z 85;
      io_threshold := 1000000 |}, w).

Definition _should_optimize (c : Core) (w : World) : bool * World :=
  let (now, w) := datetime_now w in
  let time_since_last : A := total_seconds (now - last_optimization c) in
  (time_since_last >=? dec 5 10, w).

Definition _is_process_optimizable (proc : ProcessMetrics A) : bool :=
  if (pid proc <? 100)%Z then false
  else if str_in (lower (name proc)) ["system"; "svchost.exe"; "explorer.exe"]%string then false
  else true.

(** [1 << n] raises for a negative [n], and for [None]; the function then
    returns 0xFFFF. *)
Definition _calculate_optimal_affinity (proc : ProcessMetrics A) : Z :=
  match cpu_count with
  | None => 65535
  | Some n =>
      let k := if cpu_percent proc >? of_Z 80 then n else (n / 2)%Z in
      if (k <? 0)%Z then 65535 else (Z.shiftl 1 k - 1)%Z
  end.

(** [int(...)] raises on nan and inf; the function then returns 0. *)
Definition _calculate_working_set_limit (proc : ProcessMetrics A) : Z :=
  let factor := if memory_percent proc >? of_Z 80 then dec 5 10 else dec 75 100 in
  match trunc (memory_percent proc * of_Z total_memory * factor) with
  | Some z => z
  | None => 0%Z
  end.

Definition _optimize_cpu_usage (system_metrics : SystemMetrics A) (w : World)
    : list OptimizationAction * World :=
  let sorted_procs := sorted_desc cpu_percent (processes system_metrics) in
  fold_left
    (fun (aw : list OptimizationAction * World) proc =>
       let (actions, w) := aw in
       if cpu_percent proc >? of_Z 50 then
         let (now, w) := datetime_now w in
         (actions ++
          [{| a_pid := pid proc;
              action_type := cpu_optimization;
              parameters := [("priority_class", VStr "BELOW_NORMAL");
                             ("affinity_mask", VInt (_calculate_optimal_affinity proc))]%string;
              a_timestamp := now;
              a_priority := cpu_percent proc / of_Z 100 |}], w)
       else aw)
    (firstn 5 sorted_procs) ([], w).

Definition _optimize_memory_usage (system_metrics : SystemMetrics A) (w : World)
    : list OptimizationAction * World :=
  let sorted_procs := sorted_desc memory_percent (processes system_metrics) in
  fold_left
    (fun (aw : list OptimizationAction * World) proc =>
       let (actions, w) := aw in
       if memory_percent proc >? of_Z 50 then
         let (now, w) := datetime_now w in
         (actions ++
          [{| a_pid := pid proc;
              action_type := memory_optimization;
              parameters := [("priority_class", VStr "BELOW_NORMAL");
                             ("working_set_limit", VInt (_calculate_working_set_limit proc))]%string;
              a_timestamp := now;
              a_priority := memory_percent proc / of_Z 100 |}], w)
       else aw)
    (firstn 5 sorted_procs) ([], w).

Definition _optimize_process (c : Core) (proc : ProcessMetrics A) (w : World)
    : list OptimizationAction * World :=
  let (actions, w) :=
    match io_counters proc with
    | Some io =>
        if (read_bytes io + write_bytes io >? io_threshold c)%Z then
          let (now, w) := datetime_now w in
          ([{| a_pid := pid proc;
               action_type := io_optimization;
               parameters := [("priority_class", VStr "BELOW_NORMAL");
                              ("io_priority", VStr "LOW")]%string;
               a_timestamp := now;
               a_priority := dec 8 10 |}], w)
        else ([], w)
    | None => ([], w)
    end in
  if (thread_count proc >? 100)%Z then
    let (now, w) := datetime_now w in
    (actions ++
     [{| a_pid := pid proc;
         action_type := thread_optimization;
         parameters := [("priority_class", VStr "BELOW_NORMAL");
                        ("thread_limit", VInt 100)]%string;
         a_timestamp := now;
         a_priority := dec 7 10 |}], w)
  else (actions, w).

Definition _analyze_system_state (c : Core) (system_metrics : SystemMetrics A) (w : World)
    : list OptimizationAction * World :=
  let (actions, w) :=
    if sys_cpu_percent system_metrics >? cpu_threshold c then
      _optimize_cpu_usage system_metrics w
    else ([], w) in
  let (actions, w) :=
    if sys_memory_percent system_metrics >? memory_threshold c then
      let (more, w) := _optimize_memory_usage system_metrics w in (actions ++ more, w)
    else (actions, w) in
  fold_left
    (fun (aw : list OptimizationAction * World) proc =>
       let (actions, w) := aw in
       if _is_process_optimizable proc then
         let (more, w) := _optimize_process c proc w in (actions ++ more, w)
       else aw)
    (processes system_metrics) (actions, w).

(** Code that may raise: [None] is a raised exception. *)
Definition Try (X : Type) : Type := World -> option X * World.

Definition ret {X} (x : X) : Try X := fun w => (Some x, w).
Definition raise {X} : Try X := fun w => (None, w).
Definition bind {X Y} (m : Try X) (f : X -> Try Y) : Try Y :=
  fun w => match m w with
           | (Some x, w') => f x w'
           | (None, w') => (None, w')
           end.
Notation "m ;; k" := (bind m (fun _ => k)) (at level 61, right associativity).

(** A call to the Windows API. *)
Definition call (c : Win32Call) : Try unit :=
  fun w =>
    let (o, ok) := win32 c (os w) in
    (if ok then Some tt else None,
     {| reads := reads w; os := o; calls := calls w ++ [c] |}).

(** [if action.parameters['priority_class'] == 'BELOW_NORMAL':
    SetPriorityClass(handle, BELOW_NORMAL_PRIORITY_CLASS)]. *)
Definition lower_priority_class (action : OptimizationAction) : Try unit :=
  match param "priority_class" (parameters action) with
  | None => raise
  | Some v =>
      if value_eqb v (VStr "BELOW_NORMAL") then call (SetPriorityClass (a_pid action))
      else ret tt
  end.

(** The body of the [try] of [_apply_optimization], up to and including
    [CloseHandle]. *)
Definition apply_calls (action : OptimizationAction) : Try unit :=
  call (OpenProcess (a_pid action)) ;;
  match action_type action with
  | cpu_optimization =>
      lower_priority_class action ;;
      match param "affinity_mask" (parameters action) with
      | Some (VInt mask) => call (SetProcessAffinityMask (a_pid action) mask)
      | _ => raise
      end
  | memory_optimization =>
      lower_priority_class action ;;
      match param "working_set_limit" (parameters action) with
      | Some (VInt limit) =>
          if (limit >? 0)%Z then call (SetProcessWorkingSetSizeEx (a_pid action) limit)
          else ret tt
      | _ => raise
      end
  | io_optimization => lower_priority_class action
  | thread_optimization => lower_priority_class action
  end ;;
  call (CloseHandle (a_pid action)).

Definition record_action (c : Core) (action : OptimizationAction) : Core :=
  {| optimization_history := optimization_history c ++ [action];
     action_threshold := action_threshold c;
     last_optimization := last_optimization c;
     cpu_threshold := cpu_threshold c;
     memory_threshold := memory_threshold c;
     io_threshold := io_threshold c |}.

(** The action is recorded when the calls returned; an exception is
    logged and nothing is recorded. *)
Definition _apply_optimization (c : Core) (action : OptimizationAction) (w : World)
    : Core * World :=
  match apply_calls action w with
  | (Some _, w') => (record_action c action, w')
  | (None, w') => (c, w')
  end.

(** The loop of [process] over the candidate actions. *)
Definition apply_all (c : Core) (actions : list OptimizationAction) (w : World)
    : Core * World :=
  fold_left
    (fun (cw : Core * World) action =>
       if a_priority action >=? action_threshold (fst cw)
       then _apply_optimization (fst cw) action (snd cw)
       else cw)
    actions (c, w).

(** [process] returns nothing; its result is the new state of the core
    and of the world. *)
Definition process (c : Core) (system_metrics : SystemMetrics A) (w : World)
    : Core * World :=
  let (go, w) := _should_optimize c w in
  if negb go then (c, w)
  else
    let (actions, w) := _analyze_system_state c system_metrics w in
    let (c, w) := apply_all c actions w in
    let (now, w) := datetime_now w in
    ({| optimization_history := optimization_history c;
        action_threshold := action_threshold c;
        last_optimization := now;
        cpu_threshold := cpu_threshold c;
        memory_threshold := memory_threshold c;
        io_threshold := io_threshold c |}, w).

(** What a call of [process] evaluates to.  The function has a bare
    [return] in the cooldown branch, runs off its end otherwise, and its
    [except] handler returns nothing either. *)
Inductive Returned : Type :=
| ReturnsNone
| ReturnsList (actions : list OptimizationAction).

Definition process_returns (c : Core) (system_metrics : SystemMetrics A) (w : World)
    : Returned :=
  let (go, w) := _should_optimize c w in
  if negb go then ReturnsNone          (* return *)
  else ReturnsNone.                    (* the end of the body *)

Definition get_optimization_history (c : Core) : list OptimizationAction :=
  optimization_history c.

End Defs.
End SynergyCore.

(* ================================================================== *)
(** * src/ai/models/continual_learner.py *)

Module ContinualLearner.
Import SystemMonitor.
Section Defs.
Context {A : Type} `{Arith A}.
Local Open Scope py_scope.

Record ProcessFeatures : Type := {
  f_pid : Z;
  cpu_usage : A;
  memory_usage : A;
  io_usage : Z;
  f_thread_count : Z;
  f_priority : Z;
  f_timestamp : Z
}.

(** What torch and river provide.  [Model] holds the weights of a
    [ProcessPredictor], [new_predictor k] is the k-th random
    initialisation, [forward] the evaluation of the network on a window (a
    sequence of any positive length), [train_step] the effect of one
    training step, which catches its own exceptions, on the weights and
    on the moments Adam keeps; it reads the learning rate and never
    writes it.  A detector of river changes state when fed, and a call to
    it returns ([true], [Some]) or raises ([false], [None]).  The code
    feeds the detectors the numpy array [aggregate]; river's
    [HalfSpaceTrees.learn_one] takes a dict of features and raises on an
    array. *)
Variable Model : Type.
Variable Moments : Type.
Variable new_predictor : nat -> Model.
Variable new_moments : Model -> Moments.
Variable forward : Model -> list ProcessFeatures -> A * A * A.
Variable train_step : Model -> A -> Moments -> list ProcessFeatures -> Model * Moments.
Variable Drift : Type.
Variable drift_update : Drift -> list A -> Drift * bool.
Variable drift_detected : Drift -> bool.
Variable Anomaly : Type.
Variable learn_one : Anomaly -> list A -> Anomaly * bool.
Variable score_one : Anomaly -> list A -> option A.

(** [optim.Adam(model.parameters(), lr=lr)]: one parameter group. *)
Record Optimizer : Type := {
  lr : A;
  moments : Moments
}.

Record Learner : Type := {
  process_predictors : PyDict.dict Model;
  optimizers : PyDict.dict Optimizer;
  feature_history : PyDict.dict (list ProcessFeatures);
  drift_detector : Drift;
  anomaly_detector : Anomaly;
  learning_rate : A;
  sequence_length : nat;
  created : nat        (* predictors initialised so far *)
}.

(** [ContinualLearner()], given the two fresh detectors. *)
Definition init (d : Drift) (a : Anomaly) : Learner :=
  {| process_predictors := [];
     optimizers := [];
     feature_history := [];
     drift_detector := d;
     anomaly_detector := a;
     learning_rate := dec 1 1000;
     sequence_length := 10;
     created := 0 |}.

Definition with_models (l : Learner) (p : PyDict.dict Model) (o : PyDict.dict Optimizer)
    (n : nat) : Learner :=
  {| process_predictors := p;
     optimizers := o;
     feature_history := feature_history l;
     drift_detector := drift_detector l;
     anomaly_detector := anomaly_detector l;
     learning_rate := learning_rate l;
     sequence_length := sequence_length l;
     created := n |}.

Definition with_history (l : Learner) (h : PyDict.dict (list ProcessFeatures)) : Learner :=
  {| process_predictors := process_predictors l;
     optimizers := optimizers l;
     feature_history := h;
     drift_detector := drift_detector l;
     anomaly_detector := anomaly_detector l;
     learning_rate := learning_rate l;
     sequence_length := sequence_length l;
     created := created l |}.

Definition with_drift_detector (l : Learner) (d : Drift) : Learner :=
  {| process_predictors := process_predictors l;
     optimizers := optimizers l;
     feature_history := feature_history l;
     drift_detector := d;
     anomaly_detector := anomaly_detector l;
     learning_rate := learning_rate l;
     sequence_length := sequence_length l;
     created := created l |}.

Definition with_anomaly_detector (l : Learner) (a : Anomaly) : Learner :=
  {| process_predictors := process_predictors l;
     optimizers := optimizers l;
     feature_history := feature_history l;
     drift_detector := drift_detector l;
     anomaly_detector := a;
     learning_rate := learning_rate l;
     sequence_length := sequence_length l;
     created := created l |}.

Definition _extract_features (proc : ProcessMetrics A) (system_metrics : SystemMetrics A)
    : ProcessFeatures :=
  {| f_pid := pid proc;
     cpu_usage := cpu_percent proc;
     memory_usage := memory_percent proc;
     io_usage := io_total (io_counters proc);
     f_thread_count := thread_count proc;
     f_priority := priority proc;
     f_timestamp := timestamp system_metrics |}.

(** A missing key raises, and the [except] of the function leaves the
    models as they are. *)
Definition _train_process_model (l : Learner) (pid : Z) : Learner :=
  match PyDict.get pid (feature_history l),
        PyDict.get pid (process_predictors l),
        PyDict.get pid (optimizers l) with
  | Some features, Some model, Some opt =>
      let (model', m') := train_step model (lr opt) (moments opt) features in
      with_models l
        (PyDict.set pid model' (process_predictors l))
        (PyDict.set pid {| lr := lr opt; moments := m' |} (optimizers l))
        (created l)
  | _, _, _ => l
  end.

Definition _update_process_model (l : Learner) (pid : Z) (features : ProcessFeatures)
    : Learner :=
  let l :=
    if PyDict.contains pid (process_predictors l) then l
    else
      let model := new_predictor (created l) in
      with_history
        (with_models l
           (PyDict.set pid model (process_predictors l))
           (PyDict.set pid {| lr := learning_rate l; moments := new_moments model |}
                       (optimizers l))
           (S (created l)))
        (PyDict.set pid [] (feature_history l)) in
  match PyDict.get pid (feature_history l) with
  | None => l                             (* KeyError, logged *)
  | Some window =>
      let window := window ++ [features] in
      let window :=
        if Nat.ltb (sequence_length l) (List.length window) then tl window else window in
      let l := with_history l (PyDict.set pid window (feature_history l)) in
      if Nat.leb (sequence_length l) (List.length window) then _train_process_model l pid
      else l
  end.

(** The loop of [_handle_drift] over the pids of [process_predictors];
    [feature_history[pid].clear()] raises for a missing key, which ends
    the loop. *)
Fixpoint reset_models (pids : list Z) (l : Learner) : Learner :=
  match pids with
  | [] => l
  | pid :: rest =>
      let model := new_predictor (created l) in
      let l := with_models l
                 (PyDict.set pid model (process_predictors l))
                 (PyDict.set pid {| lr := learning_rate l; moments := new_moments model |}
                             (optimizers l))
                 (S (created l)) in
      match PyDict.get pid (feature_history l) with
      | None => l
      | Some _ => reset_models rest (with_history l (PyDict.set pid [] (feature_history l)))
      end
  end.

Definition _handle_drift (l : Learner) : Learner :=
  reset_models (PyDict.keys (process_predictors l)) l.

(** [np.array([cpu_percent, memory_percent, context_switches, interrupts])]. *)
Definition aggregate (system_metrics : SystemMetrics A) : list A :=
  [sys_cpu_percent system_metrics;
   sys_memory_percent system_metrics;
   of_Z (context_switches system_metrics);
   of_Z (interrupts system_metrics)].

Definition _detect_drift (l : Learner) (system_metrics : SystemMetrics A) : Learner :=
  let drift_data := aggregate system_metrics in
  let (d, ok) := drift_update (drift_detector l) drift_data in
  let l := with_drift_detector l d in
  if ok then
    if drift_detected d then _handle_drift l else l
  else l.

Definition _handle_anomaly (l : Learner) (anomaly_data : list A) : Learner :=
  let rate := learning_rate l * of_Z 2 in
  {| process_predictors := process_predictors l;
     optimizers := map (fun e : Z * Optimizer =>
                          (fst e, {| lr := rate; moments := moments (snd e) |}))
                       (optimizers l);
     feature_history := feature_history l;
     drift_detector := drift_detector l;
     anomaly_detector := anomaly_detector l;
     learning_rate := rate;
     sequence_length := sequence_length l;
     created := created l |}.

Definition _detect_anomalies (l : Learner) (system_metrics : SystemMetrics A) : Learner :=
  let anomaly_data := aggregate system_metrics in
  let (a, ok) := learn_one (anomaly_detector l) anomaly_data in
  let l := with_anomaly_detector l a in
  if ok then
    match score_one a anomaly_data with
    | Some score => if score >? dec 8 10 then _handle_anomaly l anomaly_data else l
    | None => l
    end
  else l.

Definition update (l : Learner) (system_metrics : SystemMetrics A) : Learner :=
  let l := fold_left
             (fun l proc =>
                _update_process_model l (pid proc) (_extract_features proc system_metrics))
             (processes system_metrics) l in
  let l := _detect_drift l system_metrics in
  _detect_anomalies l system_metrics.

(** The prediction: the values under 'cpu_usage', 'memory_usage' and
    'io_usage'.  [feature_history[pid]] raises for a missing key, and the
    function then returns [None]. *)
Definition predict_process_metrics (l : Learner) (pid : Z) : option (A * A * A) :=
  if negb (PyDict.contains pid (process_predictors l)) then None
  else
    match PyDict.get pid (feature_history l) with
    | None => None
    | Some [] => None
    | Some features =>
        match PyDict.get pid (process_predictors l) with
        | Some model => Some (forward model features)
        | None => None
        end
    end.

(** [get_model_history]: [feature_history.get(pid, [])]. *)
Definition get_model_history (l : Learner) (pid : Z) : list ProcessFeatures :=
  match PyDict.get pid (feature_history l) with
  | Some window => window
  | None => []
  end.

End Defs.
End ContinualLearner.

Unset Implicit Arguments.

(* ================================================================== *)
(** * Facts about the exact instance *)

Lemma exact_eqb_true (x y : R) : Exact.eqb x y = true <-> x = y.
Proof. unfold Exact.eqb. destruct (Req_dec_T x y); split; congruence. Qed.

Lemma exact_ltb_true (x y : R) : Exact.ltb x y = true <-> (x < y)%R.
Proof. unfold Exact.ltb. destruct (Rlt_dec x y); split; intros; try congruence; tauto. Qed.

Lemma exact_ltb_false (x y : R) : Exact.ltb x y = false <-> (y <= x)%R.
Proof.
  unfold Exact.ltb. destruct (Rlt_dec x y); split; intros; try congruence; lra.
Qed.

Lemma exact_leb_true (x y : R) : Exact.leb x y = true <-> (x <= y)%R.
Proof. unfold Exact.leb. destruct (Rle_dec x y); split; intros; try congruence; tauto. Qed.

(* ================================================================== *)
(** * Similarity of processes (quantum_entanglement.py) *)

Module SimilarityFacts.
Import QuantumEntanglement.
Local Open Scope R_scope.

Lemma np_any3 (a b c : R) :
  np_any [a; b; c] = false <-> (a = 0 /\ b = 0 /\ c = 0).
Proof.
  unfold np_any. cbn.
  rewrite !orb_false_iff, !negb_false_iff, !exact_eqb_true. tauto.
Qed.

Lemma norm3 (a b c : R) : np_linalg_norm [a; b; c] = sqrt (a * a + b * b + c * c).
Proof. unfold np_linalg_norm, np_dot. cbn. f_equal. lra. Qed.

Lemma norm3_pos (a b c : R) :
  ~ (a = 0 /\ b = 0 /\ c = 0) -> 0 < sqrt (a * a + b * b + c * c).
Proof.
  intros Hnz. apply sqrt_lt_R0.
  assert (0 <= a * a) by nra. assert (0 <= b * b) by nra. assert (0 <= c * c) by nra.
  destruct (Req_dec a 0) as [Ha|Ha].
  - destruct (Req_dec b 0) as [Hb|Hb].
    + destruct (Req_dec c 0) as [Hc|Hc]; [tauto|]. assert (0 < c * c) by nra. lra.
    + assert (0 < b * b) by nra. lra.
  - assert (0 < a * a) by nra. lra.
Qed.

(** The formula without rounding: the cosine of a non-zero vector with
    itself is 1.  (In binary64 the code returns a neighbour of 1, see
    [SimilarityFloat].) *)
Lemma similarity_same (p1 p2 : Process (A := R)) :
  metrics p1 = metrics p2 -> metrics p1 <> [0; 0; 0] -> _calculate_similarity p1 p2 = 1.
Proof.
  unfold _calculate_similarity. intros <-.
  remember (metrics p1) as m eqn:E. unfold metrics in E.
  set (a := get0 (cpu_percent p1)) in *. set (b := get0 (memory_percent p1)) in *.
  set (c := get0 (io_rate p1)) in *. subst m. intros Hnz.
  assert (Hn : ~ (a = 0 /\ b = 0 /\ c = 0))
    by (intros (-> & -> & ->); apply Hnz; reflexivity).
  unfold normalize. destruct (np_any [a; b; c]) eqn:Ea.
  2:{ apply np_any3 in Ea. tauto. }
  unfold fst. rewrite norm3. pose proof (norm3_pos a b c Hn) as Hpos.
  set (n := sqrt (a * a + b * b + c * c)) in *.
  assert (Hsq : n * n = a * a + b * b + c * c) by (apply sqrt_sqrt; nra).
  assert (Hd : np_dot (vdivs [a; b; c] n) (vdivs [a; b; c] n) = 1).
  { unfold np_dot, vdivs. cbn.
    transitivity ((a * a + b * b + c * c) / (n * n)); [field; lra|].
    rewrite <- Hsq. field. lra. }
  rewrite Hd. unfold py_max. cbn.
  destruct (Exact.ltb 0 1) eqn:El; [reflexivity|].
  apply exact_ltb_false in El. lra.
Qed.

End SimilarityFacts.

(* ================================================================== *)
(** * Lists and dicts *)

Lemma list_set_length {X} (i : nat) (x : X) (l : list X) :
  List.length (list_set i x l) = List.length l.
Proof.
  revert i. induction l as [|y l IH]; intros [|i]; cbn; auto.
Qed.

Lemma nth_list_set_eq {X} (i : nat) (x d : X) (l : list X) :
  (i < List.length l)%nat -> nth i (list_set i x l) d = x.
Proof.
  revert i. induction l as [|y l IH]; intros [|i] Hi; cbn in *; try lia; auto.
  apply IH. lia.
Qed.

Lemma nth_list_set_ne {X} (i j : nat) (x d : X) (l : list X) :
  i <> j -> nth j (list_set i x l) d = nth j l d.
Proof.
  revert i j. induction l as [|y l IH]; intros [|i] [|j] Hij; cbn; auto; try lia.
Qed.

Lemma dict_get_set_eq {V} (k : Z) (v : V) (d : PyDict.dict V) :
  PyDict.get k (PyDict.set k v d) = Some v.
Proof.
  induction d as [|[k' v'] d IH]; cbn.
  - rewrite Z.eqb_refl. reflexivity.
  - destruct (Z.eqb k k') eqn:E; cbn; rewrite ?Z.eqb_refl, ?E; auto.
Qed.

Lemma dict_get_set_ne {V} (k k' : Z) (v : V) (d : PyDict.dict V) :
  k <> k' -> PyDict.get k' (PyDict.set k v d) = PyDict.get k' d.
Proof.
  intros Hne. induction d as [|[k0 v0] d IH]; cbn.
  - destruct (Z.eqb_spec k' k); [congruence|reflexivity].
  - destruct (Z.eqb_spec k k0); cbn.
    + subst k0. destruct (Z.eqb_spec k' k); [congruence|reflexivity].
    + destruct (Z.eqb_spec k' k0); auto.
Qed.

Lemma dict_get_in {V} (k : Z) (v : V) (d : PyDict.dict V) :
  PyDict.get k d = Some v -> In (k, v) d.
Proof.
  induction d as [|[k' v'] d IH]; cbn; [discriminate|].
  destruct (Z.eqb_spec k k'); [intros [= ->]; subst; auto | auto].
Qed.

Lemma dict_keys_set_present {V} (k : Z) (v : V) (d : PyDict.dict V) :
  PyDict.contains k d = true -> PyDict.keys (PyDict.set k v d) = PyDict.keys d.
Proof.
  unfold PyDict.contains, PyDict.keys.
  induction d as [|[k' v'] d IH]; cbn; [discriminate|].
  destruct (Z.eqb_spec k k'); cbn; [congruence|].
  intros Hc. f_equal. apply IH. exact Hc.
Qed.

(* ================================================================== *)
(** * The coupling matrix (scheduler.py) *)

Module HamiltonianFacts.
Import QuantumScheduler.
Section Generic.
Context {A : Type} `{Arith A}.

(** An n-by-n matrix. *)
Definition square (n : nat) (h : matrix (A := A)) : Prop :=
  List.length h = n /\ forall i, List.length (nth i h (np_zeros n)) = n.

Lemma np_zeros_length (n : nat) : List.length (np_zeros (A := A) n) = n.
Proof. apply repeat_length. Qed.

Lemma square_zeros (n : nat) : square n (np_zeros2 n n).
Proof.
  split; [apply repeat_length|]. intros i.
  unfold np_zeros2.
  destruct (Nat.lt_ge_cases i n) as [Hi|Hi].
  - rewrite nth_repeat_lt by exact Hi. apply np_zeros_length.
  - rewrite nth_overflow; [apply np_zeros_length|].
    rewrite repeat_length. exact Hi.
Qed.

Lemma entry_zeros (n a b : nat) : entry (np_zeros2 n n) a b = of_Z 0.
Proof.
  unfold entry, np_zeros2.
  destruct (Nat.lt_ge_cases a n) as [Ha|Ha].
  - rewrite nth_repeat_lt by exact Ha. unfold np_zeros.
    destruct (Nat.lt_ge_cases b n) as [Hb|Hb].
    + apply nth_repeat_lt. exact Hb.
    + apply nth_overflow. rewrite repeat_length. exact Hb.
  - rewrite (nth_overflow (repeat (np_zeros n) n)); [destruct b; reflexivity|].
    rewrite repeat_length. exact Ha.
Qed.

Lemma row_default (n i : nat) (h : matrix (A := A)) :
  square n h -> (i < n)%nat -> nth i h [] = nth i h (np_zeros n).
Proof. intros [Hl _] Hi. apply nth_indep. lia. Qed.

Lemma square_set_entry (n i j : nat) (x : A) (h : matrix (A := A)) :
  square n h -> (i < n)%nat -> square n (set_entry h i j x).
Proof.
  intros Hs Hi. pose proof Hs as [Hl Hr]. unfold set_entry. split.
  - rewrite list_set_length. exact Hl.
  - intros k. destruct (Nat.eq_dec i k) as [<-|Hne].
    + rewrite nth_list_set_eq by lia. rewrite list_set_length.
      rewrite (row_default n i h Hs Hi). apply Hr.
    + rewrite nth_list_set_ne by exact Hne. apply Hr.
Qed.

Lemma entry_set_entry (n i j a b : nat) (x : A) (h : matrix (A := A)) :
  square n h -> (i < n)%nat -> (j < n)%nat ->
  entry (set_entry h i j x) a b =
  if andb (Nat.eqb a i) (Nat.eqb b j) then x else entry h a b.
Proof.
  intros Hs Hi Hj. pose proof Hs as [Hl Hr]. unfold entry, set_entry.
  destruct (Nat.eqb_spec a i) as [->|Hai]; cbn [andb].
  - rewrite nth_list_set_eq by lia.
    destruct (Nat.eqb_spec b j) as [->|Hbj].
    + apply nth_list_set_eq. rewrite (row_default n i h Hs Hi), Hr. exact Hj.
    + apply nth_list_set_ne. congruence.
  - rewrite nth_list_set_ne by congruence. reflexivity.
Qed.

Variable states : list (ProcessState (A := A)).

(** The interaction of the processes at two positions of the list. *)
Definition coupling (a b : nat) : A :=
  match nth_error states a, nth_error states b with
  | Some sa, Some sb => _calculate_interaction sa sb
  | _, _ => of_Z 0
  end.

Let n := List.length states.

(** The body of the inner loop. *)
Definition couple (i : nat) (hamiltonian : matrix (A := A)) (j : nat) : matrix :=
  match nth_error states i, nth_error states j with
  | Some si, Some sj =>
      let interaction := _calculate_interaction si sj in
      let hamiltonian := set_entry hamiltonian i j interaction in
      set_entry hamiltonian j i interaction
  | _, _ => hamiltonian
  end.

Lemma couple_spec (i j : nat) (h : matrix (A := A)) :
  square n h -> (i < n)%nat -> (j < n)%nat -> i <> j ->
  square n (couple i h j) /\
  forall a b, entry (couple i h j) a b =
    if andb (Nat.eqb a i) (Nat.eqb b j) then coupling i j
    else if andb (Nat.eqb a j) (Nat.eqb b i) then coupling i j
    else entry h a b.
Proof.
  intros Hs Hi Hj Hij. unfold couple, coupling.
  destruct (nth_error states i) as [si|] eqn:Ei.
  2:{ apply nth_error_None in Ei. unfold n in Hi. lia. }
  destruct (nth_error states j) as [sj|] eqn:Ej.
  2:{ apply nth_error_None in Ej. unfold n in Hj. lia. }
  cbv zeta. split.
  - apply square_set_entry; [apply square_set_entry|]; assumption.
  - intros a b.
    rewrite (entry_set_entry n j i a b) by (try apply square_set_entry; assumption).
    rewrite (entry_set_entry n i j a b) by assumption.
    destruct (Nat.eqb_spec a i), (Nat.eqb_spec b j), (Nat.eqb_spec a j), (Nat.eqb_spec b i);
      cbn [andb]; try reflexivity; subst; congruence.
Qed.

(** The inner loop over [j] in [range(i + 1, i + 1 + k)]. *)
Lemma inner_loop_spec (i k : nat) (h : matrix (A := A)) :
  square n h -> (i + 1 + k <= n)%nat ->
  let h' := fold_left (couple i) (seq (i + 1) k) h in
  square n h' /\
  forall a b, entry h' a b =
    if andb (Nat.eqb a i) (andb (Nat.ltb i b) (Nat.ltb b (i + 1 + k))) then coupling i b
    else if andb (Nat.eqb b i) (andb (Nat.ltb i a) (Nat.ltb a (i + 1 + k))) then coupling i a
    else entry h a b.
Proof.
  intros Hs. induction k as [|k IH]; intros Hk h'.
  - subst h'. cbn [seq fold_left]. split; [exact Hs|]. intros a b.
    destruct (Nat.eqb_spec a i), (Nat.eqb_spec b i),
             (Nat.ltb_spec i a), (Nat.ltb_spec i b),
             (Nat.ltb_spec a (i + 1 + 0)), (Nat.ltb_spec b (i + 1 + 0));
      cbn [andb]; subst; try reflexivity; try lia.
  - subst h'. rewrite seq_S, fold_left_app. cbn [fold_left].
    destruct IH as [Hs' He]; [lia|].
    destruct (couple_spec i (i + 1 + k) _ Hs') as [Hs'' He'']; try lia.
    split; [exact Hs''|]. intros a b. rewrite He'', He.
    destruct (Nat.eqb_spec a i), (Nat.eqb_spec b i),
             (Nat.eqb_spec a (i + 1 + k)), (Nat.eqb_spec b (i + 1 + k)),
             (Nat.ltb_spec i a), (Nat.ltb_spec i b),
             (Nat.ltb_spec a (i + 1 + k)), (Nat.ltb_spec b (i + 1 + k)),
             (Nat.ltb_spec a (i + 1 + S k)), (Nat.ltb_spec b (i + 1 + S k));
      cbn [andb]; subst; try reflexivity; try lia.
Qed.

(** The outer loop over [i] in [range(m)]. *)
Lemma outer_loop_spec (m : nat) (h : matrix (A := A)) :
  square n h -> (m <= n)%nat ->
  let h' := fold_left
              (fun h i => fold_left (couple i) (seq (i + 1) (n - (i + 1))) h)
              (seq 0 m) h in
  square n h' /\
  forall a b, entry h' a b =
    if andb (Nat.ltb a m) (andb (Nat.ltb a b) (Nat.ltb b n)) then coupling a b
    else if andb (Nat.ltb b m) (andb (Nat.ltb b a) (Nat.ltb a n)) then coupling b a
    else entry h a b.
Proof.
  intros Hs. induction m as [|m IH]; intros Hm h'.
  - subst h'. cbn [seq fold_left]. split; [exact Hs|]. intros a b.
    destruct (Nat.ltb_spec a 0), (Nat.ltb_spec b 0); cbn [andb]; try reflexivity; lia.
  - subst h'. rewrite seq_S, fold_left_app. cbn [fold_left Nat.add].
    destruct IH as [Hs' He]; [lia|].
    destruct (inner_loop_spec m (n - (m + 1)) _ Hs') as [Hs'' He'']; [lia|].
    split; [exact Hs''|]. intros a b. rewrite He'', He.
    replace (m + 1 + (n - (m + 1)))%nat with n by lia.
    destruct (Nat.eqb_spec a m), (Nat.eqb_spec b m),
             (Nat.ltb_spec a m), (Nat.ltb_spec b m),
             (Nat.ltb_spec a (S m)), (Nat.ltb_spec b (S m)),
             (Nat.ltb_spec m a), (Nat.ltb_spec m b),
             (Nat.ltb_spec a b), (Nat.ltb_spec b a),
             (Nat.ltb_spec a n), (Nat.ltb_spec b n);
      cbn [andb]; subst; try reflexivity; try lia.
Qed.

(** Every entry of the matrix [_create_hamiltonian] builds. *)
Lemma hamiltonian_entry (a b : nat) :
  entry (_create_hamiltonian states) a b =
  if andb (Nat.ltb a b) (Nat.ltb b n) then coupling a b
  else if andb (Nat.ltb b a) (Nat.ltb a n) then coupling b a
  else of_Z 0.
Proof.
  unfold _create_hamiltonian. fold n.
  destruct (outer_loop_spec n (np_zeros2 n n) (square_zeros n) (le_n n)) as [_ He].
  unfold couple in He. rewrite He, entry_zeros.
  destruct (Nat.ltb_spec a n), (Nat.ltb_spec b n), (Nat.ltb_spec a b), (Nat.ltb_spec b a);
    cbn [andb]; try reflexivity; try lia.
Qed.

Lemma hamiltonian_symmetric (a b : nat) :
  entry (_create_hamiltonian states) a b = entry (_create_hamiltonian states) b a.
Proof.
  rewrite !hamiltonian_entry.
  destruct (Nat.ltb_spec a n), (Nat.ltb_spec b n), (Nat.ltb_spec a b), (Nat.ltb_spec b a);
    cbn [andb]; try reflexivity; try lia.
Qed.

Lemma hamiltonian_diagonal (a : nat) :
  entry (_create_hamiltonian states) a a = of_Z 0.
Proof.
  rewrite hamiltonian_entry. rewrite Nat.ltb_irrefl. reflexivity.
Qed.

End Generic.
End HamiltonianFacts.

(* ================================================================== *)
(** * Concrete telemetry *)

Module Scenario.
Import SystemMonitor.
Section Generic.
Context {A : Type} `{Arith A}.

Definition proc (pid : Z) (name : string) (cpu mem : A) (io : option IoCounters)
    (threads : Z) : ProcessMetrics A :=
  {| pid := pid; name := name; cpu_percent := cpu; memory_percent := mem;
     io_counters := io; thread_count := threads; priority := 0 |}.

Definition snapshot (t : Z) (cpu mem : A) (ps : list (ProcessMetrics A))
    : SystemMetrics A :=
  {| timestamp := t; sys_cpu_percent := cpu; sys_memory_percent := mem;
     processes := ps; context_switches := 0; interrupts := 0 |}.

(** A clock that reads 0 at first and two seconds later ever after. *)
Definition clock (n : nat) : Z :=
  match n with O => 0%Z | S _ => 2000000%Z end.

(** Draws of [np.random.rand]: all components 1/2 at first, 1/4 after. *)
Definition rand_halves (k n : nat) : list A :=
  match k with O => repeat (dec 1 2) n | S _ => repeat (dec 1 4) n end.

(** Draws with unequal components. *)
Definition rand_mixed (k n : nat) : list A :=
  match k with
  | O => firstn n [dec 3 10; dec 1 10; dec 9 10; dec 5 10]
  | S _ => firstn n [dec 25 100; dec 7 10; dec 1 10; dec 2 10]
  end.

(** Two processes whose cpu usage differs by 6 points. *)
Definition calm : SystemMetrics A :=
  snapshot 2000000 (of_Z 20) (of_Z 30)
    [proc 500 "a.exe" (of_Z 16) (of_Z 5) None 3;
     proc 501 "b.exe" (of_Z 10) (of_Z 5) None 3].

(** A busy worker next to an idle process. *)
Definition loaded : SystemMetrics A :=
  snapshot 2000000 (of_Z 95) (of_Z 60)
    [proc 500 "worker.exe" (of_Z 92) (of_Z 40) None 10;
     proc 501 "idle.exe" (of_Z 0) (of_Z 40) None 3].

End Generic.
End Scenario.

(* ================================================================== *)
(** * The scheduler (scheduler.py) *)

Module SchedulerFacts.
Import SystemMonitor QuantumScheduler HamiltonianFacts.

Section Generic.
Context {A : Type} `{Arith A}.

Lemma fold_evolve_length (nq : nat) (temp : A) (h : matrix) (l : list nat)
    (cs : list (ndarray (A := A))) :
  List.length (fold_left (evolve nq temp h) l cs) = List.length cs.
Proof.
  revert cs. induction l as [|i l IH]; intros cs; cbn [fold_left]; [reflexivity|].
  rewrite IH. unfold evolve. apply list_set_length.
Qed.

Lemma anneal_steps_length (k nq : nat) (temp : A) (h : matrix)
    (cs : list (ndarray (A := A))) :
  List.length (anneal_steps k nq temp h cs) = List.length cs.
Proof.
  unfold anneal_steps. induction k as [|k IH]; [reflexivity|].
  rewrite Nat.iter_succ. unfold anneal_step at 1. rewrite fold_evolve_length. exact IH.
Qed.

Lemma quantum_annealing_length (s : Scheduler) (h : matrix)
    (states : list (ProcessState (A := A))) :
  List.length (_quantum_annealing s h states) = List.length states.
Proof.
  unfold _quantum_annealing. rewrite anneal_steps_length. apply length_map.
Qed.

(** When there is an optimized state for every entry, every entry of the
    dict holds an optimized state afterwards. *)
Lemma store_optimized_all (d : PyDict.dict ProcessState)
    (os : list (ndarray (A := A))) :
  (List.length d <= List.length os)%nat ->
  Forall (fun e => exists state o, snd e = optimized state o) (store_optimized d os).
Proof.
  revert os. induction d as [|[k st] d IH]; intros [|o os] Hl; cbn in *;
    try lia; constructor.
  - cbn. eauto.
  - apply IH. lia.
Qed.

Lemma store_optimized_keys (d : PyDict.dict ProcessState)
    (os : list (ndarray (A := A))) :
  PyDict.keys (store_optimized d os) = PyDict.keys d.
Proof.
  revert os. induction d as [|[k st] d IH]; intros [|o os]; cbn; try reflexivity.
  f_equal. apply IH.
Qed.

Lemma optimize_scheduling_states (clock : nat -> Z) (s : Scheduler) (w : World) :
  process_states (fst (_optimize_scheduling clock s w)) =
  let states := PyDict.values (process_states s) in
  store_optimized (process_states s)
    (_quantum_annealing s (_create_hamiltonian states) states).
Proof.
  unfold _optimize_scheduling.
  destruct (process_states s) as [|[k st] d] eqn:E.
  - cbn [PyDict.values map fst store_optimized]. exact E.
  - reflexivity.
Qed.

End Generic.

(** C2 (as amended). After a relaxation pass, the priority stored for
    every tracked pid is 0.7 * mean(state) + 0.3 * (cpu + memory) / 2 of
    the state and usage stored with it: the usage score is not divided by
    100 and the result is not clamped. *)
Theorem stored_priority_after_pass {A : Type} `{Arith A} (clock : nat -> Z)
    (s : Scheduler) (w : World) (pid : Z) (state : ProcessState (A := A)) :
  PyDict.get pid (process_states (fst (_optimize_scheduling clock s w))) = Some state ->
  st_priority state =
  (dec 7 10 * np_mean (quantum_state state) +
   dec 3 10 * ((cpu (resource_usage state) + memory (resource_usage state)) / of_Z 2))%py.
Proof.
  rewrite optimize_scheduling_states. cbv zeta. intros Hg.
  apply dict_get_in in Hg.
  pose proof (store_optimized_all (process_states s)
                (_quantum_annealing s
                   (_create_hamiltonian (PyDict.values (process_states s)))
                   (PyDict.values (process_states s)))) as Hall.
  assert (Hlen : (List.length (process_states s) <=
                  List.length (_quantum_annealing s
                     (_create_hamiltonian (PyDict.values (process_states s)))
                     (PyDict.values (process_states s))))%nat).
  { rewrite quantum_annealing_length. unfold PyDict.values. rewrite length_map. apply le_n. }
  specialize (Hall Hlen). rewrite Forall_forall in Hall. destruct (Hall _ Hg) as (st0 & o & E).
  cbn [snd] in E. subst state. reflexivity.
Qed.

(** The scheduler after its first update, two seconds after it was
    built, on the snapshot [loaded]. *)
Definition after_loaded {A : Type} `{Arith A} : Scheduler (A := A) :=
  let (s, w) := init Scenario.clock 4 {| reads := 0; draws := 0 |} in
  fst (update Scenario.clock Scenario.rand_mixed s Scenario.loaded w).

Definition before_pass : Scheduler (A := PrimFloat.float) * World :=
  let (s, w) := init Scenario.clock 4 {| reads := 0; draws := 0 |} in
  _update_process_states Scenario.rand_mixed s Scenario.loaded w.

Lemma stored_priority_after_pass_witness :
  exists state : ProcessState (A := PrimFloat.float),
    PyDict.get 500
      (process_states
         (fst (_optimize_scheduling Scenario.clock (fst before_pass) (snd before_pass))))
    = Some state /\
    st_priority state =
    (dec 7 10 * np_mean (quantum_state state) +
     dec 3 10 * ((cpu (resource_usage state) + memory (resource_usage state)) / of_Z 2))%py.
Proof.
  eexists. split.
  - vm_compute. reflexivity.
  - apply (stored_priority_after_pass Scenario.clock (fst before_pass) (snd before_pass) 500).
    vm_compute. reflexivity.
Defined.

(** C2, the claim as stated fails: the usage score enters undivided, so a
    unit state and 92% cpu with 40% memory give a priority above 20 in
    exact arithmetic, and the priority the scheduler stores for that
    process after its first pass is above 1 in binary64 arithmetic. *)
Lemma stored_priority_exceeds_one :
  (20 < _calculate_priority (A := R) [1 / 2; 1 / 2; 1 / 2; 1 / 2]
          {| cpu := 92; memory := 40; io := 0 |})%R /\
  exists state : ProcessState (A := PrimFloat.float),
    get_process_priority after_loaded 500 = Some state /\
    flt (of_Z 1) (st_priority state) = true.
Proof.
  split.
  - unfold _calculate_priority, np_mean, np_sum, dec. cbn. lra.
  - eexists. split; vm_compute; reflexivity.
Qed.

Lemma interaction_nonnegative (s1 s2 : ProcessState (A := R)) :
  (0 <= _calculate_interaction s1 s2)%R.
Proof.
  unfold _calculate_interaction. cbn.
  pose proof (Rabs_pos (cpu (resource_usage s1) - cpu (resource_usage s2))).
  pose proof (Rabs_pos (memory (resource_usage s1) - memory (resource_usage s2))).
  pose proof (IZR_le _ _ (Z.abs_nonneg (io (resource_usage s1) - io (resource_usage s2)))).
  apply Rmult_le_pos; [|lra]. lra.
Qed.

Lemma coupling_nonnegative (states : list (ProcessState (A := R))) (a b : nat) :
  (0 <= coupling states a b)%R.
Proof.
  unfold coupling.
  destruct (nth_error states a), (nth_error states b);
    try apply interaction_nonnegative; cbn; lra.
Qed.

(** C6 (as amended). The coupling matrix built over the tracked
    processes is symmetric with zero diagonal, and its entry for two
    different tracked processes is the mean of the absolute differences
    of their cpu, memory and io: the sum of the three divided by 3, in
    any arithmetic.  In exact arithmetic every entry is non-negative.
    Nothing bounds an entry by 1. *)
Theorem coupling_matrix_symmetric_zero_diagonal :
  (forall (A : Type) (H : Arith A) (states : list (ProcessState (A := A))) (i j : nat),
      entry (_create_hamiltonian states) i j = entry (_create_hamiltonian states) j i /\
      entry (_create_hamiltonian states) i i = of_Z 0) /\
  (forall (A : Type) (H : Arith A) (states : list (ProcessState (A := A))) (i j : nat)
          (si sj : ProcessState (A := A)),
      nth_error states i = Some si -> nth_error states j = Some sj -> (i < j)%nat ->
      entry (_create_hamiltonian states) i j =
        ((fabs (cpu (resource_usage si) - cpu (resource_usage sj)) +
          fabs (memory (resource_usage si) - memory (resource_usage sj)) +
          of_Z (Z.abs (io (resource_usage si) - io (resource_usage sj)))) / of_Z 3)%py) /\
  (forall (states : list (ProcessState (A := R))) (i j : nat),
      (0 <= entry (_create_hamiltonian states) i j)%R).
Proof.
  split; [|split].
  - intros A H states i j. split.
    + apply hamiltonian_symmetric.
    + apply hamiltonian_diagonal.
  - intros A H states i j si sj Hi Hj Hlt. rewrite hamiltonian_entry.
    assert (Hjl : (j < List.length states)%nat) by (apply nth_error_Some; congruence).
    destruct (Nat.ltb_spec i j) as [_|Hge]; [|lia].
    destruct (Nat.ltb_spec j (List.length states)) as [_|Hge]; [|lia].
    cbn [andb]. unfold coupling. rewrite Hi, Hj. reflexivity.
  - intros states i j. rewrite hamiltonian_entry.
    destruct (andb _ _); [apply coupling_nonnegative|].
    destruct (andb _ _); [apply coupling_nonnegative|]. cbn. lra.
Qed.

(** The scheduler, built at time 0, after it has read a snapshot, and
    the states it tracks then. *)
Definition tracked_scheduler {A : Type} `{Arith A} (rand : nat -> nat -> list A)
    (m : SystemMetrics A) : Scheduler (A := A) * World :=
  let (s, w) := init Scenario.clock 4 {| reads := 0; draws := 0 |} in
  _update_process_states rand s m w.

Definition tracked {A : Type} `{Arith A} (rand : nat -> nat -> list A)
    (m : SystemMetrics A) : list (ProcessState (A := A)) :=
  PyDict.values (process_states (fst (tracked_scheduler rand m))).

(** C6, the claim as stated fails: for two processes at 92% and 0% cpu
    with equal memory and io the coupling is 92/3, above 1, in exact and
    in binary64 arithmetic. *)
Lemma coupling_exceeds_one :
  (30 < entry (_create_hamiltonian (A := R)
                 (tracked Scenario.rand_mixed Scenario.loaded)) 0 1)%R /\
  flt (of_Z 30)
      (entry (_create_hamiltonian (A := PrimFloat.float)
                (tracked Scenario.rand_mixed Scenario.loaded)) 0 1) = true.
Proof.
  split.
  - rewrite hamiltonian_entry. cbn.
    rewrite Rminus_0_r, (Rabs_pos_eq 92) by lra.
    rewrite Rminus_diag, Rabs_R0. lra.
  - vm_compute. reflexivity.
Qed.

(** The scheduler on its first tick, before the pass: the snapshot
    [calm] has been read and the two new states drawn. *)
Definition first_tick : Scheduler (A := PrimFloat.float) * World :=
  let (s, w) := init Scenario.clock 4 {| reads := 0; draws := 0 |} in
  _update_process_states Scenario.rand_halves s Scenario.calm w.

(** C3, the code on a first tick: two new processes whose usage differs by
    6 points of cpu (coupling 2) and whose random states are (1/2, 1/2,
    1/2, 1/2) and (1/4, 1/4, 1/4, 1/4).  In the first step the first
    state is pushed to the zero vector and the code divides it by its
    norm, 0; nothing re-seeds the state or skips the update, and at the
    end of the pass every state, and every stored priority, is nan. *)
Theorem annealing_divides_by_zero_norm :
  let s := fst first_tick in
  let states := PyDict.values (process_states s) in
  let h := _create_hamiltonian states in
  map quantum_state states = [repeat (dec 1 2) 4; repeat (dec 1 4) 4] /\
  entry h 0 1 = of_Z 2 /\
  pushed (num_qubits s) (temperature s) h (map quantum_state states) 0
    = repeat (of_Z 0) 4 /\
  np_linalg_norm (pushed (num_qubits s) (temperature s) h (map quantum_state states) 0)
    = of_Z 0 /\
  _quantum_annealing s h states = [repeat PrimFloat.nan 4; repeat PrimFloat.nan 4] /\
  map (fun e => (fst e, st_priority (snd e)))
      (process_states (fst (_optimize_scheduling Scenario.clock s (snd first_tick))))
    = [(500%Z, PrimFloat.nan); (501%Z, PrimFloat.nan)].
Proof.
  vm_compute. repeat split.
Qed.

(** C5, the code on a tracked pid: the query returns the whole state of
    the process, not its priority; on an unknown pid it returns [None]. *)
Theorem get_process_priority_returns_state :
  let s : Scheduler (A := PrimFloat.float) := after_loaded in
  (exists state, get_process_priority s 501 = Some state /\
                 st_pid state = 501%Z /\
                 resource_usage state = {| cpu := of_Z 0; memory := of_Z 40; io := 0 |} /\
                 List.length (quantum_state state) = 4%nat) /\
  get_process_priority s 77 = None.
Proof.
  split.
  - eexists. split; [vm_compute; reflexivity|]. vm_compute. repeat split.
  - vm_compute. reflexivity.
Qed.

(** ** The temperature *)

Section ExactTemperature.
Local Open Scope R_scope.

(** X4. After a pass over a non-empty set of states, the temperature has
    decayed by the annealing rate and, in exact arithmetic, is not below
    the floor. *)
Theorem temperature_after_pass (clock : nat -> Z) (s : Scheduler (A := R)) (w : World) :
  process_states s <> [] ->
  let t' := temperature (fst (_optimize_scheduling clock s w)) in
  t' = py_max (min_temperature s) (temperature s * annealing_rate s)%py /\
  min_temperature s <= t'.
Proof.
  intros Hne. cbv zeta. unfold _optimize_scheduling.
  destruct (process_states s) as [|[k st] d] eqn:E; [congruence|].
  cbn [PyDict.values map]. unfold datetime_now. cbn [fst temperature].
  split; [reflexivity|]. unfold py_max. cbn [flt fmul real_arith].
  destruct (Exact.ltb _ _) eqn:El; [|lra].
  apply exact_ltb_true in El. lra.
Qed.

Lemma temperature_after_pass_witness :
  let s : Scheduler (A := R) := fst (tracked_scheduler Scenario.rand_mixed Scenario.loaded) in
  min_temperature s <=
  temperature (fst (_optimize_scheduling Scenario.clock s {| reads := 1; draws := 2 |})).
Proof.
  cbv zeta.
  apply (temperature_after_pass Scenario.clock
           (fst (tracked_scheduler Scenario.rand_mixed Scenario.loaded))
           {| reads := 1; draws := 2 |}).
  cbn. discriminate.
Defined.

End ExactTemperature.

End SchedulerFacts.

(* ================================================================== *)
(** * The action synthesizer (synergy_core.py) *)

Module SynergyFacts.
Import SystemMonitor SynergyCore.

Section Generic.
Context {A : Type} `{Arith A}.
Variable OS : Type.
Variable win32 : Win32Call -> OS -> OS * bool.
Variable clock : nat -> Z.
Variable cpu_count : option Z.
Variable total_memory : Z.

(** The world seen by the operating system: its state and the calls made. *)
Definition same_os (w w' : World OS) : Prop :=
  os w' = os w /\ calls w' = calls w.

Lemma same_os_refl (w : World OS) : same_os w w.
Proof. split; reflexivity. Qed.

Lemma same_os_trans (w1 w2 w3 : World OS) :
  same_os w1 w2 -> same_os w2 w3 -> same_os w1 w3.
Proof. intros [? ?] [? ?]. split; congruence. Qed.

Lemma datetime_now_same_os (w : World OS) : same_os w (snd (datetime_now clock w)).
Proof. split; reflexivity. Qed.

Lemma fold_same_os {X Y : Type} (f : Y * World OS -> X -> Y * World OS) (l : list X) :
  (forall yw x, same_os (snd yw) (snd (f yw x))) ->
  forall yw, same_os (snd yw) (snd (fold_left f l yw)).
Proof.
  intros Hf. induction l as [|x l IH]; intros yw; cbn [fold_left].
  - apply same_os_refl.
  - eapply same_os_trans; [apply Hf | apply IH].
Qed.

Lemma optimize_cpu_usage_same_os (m : SystemMetrics A) (w : World OS) :
  same_os w (snd (_optimize_cpu_usage clock cpu_count m w)).
Proof.
  unfold _optimize_cpu_usage.
  apply (fold_same_os _ _) with (yw := ([], w)).
  intros [actions w'] proc. destruct (flt _ _); cbn; split; reflexivity.
Qed.

Lemma optimize_memory_usage_same_os (m : SystemMetrics A) (w : World OS) :
  same_os w (snd (_optimize_memory_usage clock total_memory m w)).
Proof.
  unfold _optimize_memory_usage.
  apply (fold_same_os _ _) with (yw := ([], w)).
  intros [actions w'] proc. destruct (flt _ _); cbn; split; reflexivity.
Qed.

Lemma optimize_process_same_os (c : Core) (proc : ProcessMetrics A) (w : World OS) :
  same_os w (snd (_optimize_process clock c proc w)).
Proof.
  unfold _optimize_process.
  destruct (io_counters proc) as [io|]; [destruct (Z.gtb _ _)|];
    destruct (Z.gtb (thread_count proc) 100); cbn; split; reflexivity.
Qed.

(** The analysis reads the clock and leaves the operating system alone. *)
Lemma analyze_same_os (c : Core) (m : SystemMetrics A) (w : World OS) :
  same_os w (snd (_analyze_system_state clock cpu_count total_memory c m w)).
Proof.
  unfold _analyze_system_state.
  destruct (flt (cpu_threshold c) (sys_cpu_percent m)).
  - pose proof (optimize_cpu_usage_same_os m w) as H1.
    destruct (_optimize_cpu_usage clock cpu_count m w) as [a1 w1]. cbn [snd] in H1.
    destruct (flt (memory_threshold c) (sys_memory_percent m)).
    + pose proof (optimize_memory_usage_same_os m w1) as H2.
      destruct (_optimize_memory_usage clock total_memory m w1) as [a2 w2]. cbn [snd] in H2.
      eapply same_os_trans; [exact H1|]. eapply same_os_trans; [exact H2|].
      apply (fold_same_os _ _) with (yw := (a1 ++ a2, w2)).
      intros [actions w'] proc. destruct (_is_process_optimizable proc);
        [|apply same_os_refl].
      pose proof (optimize_process_same_os c proc w') as H3.
      destruct (_optimize_process clock c proc w'). exact H3.
    + eapply same_os_trans; [exact H1|].
      apply (fold_same_os _ _) with (yw := (a1, w1)).
      intros [actions w'] proc. destruct (_is_process_optimizable proc);
        [|apply same_os_refl].
      pose proof (optimize_process_same_os c proc w') as H3.
      destruct (_optimize_process clock c proc w'). exact H3.
  - destruct (flt (memory_threshold c) (sys_memory_percent m)).
    + pose proof (optimize_memory_usage_same_os m w) as H2.
      destruct (_optimize_memory_usage clock total_memory m w) as [a2 w2]. cbn [snd] in H2.
      eapply same_os_trans; [exact H2|].
      apply (fold_same_os _ _) with (yw := ([] ++ a2, w2)).
      intros [actions w'] proc. destruct (_is_process_optimizable proc);
        [|apply same_os_refl].
      pose proof (optimize_process_same_os c proc w') as H3.
      destruct (_optimize_process clock c proc w'). exact H3.
    + apply (fold_same_os _ _) with (yw := ([], w)).
      intros [actions w'] proc. destruct (_is_process_optimizable proc);
        [|apply same_os_refl].
      pose proof (optimize_process_same_os c proc w') as H3.
      destruct (_optimize_process clock c proc w'). exact H3.
Qed.

(** When [_should_optimize] answers no, [process] changes nothing: the
    core, and with it the history, is what it was, and no call reaches
    the operating system. *)
Lemma process_gate_closed (c : Core) (m : SystemMetrics A) (w : World OS) :
  fst (_should_optimize clock c w) = false ->
  fst (process win32 clock cpu_count total_memory c m w) = c /\
  os (snd (process win32 clock cpu_count total_memory c m w)) = os w /\
  calls (snd (process win32 clock cpu_count total_memory c m w)) = calls w.
Proof.
  unfold process, _should_optimize. cbn [datetime_now fst snd].
  intros ->. cbn. auto.
Qed.

(** The pids [OpenProcess] was called on, in order: the actions whose
    application was attempted. *)
Definition attempts (l : list Win32Call) : list Z :=
  List.concat (map (fun c => match c with OpenProcess pid => [pid] | _ => [] end) l).

Lemma attempts_app (l1 l2 : list Win32Call) :
  attempts (l1 ++ l2) = attempts l1 ++ attempts l2.
Proof. unfold attempts. rewrite map_app, concat_app. reflexivity. Qed.

(** Code that opens no process. *)
Definition quiet {X : Type} (m : Try OS X) : Prop :=
  forall w, attempts (calls (snd (m w))) = attempts (calls w).

Lemma quiet_ret {X : Type} (x : X) : quiet (ret x).
Proof. intros w. reflexivity. Qed.

Lemma quiet_raise {X : Type} : quiet (raise (X := X)).
Proof. intros w. reflexivity. Qed.

Lemma quiet_bind {X Y : Type} (m : Try OS X) (f : X -> Try OS Y) :
  quiet m -> (forall x, quiet (f x)) -> quiet (bind m f).
Proof.
  intros Hm Hf w. unfold bind. specialize (Hm w).
  destruct (m w) as [[x|] w1]; cbn [snd] in *; [|exact Hm].
  rewrite Hf. exact Hm.
Qed.

Lemma quiet_call (c : Win32Call) :
  (forall pid, c <> OpenProcess pid) -> quiet (call win32 c).
Proof.
  intros Hc w. unfold call. destruct (win32 c (os w)) as [o ok]. cbn [snd calls].
  rewrite attempts_app. destruct c; cbn; try apply app_nil_r.
  exfalso. eapply Hc. reflexivity.
Qed.

Lemma quiet_lower_priority_class (a : OptimizationAction (A := A)) :
  quiet (lower_priority_class win32 a).
Proof.
  unfold lower_priority_class. destruct (param _ _); [|apply quiet_raise].
  destruct (value_eqb _ _); [apply quiet_call; discriminate | apply quiet_ret].
Qed.

(** Applying an action opens its process, once, whatever happens next. *)
Lemma apply_calls_attempts (a : OptimizationAction (A := A)) (w : World OS) :
  attempts (calls (snd (apply_calls win32 a w))) = attempts (calls w) ++ [a_pid a].
Proof.
  unfold apply_calls. unfold bind at 1. unfold call at 1.
  destruct (win32 (OpenProcess (a_pid a)) (os w)) as [o [|]].
  - match goal with |- context [snd (?m ?w1)] =>
      assert (Hq : quiet m); [|rewrite (Hq w1)] end.
    + apply quiet_bind; [|intros _; apply quiet_call; discriminate].
      destruct (action_type a).
      * apply quiet_bind; [apply quiet_lower_priority_class|]. intros _.
        destruct (param _ _) as [[?|?]|];
          [apply quiet_raise | apply quiet_call; discriminate | apply quiet_raise].
      * apply quiet_bind; [apply quiet_lower_priority_class|]. intros _.
        destruct (param _ _) as [[?|limit]|]; [apply quiet_raise | | apply quiet_raise].
        destruct (Z.gtb limit 0); [apply quiet_call; discriminate | apply quiet_ret].
      * apply quiet_lower_priority_class.
      * apply quiet_lower_priority_class.
    + cbn [calls]. apply attempts_app.
  - cbn [snd calls]. apply attempts_app.
Qed.

(** What the loop over the candidates does, in the words of the claim:
    a candidate below the threshold is passed over; a candidate whose
    application returns is recorded; a candidate whose application raises
    is not recorded, and the loop goes on with the next one. *)
Inductive Applied (threshold : A) :
    World OS -> list (OptimizationAction (A := A)) ->
    list (OptimizationAction (A := A)) -> World OS -> Prop :=
| applied_nil w : Applied threshold w [] [] w
| applied_filtered w a rest recorded w' :
    fle threshold (a_priority a) = false ->
    Applied threshold w rest recorded w' ->
    Applied threshold w (a :: rest) recorded w'
| applied_returned w w1 a rest recorded w' :
    fle threshold (a_priority a) = true ->
    apply_calls win32 a w = (Some tt, w1) ->
    Applied threshold w1 rest recorded w' ->
    Applied threshold w (a :: rest) (a :: recorded) w'
| applied_raised w w1 a rest recorded w' :
    fle threshold (a_priority a) = true ->
    apply_calls win32 a w = (None, w1) ->
    Applied threshold w1 rest recorded w' ->
    Applied threshold w (a :: rest) recorded w'.

Lemma apply_all_cons (c : Core) (a : OptimizationAction (A := A))
    (rest : list OptimizationAction) (w : World OS) :
  apply_all win32 c (a :: rest) w =
  let cw := if fle (action_threshold c) (a_priority a)
            then _apply_optimization win32 c a w else (c, w) in
  apply_all win32 (fst cw) rest (snd cw).
Proof.
  unfold apply_all. cbn [fold_left fst snd].
  destruct (if fle _ _ then _ else _) as [c' w']. reflexivity.
Qed.

Lemma apply_all_spec (actions : list (OptimizationAction (A := A))) :
  forall (c : Core) (w : World OS),
  exists recorded,
    Applied (action_threshold c) w actions recorded (snd (apply_all win32 c actions w)) /\
    optimization_history (fst (apply_all win32 c actions w)) =
      optimization_history c ++ recorded /\
    attempts (calls (snd (apply_all win32 c actions w))) =
      attempts (calls w) ++
      map a_pid (filter (fun a => fle (action_threshold c) (a_priority a)) actions).
Proof.
  induction actions as [|a rest IH]; intros c w.
  - exists []. cbn. rewrite !app_nil_r. repeat split. constructor.
  - rewrite apply_all_cons. cbn [filter].
    destruct (fle (action_threshold c) (a_priority a)) eqn:Et; cbv zeta.
    + unfold _apply_optimization.
      pose proof (apply_calls_attempts a w) as Ha.
      destruct (apply_calls win32 a w) as [[[]|] w1] eqn:Ec; cbn [fst snd] in *.
      * destruct (IH (record_action c a) w1) as (recorded & Happ & Hh & Hat).
        exists (a :: recorded). cbn [action_threshold optimization_history record_action] in *.
        split; [eapply applied_returned; eauto|]. split.
        -- rewrite Hh. rewrite <- app_assoc. reflexivity.
        -- rewrite Hat, Ha. cbn [map]. rewrite <- app_assoc. reflexivity.
      * destruct (IH c w1) as (recorded & Happ & Hh & Hat).
        exists recorded.
        split; [eapply applied_raised; eauto|]. split.
        -- exact Hh.
        -- rewrite Hat, Ha. cbn [map]. rewrite <- app_assoc. reflexivity.
    + cbn [fst snd]. destruct (IH c w) as (recorded & Happ & Hh & Hat).
      exists recorded. split; [eapply applied_filtered; eauto|]. split; assumption.
Qed.


(** The pids from [_optimize_process] belong to optimizable processes. *)
Lemma optimize_process_pids (c : Core) (proc : ProcessMetrics A) (w : World OS) :
  Forall (fun a => a_pid a = pid proc) (fst (_optimize_process clock c proc w)).
Proof.
  unfold _optimize_process.
  destruct (io_counters proc) as [io|]; [destruct (Z.gtb _ _)|];
    destruct (Z.gtb (thread_count proc) 100); cbn; repeat constructor.
Qed.

(** The per-process path of the analysis applies the eligibility filter:
    when neither aggregate threshold is exceeded, every action targets an
    optimizable process of the snapshot. *)
Lemma per_process_actions_eligible (c : Core) (m : SystemMetrics A) (w : World OS) :
  flt (cpu_threshold c) (sys_cpu_percent m) = false ->
  flt (memory_threshold c) (sys_memory_percent m) = false ->
  Forall (fun a => exists proc, In proc (processes m) /\ pid proc = a_pid a /\
                               _is_process_optimizable proc = true)
         (fst (_analyze_system_state clock cpu_count total_memory c m w)).
Proof.
  intros Hc Hm. unfold _analyze_system_state. rewrite Hc, Hm.
  assert (Hgen : forall (l : list (ProcessMetrics A)) acc w0,
    (forall p, In p l -> In p (processes m)) ->
    Forall (fun a => exists proc, In proc (processes m) /\ pid proc = a_pid a /\
                                 _is_process_optimizable proc = true) acc ->
    Forall (fun a => exists proc, In proc (processes m) /\ pid proc = a_pid a /\
                                 _is_process_optimizable proc = true)
      (fst (fold_left
         (fun (aw : list OptimizationAction * World OS) proc =>
            let (actions, w) := aw in
            if _is_process_optimizable proc
            then let (more, w) := _optimize_process clock c proc w in (actions ++ more, w)
            else aw) l (acc, w0)))).
  { induction l as [|p l IH]; intros acc w0 Hsub Hacc; cbn [fold_left]; [exact Hacc|].
    destruct (_is_process_optimizable p) eqn:Ep.
    - pose proof (optimize_process_pids c p w0) as Hp.
      destruct (_optimize_process clock c p w0) as [more w1]. cbn [fst] in Hp.
      apply IH; [intros q Hq; apply Hsub; right; exact Hq|].
      apply Forall_app. split; [exact Hacc|].
      eapply Forall_impl; [|exact Hp]. intros a Hpid. exists p.
      split; [apply Hsub; left; reflexivity|]. split; [symmetry; exact Hpid | exact Ep].
    - apply IH; [intros q Hq; apply Hsub; right; exact Hq | exact Hacc]. }
  apply Hgen; [auto | constructor].
Qed.

Lemma optimizable_spec (proc : ProcessMetrics A) :
  _is_process_optimizable proc = true ->
  (100 <= pid proc)%Z /\
  str_in (lower (name proc)) ["system"; "svchost.exe"; "explorer.exe"]%string = false.
Proof.
  unfold _is_process_optimizable.
  destruct (Z.ltb_spec (pid proc) 100); [discriminate|].
  destruct (str_in _ _); [discriminate|]. auto.
Qed.

(** X1. The io and thread actions of the per-process path target
    eligible processes only: when neither aggregate threshold is exceeded, every
    synthesized action has a pid of at least 100 and belongs to a process
    of the snapshot whose name is not protected. *)
Theorem per_process_actions_target_eligible (c : Core) (m : SystemMetrics A)
    (w : World OS) :
  flt (cpu_threshold c) (sys_cpu_percent m) = false ->
  flt (memory_threshold c) (sys_memory_percent m) = false ->
  Forall (fun a =>
            (100 <= a_pid a)%Z /\
            exists proc, In proc (processes m) /\ pid proc = a_pid a /\
              str_in (lower (name proc)) ["system"; "svchost.exe"; "explorer.exe"]%string
              = false)
         (fst (_analyze_system_state clock cpu_count total_memory c m w)).
Proof.
  intros Hc Hm.
  eapply Forall_impl; [|apply per_process_actions_eligible; assumption].
  intros a (proc & Hin & Hpid & Hopt). apply optimizable_spec in Hopt.
  destruct Hopt as [Hge Hname]. split; [rewrite <- Hpid; exact Hge|].
  exists proc. auto.
Qed.

End Generic.

(** ** Concrete runs, in binary64 arithmetic *)

(** An operating system on which every call returns, and one that
    denies access to process 501. *)
Definition obliging (c : Win32Call) (o : unit) : unit * bool := (o, true).

Definition denying_501 (c : Win32Call) (o : unit) : unit * bool :=
  match c with
  | OpenProcess 501 => (o, false)
  | _ => (o, true)
  end.

Definition start : World unit := {| reads := 0; os := tt; calls := [] |}.

(** The core, built at time 0; the clock reads 2 s from then on. *)
Definition built : Core (A := PrimFloat.float) * World unit :=
  init Scenario.clock start.

Definition gib16 : Z := 17179869184.

(** Aggregate cpu 95% and memory 90%; a process with pid 50 at 92% cpu,
    and a process named svchost.exe at 75% memory. *)
Definition hot : SystemMetrics PrimFloat.float :=
  Scenario.snapshot 2000000 (of_Z 95) (of_Z 90)
    [Scenario.proc 50 "System" (of_Z 92) (of_Z 10) None 10;
     Scenario.proc 4321 "svchost.exe" (of_Z 5) (of_Z 75) None 20].

(** Three ordinary processes with more than 100 threads each. *)
Definition crowded : SystemMetrics PrimFloat.float :=
  Scenario.snapshot 2000000 (of_Z 20) (of_Z 30)
    [Scenario.proc 500 "a.exe" (of_Z 1) (of_Z 1) None 150;
     Scenario.proc 501 "b.exe" (of_Z 1) (of_Z 1) None 150;
     Scenario.proc 502 "c.exe" (of_Z 1) (of_Z 1) None 150].

(** C1, the code on the snapshot [hot]: both processes are excluded by
    [_is_process_optimizable] (pid below 100; protected name), and yet the
    analysis synthesizes a cpu action for pid 50 and a memory action for
    svchost.exe, and [process] applies both and records them in the
    history.  The aggregate paths [_optimize_cpu_usage] and
    [_optimize_memory_usage] never consult the filter. *)
Theorem aggregate_actions_target_excluded_processes :
  let (c, w) := built in
  map _is_process_optimizable (processes hot) = [false; false] /\
  map (fun a => (a_pid a, action_type a))
      (fst (_analyze_system_state Scenario.clock (Some 8%Z) gib16 c hot w))
    = [(50%Z, cpu_optimization); (4321%Z, memory_optimization)] /\
  map (fun a => (a_pid a, action_type a))
      (optimization_history (fst (process obliging Scenario.clock (Some 8%Z) gib16 c hot w)))
    = [(50%Z, cpu_optimization); (4321%Z, memory_optimization)] /\
  attempts (calls (snd (process obliging Scenario.clock (Some 8%Z) gib16 c hot w)))
    = [50%Z; 4321%Z].
Proof.
  vm_compute. repeat split.
Qed.

(** A first run, two seconds after the core was built, and the state it
    leaves. *)
Definition first_run : Core (A := PrimFloat.float) * World unit :=
  let (c, w) := built in process obliging Scenario.clock (Some 8%Z) gib16 c hot w.


Lemma per_process_actions_target_eligible_witness :
  let (c, w) := built in
  Forall (fun a =>
            (100 <= a_pid a)%Z /\
            exists proc, In proc (processes crowded) /\ pid proc = a_pid a /\
              str_in (lower (name proc)) ["system"; "svchost.exe"; "explorer.exe"]%string
              = false)
         (fst (_analyze_system_state Scenario.clock None gib16 c crowded w)).
Proof.
  destruct built as [c w] eqn:E. injection E as <- <-.
  apply (per_process_actions_target_eligible unit Scenario.clock None gib16);
    vm_compute; reflexivity.
Defined.

(** Aggregate cpu 95%; one process at exactly 70% cpu and one at 69.99%. *)
Definition borderline : SystemMetrics PrimFloat.float :=
  Scenario.snapshot 2000000 (of_Z 95) (of_Z 30)
    [Scenario.proc 500 "a.exe" (of_Z 70) (of_Z 1) None 3;
     Scenario.proc 501 "b.exe" (dec 6999 100) (of_Z 1) None 3].

(** The threshold filter at its boundary: the candidate whose priority
    equals the threshold 0.7 is executed and recorded, the candidate at
    0.6999 is not. *)
Theorem threshold_boundary :
  let (c, w) := built in
  map (fun a => (a_pid a, feq (a_priority a) (dec 7 10),
                 fle (action_threshold c) (a_priority a)))
      (fst (_analyze_system_state Scenario.clock (Some 8%Z) gib16 c borderline w))
    = [(500%Z, true, true); (501%Z, false, false)] /\
  map a_pid
      (optimization_history
         (fst (process obliging Scenario.clock (Some 8%Z) gib16 c borderline w)))
    = [500%Z].
Proof.
  vm_compute. split; reflexivity.
Qed.

(** X6. In exact arithmetic the cooldown check is a comparison of the
    time since the last completed run with half a second. *)
Lemma cooldown_exact (OS : Type) (clock : nat -> Z) (c : Core (A := R)) (w : World OS) :
  fst (_should_optimize clock c w) = false <->
  (clock (reads w) - last_optimization c < 500000)%Z.
Proof.
  unfold _should_optimize, datetime_now, total_seconds, dec. cbn [fst].
  cbn [fle fdiv of_Z real_arith].
  set (d := (clock (reads w) - last_optimization c)%Z).
  split.
  - intros Hf. apply lt_IZR.
    destruct (Exact.leb (5 / 10) (IZR d / 1000000)) eqn:El; [discriminate|].
    assert (Hn : ~ (5 / 10 <= IZR d / 1000000)%R).
    { intros Hle. apply exact_leb_true in Hle. congruence. }
    apply Rnot_le_lt in Hn. lra.
  - intros Hlt. apply IZR_lt in Hlt.
    destruct (Exact.leb (5 / 10) (IZR d / 1000000)) eqn:El; [|reflexivity].
    apply exact_leb_true in El. lra.
Qed.

End SynergyFacts.

(* ================================================================== *)
(** * The continual learner (continual_learner.py) *)

Lemma dict_contains_get {V} (k : Z) (d : PyDict.dict V) :
  PyDict.contains k d = true <-> exists v, PyDict.get k d = Some v.
Proof.
  unfold PyDict.contains. destruct (PyDict.get k d); split; eauto; try discriminate.
  intros [v Hv]. discriminate.
Qed.

Lemma dict_contains_set {V} (k k' : Z) (v : V) (d : PyDict.dict V) :
  PyDict.contains k' (PyDict.set k v d) = orb (Z.eqb k' k) (PyDict.contains k' d).
Proof.
  unfold PyDict.contains. destruct (Z.eqb_spec k' k) as [->|Hne].
  - rewrite dict_get_set_eq. reflexivity.
  - rewrite dict_get_set_ne by congruence. reflexivity.
Qed.

Lemma dict_contains_keys {V} (k : Z) (d : PyDict.dict V) :
  PyDict.contains k d = true <-> In k (PyDict.keys d).
Proof.
  unfold PyDict.contains, PyDict.keys.
  induction d as [|[k' v'] d IH]; cbn.
  - split; [discriminate|tauto].
  - destruct (Z.eqb_spec k k') as [->|Hne].
    + split; auto.
    + rewrite IH. split; [auto|]. intros [E|Hin]; [congruence|exact Hin].
Qed.

Module LearnerFacts.
Import SystemMonitor ContinualLearner.

Section Generic.
Context {A : Type} `{Arith A}.
Variable Model : Type.
Variable Moments : Type.
Variable new_predictor : nat -> Model.
Variable new_moments : Model -> Moments.
Variable forward : Model -> list (ProcessFeatures (A := A)) -> A * A * A.
Variable train_step :
  Model -> A -> Moments -> list (ProcessFeatures (A := A)) -> Model * Moments.
Variable Drift : Type.
Variable drift_update : Drift -> list A -> Drift * bool.
Variable drift_detected : Drift -> bool.
Variable Anomaly : Type.
Variable learn_one : Anomaly -> list A -> Anomaly * bool.
Variable score_one : Anomaly -> list A -> option A.

(** The invariant of the class: every pid with a predictor has a feature
    window (the three dicts get their keys together), and the window
    capacity is the constant 10. *)
Definition consistent (l : Learner (A := A) Model Moments Drift Anomaly) : bool :=
  andb (forallb (fun pid => PyDict.contains pid (feature_history l))
                (PyDict.keys (process_predictors l)))
       (Nat.eqb (sequence_length l) 10).

Lemma consistent_windows (l : Learner (A := A) Model Moments Drift Anomaly) (pid : Z) :
  consistent l = true -> In pid (PyDict.keys (process_predictors l)) ->
  PyDict.contains pid (feature_history l) = true.
Proof.
  unfold consistent. rewrite andb_true_iff, forallb_forall. intros [Hall _] Hin.
  apply Hall. exact Hin.
Qed.

Lemma consistent_capacity (l : Learner (A := A) Model Moments Drift Anomaly) :
  consistent l = true -> sequence_length l = 10%nat.
Proof.
  unfold consistent. rewrite andb_true_iff. intros [_ Hs]. apply Nat.eqb_eq. exact Hs.
Qed.

Lemma consistent_iff (l : Learner (A := A) Model Moments Drift Anomaly) :
  consistent l = true <->
  (forall pid, PyDict.contains pid (process_predictors l) = true ->
               PyDict.contains pid (feature_history l) = true) /\
  sequence_length l = 10%nat.
Proof.
  unfold consistent. rewrite andb_true_iff, forallb_forall, Nat.eqb_eq.
  split; intros [Hall Hs]; (split; [|exact Hs]); intros pid Hp; apply Hall.
  - apply dict_contains_keys. exact Hp.
  - apply dict_contains_keys. exact Hp.
Qed.

(** ** The loop of [_handle_drift] *)

Lemma reset_models_capacity (pids : list Z) (l : Learner (A := A) Model Moments Drift Anomaly) :
  sequence_length (reset_models new_predictor new_moments pids l) = sequence_length l.
Proof.
  revert l. induction pids as [|pid rest IH]; intros l; cbn [reset_models]; [reflexivity|].
  cbv zeta. destruct (PyDict.get pid _); [|reflexivity]. rewrite IH. reflexivity.
Qed.

Lemma reset_models_history (pids : list Z) :
  forall l : Learner (A := A) Model Moments Drift Anomaly,
  (forall p, In p pids -> PyDict.contains p (feature_history l) = true) ->
  forall pid,
    PyDict.get pid (feature_history (reset_models new_predictor new_moments pids l)) =
    if existsb (Z.eqb pid) pids then Some [] else PyDict.get pid (feature_history l).
Proof.
  induction pids as [|p rest IH]; intros l Hall pid; cbn [reset_models existsb];
    [reflexivity|].
  cbv zeta. cbn [feature_history with_models].
  destruct (PyDict.get p (feature_history l)) as [window|] eqn:Ep.
  2:{ specialize (Hall p (or_introl eq_refl)). apply dict_contains_get in Hall.
      destruct Hall as [v Hv]. congruence. }
  rewrite IH.
  - cbn [feature_history with_history].
    destruct (existsb (Z.eqb pid) rest) eqn:Er; [rewrite orb_true_r; reflexivity|].
    rewrite orb_false_r. destruct (Z.eqb_spec pid p) as [->|Hne].
    + apply dict_get_set_eq.
    + apply dict_get_set_ne. congruence.
  - intros q Hq. cbn [feature_history with_history].
    rewrite dict_contains_set. rewrite (Hall q (or_intror Hq)). apply orb_true_r.
Qed.

Lemma reset_models_predictors (pids : list Z) :
  forall (l : Learner (A := A) Model Moments Drift Anomaly) (pid : Z),
  PyDict.contains pid
    (process_predictors (reset_models new_predictor new_moments pids l)) = true ->
  In pid pids \/ PyDict.contains pid (process_predictors l) = true.
Proof.
  induction pids as [|p rest IH]; intros l pid; cbn [reset_models]; [auto|].
  cbv zeta. cbn [feature_history with_models].
  destruct (PyDict.get p (feature_history l)).
  - intros Hc. apply IH in Hc. cbn [process_predictors with_history with_models] in Hc.
    rewrite dict_contains_set in Hc. destruct Hc as [Hin|Hc]; [left; right; exact Hin|].
    apply orb_true_iff in Hc. destruct Hc as [E|Hc]; [|auto].
    apply Z.eqb_eq in E. left. left. congruence.
  - cbn [process_predictors with_models]. rewrite dict_contains_set.
    intros Hc. apply orb_true_iff in Hc. destruct Hc as [E|Hc]; [|auto].
    apply Z.eqb_eq in E. left. left. congruence.
Qed.

Lemma reset_models_keeps_predictors (pids : list Z) :
  forall (l : Learner (A := A) Model Moments Drift Anomaly) (pid : Z),
  PyDict.contains pid (process_predictors l) = true ->
  PyDict.contains pid
    (process_predictors (reset_models new_predictor new_moments pids l)) = true.
Proof.
  induction pids as [|p rest IH]; intros l pid Hc; cbn [reset_models]; [exact Hc|].
  cbv zeta. cbn [feature_history with_models].
  destruct (PyDict.get p (feature_history l)).
  - apply IH. cbn [process_predictors with_history with_models].
    rewrite dict_contains_set, Hc. apply orb_true_r.
  - cbn [process_predictors with_models]. rewrite dict_contains_set, Hc. apply orb_true_r.
Qed.

(** After a drift event every pid with a predictor has an empty window. *)
Lemma drift_clears_windows (l : Learner (A := A) Model Moments Drift Anomaly) (pid : Z) :
  consistent l = true ->
  PyDict.contains pid (process_predictors (_handle_drift new_predictor new_moments l)) = true ->
  PyDict.get pid (feature_history (_handle_drift new_predictor new_moments l)) = Some [].
Proof.
  intros Hc Hp. unfold _handle_drift in *.
  assert (Hin : In pid (PyDict.keys (process_predictors l))).
  { apply reset_models_predictors in Hp. destruct Hp as [Hin|Hp]; [exact Hin|].
    apply dict_contains_keys. exact Hp. }
  rewrite reset_models_history.
  - replace (existsb (Z.eqb pid) (PyDict.keys (process_predictors l))) with true;
      [reflexivity|].
    symmetry. apply existsb_exists. exists pid. split; [exact Hin|apply Z.eqb_refl].
  - intros p Hpin. apply consistent_windows; assumption.
Qed.

Lemma drift_capacity (l : Learner (A := A) Model Moments Drift Anomaly) :
  sequence_length (_handle_drift new_predictor new_moments l) = sequence_length l.
Proof. apply reset_models_capacity. Qed.

(** ** Predictions *)

Lemma predict_unknown (l : Learner (A := A) Model Moments Drift Anomaly) (pid : Z) :
  PyDict.contains pid (process_predictors l) = false ->
  predict_process_metrics forward l pid = None.
Proof. unfold predict_process_metrics. intros ->. reflexivity. Qed.

Lemma predict_empty (l : Learner (A := A) Model Moments Drift Anomaly) (pid : Z) :
  PyDict.get pid (feature_history l) = Some [] ->
  predict_process_metrics forward l pid = None.
Proof.
  unfold predict_process_metrics. intros ->. destruct (negb _); reflexivity.
Qed.

Lemma predict_after_drift (l : Learner (A := A) Model Moments Drift Anomaly) (pid : Z) :
  consistent l = true ->
  predict_process_metrics forward (_handle_drift new_predictor new_moments l) pid = None.
Proof.
  intros Hc.
  destruct (PyDict.contains pid
              (process_predictors (_handle_drift new_predictor new_moments l))) eqn:Ep.
  - apply predict_empty. apply drift_clears_windows; assumption.
  - apply predict_unknown. exact Ep.
Qed.

(** A known pid with a non-empty window gets the model's output on the
    window, however short the window is. *)
Lemma predict_window (l : Learner (A := A) Model Moments Drift Anomaly) (pid : Z)
    (model : Model) (window : list ProcessFeatures) :
  PyDict.get pid (process_predictors l) = Some model ->
  PyDict.get pid (feature_history l) = Some window -> window <> [] ->
  predict_process_metrics forward l pid = Some (forward model window).
Proof.
  intros Hm Hw Hne. unfold predict_process_metrics.
  assert (Hc : PyDict.contains pid (process_predictors l) = true)
    by (apply dict_contains_get; eauto).
  rewrite Hc, Hw, Hm. cbn [negb]. destruct window; [congruence|reflexivity].
Qed.

(** One sample in an empty window of a known pid is enough to predict. *)
Lemma predict_one_sample (l : Learner (A := A) Model Moments Drift Anomaly) (pid : Z)
    (f : ProcessFeatures) (model : Model) :
  sequence_length l = 10%nat ->
  PyDict.get pid (process_predictors l) = Some model ->
  PyDict.get pid (feature_history l) = Some [] ->
  predict_process_metrics forward
    (_update_process_model new_predictor new_moments train_step l pid f) pid
  = Some (forward model [f]).
Proof.
  intros Hs Hm Hw. unfold _update_process_model.
  assert (Hc : PyDict.contains pid (process_predictors l) = true)
    by (apply dict_contains_get; eauto).
  rewrite Hc, Hw. cbn [app sequence_length with_history].
  rewrite Hs. cbn [List.length Nat.ltb Nat.leb].
  unfold predict_process_metrics. cbn [process_predictors feature_history with_history].
  rewrite Hc, dict_get_set_eq, Hm. reflexivity.
Qed.

Lemma predict_after_drift_and_sample (l : Learner (A := A) Model Moments Drift Anomaly)
    (pid : Z) (f : ProcessFeatures) :
  consistent l = true ->
  exists model,
    predict_process_metrics forward
      (_update_process_model new_predictor new_moments train_step
         (_handle_drift new_predictor new_moments l) pid f) pid
    = Some (forward model [f]).
Proof.
  intros Hc. pose proof (consistent_capacity l Hc) as Hs.
  rewrite <- drift_capacity in Hs.
  set (l' := _handle_drift new_predictor new_moments l) in *.
  destruct (PyDict.contains pid (process_predictors l')) eqn:Ep.
  - pose proof Ep as Hg. apply dict_contains_get in Hg. destruct Hg as [model Hm].
    exists model. apply predict_one_sample; [exact Hs|exact Hm|].
    apply drift_clears_windows; assumption.
  - exists (new_predictor (created l')).
    unfold _update_process_model. rewrite Ep.
    cbn [feature_history with_history with_models]. rewrite dict_get_set_eq.
    cbn [app sequence_length with_history with_models].
    rewrite Hs. cbn [List.length Nat.ltb Nat.leb].
    unfold predict_process_metrics.
    cbn [process_predictors feature_history with_history with_models].
    rewrite dict_contains_set, Z.eqb_refl. cbn [orb negb].
    rewrite !dict_get_set_eq. reflexivity.
Qed.

(** C4 (as amended). [predict] returns none when the pid is unknown or
    its feature window is empty, and in a consistent state in no other
    case: for a known pid with a window of one sample or more, whether or
    not the window is full, it returns the model's output on that window.
    So, in a consistent state (and every state reached from the initial
    one by updates is consistent, see [consistent_init] and
    [consistent_update]), it returns none for every pid immediately after
    a drift event (which clears every window and re-creates every model
    and optimizer); and it returns a prediction, from a window of one
    sample, as soon as one fresh sample of that pid has arrived: it does
    not wait for the window to fill. *)
Theorem predict_none_iff_unknown_or_empty
    (l : Learner (A := A) Model Moments Drift Anomaly) :
  consistent l = true ->
  (forall pid, PyDict.contains pid (process_predictors l) = false ->
     predict_process_metrics forward l pid = None) /\
  (forall pid, PyDict.get pid (feature_history l) = Some [] ->
     predict_process_metrics forward l pid = None) /\
  (forall pid model window,
     PyDict.get pid (process_predictors l) = Some model ->
     PyDict.get pid (feature_history l) = Some window -> window <> [] ->
     predict_process_metrics forward l pid = Some (forward model window)) /\
  (forall pid, predict_process_metrics forward l pid = None ->
     PyDict.contains pid (process_predictors l) = false \/
     PyDict.get pid (feature_history l) = Some []) /\
  (forall pid,
     predict_process_metrics forward (_handle_drift new_predictor new_moments l) pid
     = None) /\
  (forall pid f, exists model,
     predict_process_metrics forward
       (_update_process_model new_predictor new_moments train_step
          (_handle_drift new_predictor new_moments l) pid f) pid
     = Some (forward model [f])).
Proof.
  intros Hc. split; [|split; [|split; [|split; [|split]]]].
  - intros pid. apply predict_unknown.
  - intros pid. apply predict_empty.
  - intros pid model window. apply predict_window.
  - intros pid Hnone.
    destruct (PyDict.contains pid (process_predictors l)) eqn:Ek; [right|left; reflexivity].
    pose proof Ek as Hm. apply dict_contains_get in Hm. destruct Hm as [model Hm].
    assert (Hh : PyDict.contains pid (feature_history l) = true).
    { apply consistent_windows; [exact Hc|]. apply dict_contains_keys. exact Ek. }
    apply dict_contains_get in Hh. destruct Hh as [window Hw].
    destruct window as [|f window]; [exact Hw|].
    rewrite (predict_window l pid model (f :: window) Hm Hw) in Hnone by discriminate.
    discriminate.
  - intros pid. apply predict_after_drift. exact Hc.
  - intros pid f. apply predict_after_drift_and_sample. exact Hc.
Qed.

(** ** The invariant holds in every reachable state *)

Lemma consistent_init (d : Drift) (a : Anomaly) :
  consistent (init Model Moments d a : Learner (A := A) Model Moments Drift Anomaly) = true.
Proof. reflexivity. Qed.

Lemma consistent_ext (l l' : Learner (A := A) Model Moments Drift Anomaly) :
  process_predictors l' = process_predictors l ->
  feature_history l' = feature_history l ->
  sequence_length l' = sequence_length l ->
  consistent l' = consistent l.
Proof. unfold consistent. intros -> -> ->. reflexivity. Qed.

Lemma consistent_train (l : Learner (A := A) Model Moments Drift Anomaly) (pid : Z) :
  consistent l = true -> consistent (_train_process_model train_step l pid) = true.
Proof.
  intros Hc. unfold _train_process_model.
  destruct (PyDict.get pid (feature_history l)) as [features|] eqn:Ef; [|exact Hc].
  destruct (PyDict.get pid (process_predictors l)) as [model|]; [|exact Hc].
  destruct (PyDict.get pid (optimizers l)) as [opt|]; [|exact Hc].
  destruct (train_step model (lr opt) (moments opt) features) as [model' m'].
  apply consistent_iff in Hc. destruct Hc as [Hall Hs]. apply consistent_iff.
  cbn [process_predictors feature_history sequence_length with_models].
  split; [|exact Hs]. intros p. rewrite dict_contains_set.
  destruct (Z.eqb_spec p pid) as [->|Hne]; cbn [orb]; [|apply Hall].
  intros _. apply dict_contains_get. eauto.
Qed.

Lemma consistent_feed (l : Learner (A := A) Model Moments Drift Anomaly) (pid : Z)
    (f : ProcessFeatures) :
  consistent l = true ->
  consistent (_update_process_model new_predictor new_moments train_step l pid f) = true.
Proof.
  intros Hc. unfold _update_process_model.
  match goal with |- context [match PyDict.get pid (feature_history ?x) with _ => _ end] =>
    set (l1 := x) end.
  assert (Hc1 : consistent l1 = true).
  { subst l1. destruct (PyDict.contains pid (process_predictors l)); [exact Hc|].
    apply consistent_iff in Hc. destruct Hc as [Hall Hs]. apply consistent_iff.
    cbn [process_predictors feature_history sequence_length with_models with_history].
    split; [|exact Hs]. intros p. rewrite !dict_contains_set.
    destruct (Z.eqb p pid); cbn [orb]; [reflexivity|apply Hall]. }
  clearbody l1.
  destruct (PyDict.get pid (feature_history l1)) as [window|]; [|exact Hc1].
  cbv zeta.
  match goal with |- context [with_history l1 ?h] => set (l2 := with_history l1 h) end.
  assert (Hc2 : consistent l2 = true).
  { subst l2. apply consistent_iff in Hc1. destruct Hc1 as [Hall Hs]. apply consistent_iff.
    cbn [process_predictors feature_history sequence_length with_history].
    split; [|exact Hs]. intros p Hp. rewrite dict_contains_set, (Hall p Hp).
    apply orb_true_r. }
  clearbody l2.
  destruct (Nat.leb _ _); [apply consistent_train|]; exact Hc2.
Qed.

Lemma consistent_drift (l : Learner (A := A) Model Moments Drift Anomaly) :
  consistent l = true -> consistent (_handle_drift new_predictor new_moments l) = true.
Proof.
  intros Hc. apply consistent_iff. split.
  - intros pid Hp. apply dict_contains_get. exists [].
    apply drift_clears_windows; assumption.
  - rewrite drift_capacity. apply consistent_capacity. exact Hc.
Qed.

Lemma consistent_detect_drift (l : Learner (A := A) Model Moments Drift Anomaly)
    (m : SystemMetrics A) :
  consistent l = true ->
  consistent (_detect_drift new_predictor new_moments drift_update drift_detected l m) = true.
Proof.
  intros Hc. unfold _detect_drift.
  destruct (drift_update (drift_detector l) (aggregate m)) as [d ok].
  assert (Hd : consistent (with_drift_detector l d) = true)
    by (rewrite (consistent_ext l); [exact Hc | reflexivity..]).
  destruct ok; [|exact Hd]. destruct (drift_detected d); [|exact Hd].
  apply consistent_drift. exact Hd.
Qed.

Lemma consistent_detect_anomalies (l : Learner (A := A) Model Moments Drift Anomaly)
    (m : SystemMetrics A) :
  consistent l = true -> consistent (_detect_anomalies learn_one score_one l m) = true.
Proof.
  intros Hc. unfold _detect_anomalies.
  destruct (learn_one (anomaly_detector l) (aggregate m)) as [a ok].
  assert (Hd : consistent (with_anomaly_detector l a) = true)
    by (rewrite (consistent_ext l); [exact Hc | reflexivity..]).
  destruct ok; [|exact Hd]. destruct (score_one a (aggregate m)) as [s|]; [|exact Hd].
  destruct (flt _ _); [|exact Hd].
  rewrite (consistent_ext (with_anomaly_detector l a)); [exact Hd | reflexivity..].
Qed.

Lemma consistent_update (l : Learner (A := A) Model Moments Drift Anomaly)
    (m : SystemMetrics A) :
  consistent l = true ->
  consistent (update new_predictor new_moments train_step drift_update drift_detected
                     learn_one score_one l m) = true.
Proof.
  intros Hc. unfold update. apply consistent_detect_anomalies, consistent_detect_drift.
  revert l Hc. induction (processes m) as [|proc ps IH]; intros l Hc; cbn [fold_left];
    [exact Hc|].
  apply IH. apply consistent_feed. exact Hc.
Qed.

(** ** The learning rate *)

(** Only [_handle_anomaly] writes the learning rate or touches the
    anomaly detector. *)
Definition same_rate (l l' : Learner (A := A) Model Moments Drift Anomaly) : Prop :=
  learning_rate l' = learning_rate l /\ anomaly_detector l' = anomaly_detector l.

Lemma same_rate_train (l : Learner (A := A) Model Moments Drift Anomaly) (pid : Z) :
  same_rate l (_train_process_model train_step l pid).
Proof.
  unfold _train_process_model.
  destruct (PyDict.get pid (feature_history l)); [|split; reflexivity].
  destruct (PyDict.get pid (process_predictors l)); [|split; reflexivity].
  destruct (PyDict.get pid (optimizers l)) as [opt|]; [|split; reflexivity].
  destruct (train_step _ _ _ _). split; reflexivity.
Qed.

Lemma same_rate_feed (l : Learner (A := A) Model Moments Drift Anomaly) (pid : Z)
    (f : ProcessFeatures) :
  same_rate l (_update_process_model new_predictor new_moments train_step l pid f).
Proof.
  unfold _update_process_model.
  match goal with |- context [match PyDict.get pid (feature_history ?x) with _ => _ end] =>
    set (l1 := x) end.
  assert (H1 : same_rate l l1).
  { subst l1. destruct (PyDict.contains pid (process_predictors l)); split; reflexivity. }
  clearbody l1. destruct H1 as [Hr Ha].
  destruct (PyDict.get pid (feature_history l1)) as [window|]; [|split; assumption].
  cbv zeta. destruct (Nat.leb _ _); [|split; assumption].
  match goal with |- same_rate _ (_train_process_model _ ?x _) =>
    destruct (same_rate_train x pid) as [Hr' Ha'] end.
  split; [rewrite Hr'|rewrite Ha']; assumption.
Qed.

Lemma same_rate_reset (pids : list Z) (l : Learner (A := A) Model Moments Drift Anomaly) :
  same_rate l (reset_models new_predictor new_moments pids l).
Proof.
  revert l. induction pids as [|pid rest IH]; intros l; cbn [reset_models];
    [split; reflexivity|].
  cbv zeta. destruct (PyDict.get pid _); [|split; reflexivity].
  match goal with |- same_rate _ (reset_models _ _ _ ?x) =>
    destruct (IH x) as [Hr Ha] end.
  split; [rewrite Hr|rewrite Ha]; reflexivity.
Qed.

Lemma same_rate_detect_drift (l : Learner (A := A) Model Moments Drift Anomaly)
    (m : SystemMetrics A) :
  same_rate l (_detect_drift new_predictor new_moments drift_update drift_detected l m).
Proof.
  unfold _detect_drift. destruct (drift_update _ _) as [d ok].
  destruct ok; [|split; reflexivity]. destruct (drift_detected d); [|split; reflexivity].
  unfold _handle_drift.
  match goal with |- same_rate _ (reset_models _ _ ?p ?x) =>
    destruct (same_rate_reset p x) as [Hr Ha] end.
  split; [rewrite Hr|rewrite Ha]; reflexivity.
Qed.

Lemma same_rate_feeds (ps : list (ProcessMetrics A)) (m : SystemMetrics A) :
  forall l : Learner (A := A) Model Moments Drift Anomaly,
  same_rate l
    (fold_left
       (fun l proc =>
          _update_process_model new_predictor new_moments train_step l (pid proc)
            (_extract_features proc m)) ps l).
Proof.
  induction ps as [|proc ps IH]; intros l; cbn [fold_left]; [split; reflexivity|].
  destruct (same_rate_feed l (pid proc) (_extract_features proc m)) as [Hr Ha].
  match goal with |- same_rate _ (fold_left _ _ ?x) => destruct (IH x) as [Hr' Ha'] end.
  split; [rewrite Hr'|rewrite Ha']; assumption.
Qed.

Lemma handle_anomaly_optimizers (l : Learner (A := A) Model Moments Drift Anomaly)
    (v : list A) (pid : Z) (opt : Optimizer (A := A) Moments) :
  PyDict.get pid (optimizers (_handle_anomaly l v)) = Some opt ->
  lr opt = (learning_rate l * of_Z 2)%py.
Proof.
  unfold _handle_anomaly. cbn [optimizers].
  induction (optimizers l) as [|[k o] d IH]; cbn; [discriminate|].
  destruct (Z.eqb pid k); [intros [= <-]; reflexivity | exact IH].
Qed.

(** What the anomaly check would do with a detector that accepts its
    input: in a tick in which [learn_one] returns and the score for the
    aggregate vector exceeds 0.8, the shared learning rate is multiplied
    by 2, once, and every optimizer holds the doubled rate afterwards;
    and whatever the tick, the learning rate after it is the rate before
    or twice the rate before: nothing moves it back. *)
Lemma anomaly_doubles_learning_rate
    (l : Learner (A := A) Model Moments Drift Anomaly) (m : SystemMetrics A)
    (a : Anomaly) (s : A) :
  learn_one (anomaly_detector l) (aggregate m) = (a, true) ->
  score_one a (aggregate m) = Some s ->
  flt (dec 8 10) s = true ->
  let l' := update new_predictor new_moments train_step drift_update drift_detected
                   learn_one score_one l m in
  learning_rate l' = (learning_rate l * of_Z 2)%py /\
  (forall pid opt, PyDict.get pid (optimizers l') = Some opt -> lr opt = learning_rate l') /\
  forall (l0 : Learner (A := A) Model Moments Drift Anomaly) (m0 : SystemMetrics A),
    let l1 := update new_predictor new_moments train_step drift_update drift_detected
                     learn_one score_one l0 m0 in
    learning_rate l1 = learning_rate l0 \/
    learning_rate l1 = (learning_rate l0 * of_Z 2)%py.
Proof.
  intros Hl Hsc Hgt. cbv zeta.
  assert (Hpre : forall (l0 : Learner (A := A) Model Moments Drift Anomaly) m0,
    same_rate l0
      (_detect_drift new_predictor new_moments drift_update drift_detected
         (fold_left
            (fun l proc =>
               _update_process_model new_predictor new_moments train_step l (pid proc)
                 (_extract_features proc m0)) (processes m0) l0) m0)).
  { intros l0 m0. destruct (same_rate_feeds (processes m0) m0 l0) as [Hr Ha].
    match goal with |- same_rate _ (_detect_drift _ _ _ _ ?x _) =>
      destruct (same_rate_detect_drift x m0) as [Hr' Ha'] end.
    split; [rewrite Hr'|rewrite Ha']; assumption. }
  split; [|split].
  - unfold update. destruct (Hpre l m) as [Hr Ha].
    unfold _detect_anomalies. rewrite Ha, Hl, Hsc, Hgt.
    cbn [learning_rate _handle_anomaly with_anomaly_detector]. rewrite Hr. reflexivity.
  - intros pid opt. unfold update. destruct (Hpre l m) as [Hr Ha].
    unfold _detect_anomalies. rewrite Ha, Hl, Hsc, Hgt. intros Hg.
    apply handle_anomaly_optimizers in Hg. rewrite Hg. reflexivity.
  - clear Hl Hsc Hgt. intros l0 m0. unfold update. destruct (Hpre l0 m0) as [Hr Ha].
    unfold _detect_anomalies.
    destruct (learn_one _ _) as [a0 ok]. destruct ok; [|left; exact Hr].
    destruct (score_one a0 (aggregate m0)) as [s0|]; [|left; exact Hr].
    destruct (flt (dec 8 10) s0); [|left; exact Hr].
    right. cbn [learning_rate _handle_anomaly with_anomaly_detector]. rewrite Hr.
    reflexivity.
Qed.

End Generic.

(** ** Concrete runs, in binary64 arithmetic *)

(** Stand-ins for torch and river: a predictor is known by the number of
    its initialisation and predicts the last sample of its window;
    training leaves it alone; the drift detector never fires by itself;
    the anomaly detector, fed an array, raises, as river's does. *)
Definition persistence (model : nat) (window : list (ProcessFeatures (A := PrimFloat.float)))
    : PrimFloat.float * PrimFloat.float * PrimFloat.float :=
  match rev window with
  | f :: _ => (cpu_usage f, memory_usage f, of_Z (io_usage f))
  | [] => (of_Z 0, of_Z 0, of_Z 0)
  end.

Definition untrained (model : nat) (rate : PrimFloat.float) (m : unit)
    (window : list (ProcessFeatures (A := PrimFloat.float))) : nat * unit := (model, m).

Definition array_refused (a : unit) (v : list PrimFloat.float) : unit * bool := (a, false).

Definition never_scored (a : unit) (v : list PrimFloat.float) : option PrimFloat.float :=
  None.

Definition step (l : Learner (A := PrimFloat.float) nat unit unit unit)
    (m : SystemMetrics PrimFloat.float) : Learner (A := PrimFloat.float) nat unit unit unit :=
  update (fun k => k) (fun _ => tt) untrained
         (fun d _ => (d, true)) (fun _ => false)
         array_refused never_scored l m.

(** The learner after one tick on the snapshot [calm]: pids 500 and 501
    have one sample each. *)
Definition warming : Learner (A := PrimFloat.float) nat unit unit unit :=
  step (init nat unit tt tt) Scenario.calm.

Definition sample : ProcessFeatures (A := PrimFloat.float) :=
  {| f_pid := 500; cpu_usage := of_Z 16; memory_usage := of_Z 5; io_usage := 0;
     f_thread_count := 3; f_priority := 0; f_timestamp := 2000000 |}.

Lemma predict_none_iff_unknown_or_empty_witness :
  predict_process_metrics persistence warming 77 = None /\
  (exists window,
     PyDict.get 501 (feature_history warming) = Some window /\
     List.length window = 1%nat /\
     predict_process_metrics persistence warming 501 = Some (persistence 1 window)) /\
  predict_process_metrics persistence
    (_handle_drift (fun k => k) (fun _ => tt) warming) 500 = None /\
  exists model,
    predict_process_metrics persistence
      (_update_process_model (fun k => k) (fun _ => tt) untrained
         (_handle_drift (fun k => k) (fun _ => tt) warming) 500 sample) 500
    = Some (persistence model [sample]).
Proof.
  destruct (predict_none_iff_unknown_or_empty nat unit (fun k => k) (fun _ => tt)
              persistence untrained unit unit warming eq_refl)
    as (Hunknown & _ & Hwindow & _ & Hdrift & Hsample).
  split; [apply Hunknown; reflexivity|].
  split; [|split; [apply Hdrift | apply Hsample]].
  eexists. split; [vm_compute; reflexivity|]. split; [reflexivity|].
  apply Hwindow; [vm_compute; reflexivity | vm_compute; reflexivity | discriminate].
Defined.

(** C4, the claim as stated fails: with one sample in its window, fewer
    than the 10 the window holds, a known pid gets a prediction; and so
    does a pid one sample after a drift event. *)
Lemma prediction_from_short_window :
  (exists window p,
     PyDict.get 500 (feature_history warming) = Some window /\
     List.length window = 1%nat /\ sequence_length warming = 10%nat /\
     predict_process_metrics persistence warming 500 = Some p) /\
  (exists window p,
     let l := step (_handle_drift (fun k => k) (fun _ => tt) warming) Scenario.calm in
     PyDict.get 500 (feature_history l) = Some window /\
     List.length window = 1%nat /\ sequence_length l = 10%nat /\
     predict_process_metrics persistence l 500 = Some p).
Proof.
  split; do 2 eexists; cbv zeta; (split; [vm_compute; reflexivity|]);
    vm_compute; repeat split.
Qed.

(** X5. The invariant of the class holds initially and after every
    tick. *)
Theorem invariant_of_reachable_states
    (Model Moments Drift Anomaly : Type) (A : Type) (H : Arith A)
    (new_predictor : nat -> Model) (new_moments : Model -> Moments)
    (train_step : Model -> A -> Moments -> list (ProcessFeatures (A := A)) -> Model * Moments)
    (drift_update : Drift -> list A -> Drift * bool) (drift_detected : Drift -> bool)
    (learn_one : Anomaly -> list A -> Anomaly * bool)
    (score_one : Anomaly -> list A -> option A)
    (d : Drift) (a : Anomaly) (ms : list (SystemMetrics A)) :
  consistent Model Moments Drift Anomaly
    (fold_left
       (update new_predictor new_moments train_step drift_update drift_detected
               learn_one score_one)
       ms (init Model Moments d a)) = true.
Proof.
  assert (Hgen : forall l : Learner (A := A) Model Moments Drift Anomaly,
             consistent Model Moments Drift Anomaly l = true ->
             consistent Model Moments Drift Anomaly
               (fold_left
                  (update new_predictor new_moments train_step drift_update
                          drift_detected learn_one score_one) ms l) = true).
  { induction ms as [|m ms IH]; intros l Hl; cbn [fold_left]; [exact Hl|].
    apply IH. apply consistent_update. exact Hl. }
  apply Hgen. apply consistent_init.
Qed.

End LearnerFacts.

(* ================================================================== *)
(** * The entangled groups (quantum_entanglement.py) *)

Module EntangledFacts.
Import QuantumEntanglement Entangled SimilarityFacts.

Section Exact.
Local Open Scope R_scope.

Lemma dot3 (x y z x' y' z' : R) :
  np_dot [x; y; z] [x'; y'; z'] = x * x' + y * y' + z * z'.
Proof. unfold np_dot. cbn. lra. Qed.

(** A normalized usage vector is the zero vector or a unit vector. *)
Lemma normalize_zero_or_unit (p : Process (A := R)) :
  exists x y z, fst (normalize (metrics p)) = [x; y; z] /\
    ((x = 0 /\ y = 0 /\ z = 0) \/ x * x + y * y + z * z = 1).
Proof.
  unfold metrics.
  set (a := get0 (cpu_percent p)). set (b := get0 (memory_percent p)).
  set (c := get0 (io_rate p)).
  unfold normalize. destruct (np_any [a; b; c]) eqn:Ea.
  - assert (Hn : ~ (a = 0 /\ b = 0 /\ c = 0)).
    { intros Hz. apply np_any3 in Hz. congruence. }
    unfold fst. rewrite norm3. pose proof (norm3_pos a b c Hn) as Hpos.
    set (n := sqrt (a * a + b * b + c * c)) in *.
    assert (Hsq : n * n = a * a + b * b + c * c) by (apply sqrt_sqrt; nra).
    exists (a / n), (b / n), (c / n). split; [reflexivity|]. right.
    transitivity ((a * a + b * b + c * c) / (n * n)); [field; lra|].
    rewrite <- Hsq. field. lra.
  - apply np_any3 in Ea. destruct Ea as (-> & -> & ->).
    exists 0, 0, 0. split; [reflexivity|]. left. auto.
Qed.

(** X8. In exact arithmetic the similarity does not depend on the order of
    the two processes. *)
Theorem similarity_symmetric (p1 p2 : Process (A := R)) :
  _calculate_similarity p1 p2 = _calculate_similarity p2 p1.
Proof.
  unfold _calculate_similarity.
  destruct (normalize_zero_or_unit p1) as (x & y & z & -> & _).
  destruct (normalize_zero_or_unit p2) as (x' & y' & z' & -> & _).
  rewrite !dot3. f_equal. lra.
Qed.

End Exact.

Section Generic.
Context {A : Type} `{Arith A}.

Lemma in_combine_seq {X : Type} (l : list X) (start i : nat) (x : X) :
  In (i, x) (combine (seq start (List.length l)) l) <->
  (start <= i)%nat /\ nth_error l (i - start) = Some x.
Proof.
  revert start. induction l as [|y l IH]; intros start; cbn [List.length seq combine].
  - cbn. split; [tauto|]. intros [_ Hn]. destruct (i - start)%nat; discriminate.
  - cbn [In]. rewrite IH. split.
    + intros [E|[Hle Hn]].
      * injection E as <- <-. split; [lia|]. rewrite Nat.sub_diag. reflexivity.
      * split; [lia|]. replace (i - start)%nat with (S (i - S start)) by lia. exact Hn.
    + intros [Hle Hn]. destruct (Nat.eq_dec start i) as [<-|Hne].
      * left. rewrite Nat.sub_diag in Hn. cbn in Hn. congruence.
      * right. split; [lia|].
        replace (i - start)%nat with (S (i - S start)) in Hn by lia. exact Hn.
Qed.

Lemma in_enumerate {X : Type} (l : list X) (i : nat) (x : X) :
  In (i, x) (enumerate l) <-> nth_error l i = Some x.
Proof.
  unfold enumerate. rewrite in_combine_seq, Nat.sub_0_r. split; [tauto|].
  intros Hn. split; [lia|exact Hn].
Qed.

(** Who is related to the process at position [i]. *)
Lemma in_related_to (processes : list (Process (A := A))) (i : nat)
    (process : Process) (q : option Z) :
  In q (related_to processes i process) <->
  exists j other,
    nth_error processes j = Some other /\ j <> i /\
    flt (dec 7 10) (_calculate_similarity process other) = true /\ pid other = q.
Proof.
  unfold related_to. rewrite in_flat_map. split.
  - intros [[j other] [Hin Hq]]. apply in_enumerate in Hin. cbn [fst snd] in Hq.
    destruct (Nat.eqb_spec i j) as [->|Hne]; [destruct Hq|].
    destruct (flt _ _) eqn:Es; [|destruct Hq].
    destruct Hq as [<-|[]]. exists j, other. auto.
  - intros (j & other & Hn & Hne & Hs & <-). exists (j, other).
    split; [apply in_enumerate; exact Hn|]. cbn [fst snd].
    destruct (Nat.eqb_spec i j) as [->|_]; [congruence|]. rewrite Hs. left. reflexivity.
Qed.

(** The body of the outer loop. *)
Definition entangle (processes : list (Process (A := A)))
    (d : PyDict.dict (list (option Z))) (ip : nat * Process)
    : PyDict.dict (list (option Z)) :=
  match pid (snd ip) with
  | None => d
  | Some k =>
      match related_to processes (fst ip) (snd ip) with
      | [] => d
      | related => PyDict.set k related d
      end
  end.

Lemma entangle_processes_fold (processes : list (Process (A := A))) :
  entangle_processes processes = fold_left (entangle processes) (enumerate processes) [].
Proof. reflexivity. Qed.

Lemma fold_entangle_sound (processes : list (Process (A := A))) (k : Z)
    (related : list (option Z)) (l : list (nat * Process)) :
  forall d,
  PyDict.get k (fold_left (entangle processes) l d) = Some related ->
  PyDict.get k d = Some related \/
  exists i process, In (i, process) l /\ pid process = Some k /\
    related = related_to processes i process /\ related <> [].
Proof.
  induction l as [|[i p] l IH]; intros d; cbn [fold_left]; [auto|].
  intros Hg. apply IH in Hg. destruct Hg as [Hg|(j & q & Hin & Hq)].
  - unfold entangle in Hg. cbn [fst snd] in Hg.
    destruct (pid p) as [k'|] eqn:Ep; [|auto].
    destruct (related_to processes i p) as [|r rs] eqn:Er; [auto|].
    destruct (Z.eq_dec k' k) as [->|Hne].
    + rewrite dict_get_set_eq in Hg. injection Hg as <-.
      right. exists i, p. split; [left; reflexivity|]. split; [exact Ep|].
      split; [symmetry; exact Er | discriminate].
    + rewrite dict_get_set_ne in Hg by exact Hne. auto.
  - right. exists j, q. split; [right; exact Hin | exact Hq].
Qed.

(** X9. The dict [entangle_processes] returns: every list in it is non-empty
    and holds, for a process of the input with that pid, the pids of the
    processes at other positions that are more than 0.7 similar to it, and
    nothing else. *)
Theorem entangled_are_similar (processes : list (Process (A := A))) (k : Z)
    (related : list (option Z)) :
  PyDict.get k (entangle_processes processes) = Some related ->
  related <> [] /\
  exists i process,
    nth_error processes i = Some process /\ pid process = Some k /\
    forall q, In q related <->
      exists j other,
        nth_error processes j = Some other /\ j <> i /\
        flt (dec 7 10) (_calculate_similarity process other) = true /\ pid other = q.
Proof.
  rewrite entangle_processes_fold. intros Hg. apply fold_entangle_sound in Hg.
  destruct Hg as [Hg|(i & p & Hin & Hp & -> & Hne)]; [discriminate|].
  split; [exact Hne|]. exists i, p. split; [apply in_enumerate; exact Hin|].
  split; [exact Hp|]. intros q. apply in_related_to.
Qed.

Definition has_pid (k : Z) (ip : nat * Process (A := A)) : bool :=
  match pid (snd ip) with Some k' => Z.eqb k' k | None => false end.

Lemma fold_entangle_unique (processes : list (Process (A := A))) (k : Z)
    (related : list (option Z)) (l : list (nat * Process)) :
  (forall ip, In ip l -> pid (snd ip) = Some k ->
              related_to processes (fst ip) (snd ip) = related) ->
  forall d,
  PyDict.get k (fold_left (entangle processes) l d) =
  match related with
  | [] => PyDict.get k d
  | _ => if existsb (has_pid k) l then Some related else PyDict.get k d
  end.
Proof.
  induction l as [|[i p] l IH]; intros Hall d; cbn [fold_left existsb].
  - destruct related; reflexivity.
  - rewrite IH by (intros ip Hin; apply Hall; right; exact Hin).
    unfold entangle, has_pid. cbn [fst snd].
    destruct (pid p) as [k'|] eqn:Ep; [|destruct related; reflexivity].
    destruct (Z.eqb_spec k' k) as [->|Hne].
    + pose proof (Hall (i, p) (or_introl eq_refl) Ep) as Hr. cbn [fst snd] in Hr.
      rewrite Hr. destruct related as [|r rs]; [reflexivity|]. cbn [orb].
      rewrite dict_get_set_eq. destruct (existsb _ l); reflexivity.
    + cbn [orb]. destruct (related_to processes i p) as [|r rs].
      * destruct related; reflexivity.
      * rewrite dict_get_set_ne by exact Hne. destruct related; reflexivity.
Qed.

(** No two processes of the list carry the same pid. *)
Definition distinct_pids (processes : list (Process (A := A))) : Prop :=
  forall i j p q k,
    nth_error processes i = Some p -> nth_error processes j = Some q ->
    pid p = Some k -> pid q = Some k -> i = j.

Lemma entangle_processes_unique (processes : list (Process (A := A))) (i : nat)
    (process : Process) (k : Z) :
  distinct_pids processes ->
  nth_error processes i = Some process -> pid process = Some k ->
  PyDict.get k (entangle_processes processes) =
  match related_to processes i process with
  | [] => None
  | related => Some related
  end.
Proof.
  intros Hd Hn Hp. rewrite entangle_processes_fold.
  rewrite (fold_entangle_unique processes k (related_to processes i process)).
  - destruct (related_to processes i process) as [|r rs] eqn:Er; [reflexivity|].
    replace (existsb (has_pid k) (enumerate processes)) with true; [reflexivity|].
    symmetry. apply existsb_exists. exists (i, process).
    split; [apply in_enumerate; exact Hn|]. unfold has_pid. cbn [snd].
    rewrite Hp. apply Z.eqb_refl.
  - intros [j q] Hin Hq. cbn [fst snd] in *. apply in_enumerate in Hin.
    assert (j = i) by (eapply Hd; eauto). subst j.
    assert (q = process) by congruence. subst q. reflexivity.
Qed.

End Generic.

Section ExactGroups.
Local Open Scope R_scope.

(** X10. Entanglement is mutual. In exact arithmetic, over processes with
    distinct pids: when the list of one pid holds a second pid, the list of
    the second holds the first. *)
Theorem entanglement_symmetric (processes : list (Process (A := R))) (k1 k2 : Z) :
  distinct_pids processes ->
  In (Some k2) (get_entangled_processes (entangle_processes processes) k1) ->
  In (Some k1) (get_entangled_processes (entangle_processes processes) k2).
Proof.
  intros Hd. unfold get_entangled_processes.
  destruct (PyDict.get k1 (entangle_processes processes)) as [rel|] eqn:Eg; [|intros []].
  rewrite entangle_processes_fold in Eg. apply fold_entangle_sound in Eg.
  destruct Eg as [Eg|(i & p & Hn & Hp & -> & _)]; [discriminate|].
  apply in_enumerate in Hn. intros Hin. apply in_related_to in Hin.
  destruct Hin as (j & o & Hnj & Hne & Hs & Ho).
  assert (Hsym : _calculate_similarity o p = _calculate_similarity p o).
  { unfold _calculate_similarity.
    destruct (normalize_zero_or_unit o) as (x & y & z & -> & _).
    destruct (normalize_zero_or_unit p) as (x' & y' & z' & -> & _).
    rewrite !dot3. f_equal. lra. }
  rewrite (entangle_processes_unique processes j o k2 Hd Hnj Ho).
  assert (Hin : In (Some k1) (related_to processes j o)).
  { apply in_related_to. exists i, p. split; [exact Hn|]. split; [congruence|].
    split; [|exact Hp]. rewrite Hsym. exact Hs. }
  destruct (related_to processes j o); [destruct Hin | exact Hin].
Qed.

(** Two processes with the usage vector (3, 4, 0). *)
Definition twin (k : Z) : Process (A := R) :=
  {| pid := Some k; cpu_percent := Some 3; memory_percent := Some 4; io_rate := Some 0 |}.

Definition twins : list (Process (A := R)) := [twin 500; twin 501].

Lemma twins_distinct : distinct_pids twins.
Proof.
  intros [|[|i]] [|[|j]] p q k Hp Hq Ep Eq; cbn in Hp, Hq;
    try reflexivity; try (destruct i; discriminate); try (destruct j; discriminate);
    injection Hp as <-; injection Hq as <-; cbn in Ep, Eq; congruence.
Qed.

Lemma twins_related :
  In (Some 501%Z) (get_entangled_processes (entangle_processes twins) 500).
Proof.
  unfold get_entangled_processes.
  rewrite (entangle_processes_unique twins 0 (twin 500) 500 twins_distinct eq_refl eq_refl).
  assert (Hin : In (Some 501%Z) (related_to twins 0 (twin 500))).
  { apply in_related_to. exists 1%nat, (twin 501). split; [reflexivity|].
    split; [discriminate|]. split; [|reflexivity].
    rewrite similarity_same.
    - unfold dec. cbn [flt fdiv of_Z real_arith]. apply exact_ltb_true. lra.
    - reflexivity.
    - cbn. intros E. injection E as E _. lra. }
  destruct (related_to twins 0 (twin 500)); [destruct Hin | exact Hin].
Qed.

Lemma entanglement_symmetric_witness :
  In (Some 500%Z) (get_entangled_processes (entangle_processes twins) 501).
Proof.
  apply (entanglement_symmetric twins 500 501 twins_distinct twins_related).
Defined.

End ExactGroups.

(** Usage vectors (90, 10, 0), (88, 12, 0) and (0, 50, 50), in binary64. *)
Definition trio : list (Process (A := PrimFloat.float)) :=
  [{| pid := Some 500%Z; cpu_percent := Some (of_Z 90); memory_percent := Some (of_Z 10);
      io_rate := Some (of_Z 0) |};
   {| pid := Some 501%Z; cpu_percent := Some (of_Z 88); memory_percent := Some (of_Z 12);
      io_rate := Some (of_Z 0) |};
   {| pid := Some 502%Z; cpu_percent := Some (of_Z 0); memory_percent := Some (of_Z 50);
      io_rate := Some (of_Z 50) |}].

Lemma entangled_are_similar_witness :
  [Some 501%Z] <> [] /\
  exists i process,
    nth_error trio i = Some process /\ pid process = Some 500%Z /\
    forall q, In q [Some 501%Z] <->
      exists j other,
        nth_error trio j = Some other /\ j <> i /\
        flt (dec 7 10) (_calculate_similarity process other) = true /\ pid other = q.
Proof.
  apply (entangled_are_similar trio 500 [Some 501%Z]). vm_compute. reflexivity.
Defined.

End EntangledFacts.

(* ================================================================== *)
(** * Tracking and passes of the scheduler (scheduler.py) *)

Lemma dict_keys_set_absent {V} (k : Z) (v : V) (d : PyDict.dict V) :
  PyDict.contains k d = false -> PyDict.keys (PyDict.set k v d) = PyDict.keys d ++ [k].
Proof.
  unfold PyDict.contains, PyDict.keys.
  induction d as [|[k' v'] d IH]; cbn; [reflexivity|].
  destruct (Z.eqb_spec k k'); cbn; [discriminate|].
  intros Hc. f_equal. apply IH. exact Hc.
Qed.

Lemma dict_set_in {V} (k k0 : Z) (v v0 : V) (d : PyDict.dict V) :
  In (k0, v0) (PyDict.set k v d) -> (k0, v0) = (k, v) \/ In (k0, v0) d.
Proof.
  induction d as [|[k' v'] d IH]; cbn.
  - intros [E|[]]. left. congruence.
  - destruct (Z.eqb_spec k k'); cbn.
    + intros [E|Hin]; [left; congruence | right; right; exact Hin].
    + intros [E|Hin]; [right; left; exact E|].
      destruct (IH Hin) as [E|Hin']; [left; exact E | right; right; exact Hin'].
Qed.

Lemma dict_get_none_keys {V} (k : Z) (d : PyDict.dict V) :
  ~ In k (PyDict.keys d) -> PyDict.get k d = None.
Proof.
  intros Hn. destruct (PyDict.get k d) eqn:E; [|reflexivity].
  exfalso. apply Hn. apply dict_contains_keys. apply dict_contains_get. eauto.
Qed.

Module TrackingFacts.
Import SystemMonitor QuantumScheduler HamiltonianFacts SchedulerFacts.

Section Generic.
Context {A : Type} `{Arith A}.
Variable clock : nat -> Z.
Variable rand : nat -> nat -> list A.

(** The body of the loop of [_update_process_states]. *)
Definition track (m : SystemMetrics A) (sw : Scheduler (A := A) * World)
    (proc : ProcessMetrics A) : Scheduler * World :=
  let (s, w) := sw in
  match PyDict.get (pid proc) (process_states s) with
  | None =>
      let (q, w) := np_random_rand rand (num_qubits s) w in
      let state := {| st_pid := pid proc;
                      st_priority := of_Z 0;
                      quantum_state := q;
                      last_update := timestamp m;
                      resource_usage := usage_of proc |} in
      ({| num_qubits := num_qubits s;
          process_states := PyDict.set (pid proc) state (process_states s);
          optimization_history := optimization_history s;
          last_optimization := last_optimization s;
          temperature := temperature s;
          annealing_rate := annealing_rate s;
          min_temperature := min_temperature s |}, w)
  | Some state =>
      let state := {| st_pid := st_pid state;
                      st_priority := st_priority state;
                      quantum_state := quantum_state state;
                      last_update := timestamp m;
                      resource_usage := usage_of proc |} in
      ({| num_qubits := num_qubits s;
          process_states := PyDict.set (pid proc) state (process_states s);
          optimization_history := optimization_history s;
          last_optimization := last_optimization s;
          temperature := temperature s;
          annealing_rate := annealing_rate s;
          min_temperature := min_temperature s |}, w)
  end.

Lemma update_process_states_fold (s : Scheduler) (m : SystemMetrics A) (w : World) :
  _update_process_states rand s m w = fold_left (track m) (processes m) (s, w).
Proof. reflexivity. Qed.

(** Everything of the scheduler but the states. *)
Definition same_settings (s s' : Scheduler (A := A)) : Prop :=
  num_qubits s' = num_qubits s /\
  optimization_history s' = optimization_history s /\
  last_optimization s' = last_optimization s /\
  temperature s' = temperature s /\
  annealing_rate s' = annealing_rate s /\
  min_temperature s' = min_temperature s.

(** A state that differs from another in usage and time stamp only. *)
Definition same_state (st st' : ProcessState (A := A)) : Prop :=
  st_pid st' = st_pid st /\ st_priority st' = st_priority st /\
  quantum_state st' = quantum_state st.

Lemma track_spec (m : SystemMetrics A) (s : Scheduler) (w : World)
    (proc : ProcessMetrics A) :
  let s1 := fst (track m (s, w) proc) in
  same_settings s s1 /\
  (exists st1, process_states s1 = PyDict.set (pid proc) st1 (process_states s) /\
     PyDict.get (pid proc) (process_states s1) = Some st1 /\
     resource_usage st1 = usage_of proc /\ last_update st1 = timestamp m /\
     st_pid st1 =
       match PyDict.get (pid proc) (process_states s) with
       | Some st => st_pid st | None => pid proc end /\
     List.length (quantum_state st1) =
       match PyDict.get (pid proc) (process_states s) with
       | Some st => List.length (quantum_state st)
       | None => List.length (rand (draws w) (num_qubits s)) end /\
     (forall st, PyDict.get (pid proc) (process_states s) = Some st -> same_state st st1)) /\
  (forall k, k <> pid proc ->
     PyDict.get k (process_states s1) = PyDict.get k (process_states s)) /\
  PyDict.keys (process_states s1) =
    if PyDict.contains (pid proc) (process_states s) then PyDict.keys (process_states s)
    else PyDict.keys (process_states s) ++ [pid proc].
Proof.
  cbv zeta. unfold track, PyDict.contains.
  destruct (PyDict.get (pid proc) (process_states s)) as [st|] eqn:Eg;
    cbn [fst np_random_rand process_states num_qubits optimization_history
         last_optimization temperature annealing_rate min_temperature].
  - split; [repeat split|]. split.
    + eexists. split; [reflexivity|]. split; [apply dict_get_set_eq|]. cbn.
      do 4 (split; [reflexivity|]). intros old [= <-]. repeat split.
    + split; [intros k Hk; apply dict_get_set_ne; congruence|].
      apply dict_keys_set_present. unfold PyDict.contains. rewrite Eg. reflexivity.
  - split; [repeat split|]. split.
    + eexists. split; [reflexivity|]. split; [apply dict_get_set_eq|]. cbn.
      do 4 (split; [reflexivity|]). intros old [=].
    + split; [intros k Hk; apply dict_get_set_ne; congruence|].
      apply dict_keys_set_absent. unfold PyDict.contains. rewrite Eg. reflexivity.
Qed.

Lemma same_settings_trans (s1 s2 s3 : Scheduler (A := A)) :
  same_settings s1 s2 -> same_settings s2 s3 -> same_settings s1 s3.
Proof.
  unfold same_settings. intros (?&?&?&?&?&?) (?&?&?&?&?&?). repeat split; congruence.
Qed.

Lemma fold_track_keeps (m : SystemMetrics A) (ps : list (ProcessMetrics A)) :
  forall (s : Scheduler (A := A)) (w : World),
  let s' := fst (fold_left (track m) ps (s, w)) in
  same_settings s s' /\
  (forall k st, PyDict.get k (process_states s) = Some st ->
     exists st', PyDict.get k (process_states s') = Some st' /\ same_state st st') /\
  (forall k, ~ In k (map pid ps) ->
     PyDict.get k (process_states s') = PyDict.get k (process_states s)).
Proof.
  cbv zeta. induction ps as [|proc ps IH]; intros s w; cbn [fold_left].
  - split; [repeat split|]. split; [|reflexivity].
    intros k st Hg. exists st. split; [exact Hg|repeat split].
  - destruct (track_spec m s w proc)
      as (Hset & (st1 & _ & Hg1 & _ & _ & _ & _ & Hsame) & Hother & _).
    destruct (track m (s, w) proc) as [s1 w1]. cbn [fst] in *.
    destruct (IH s1 w1) as (Hset' & Hkeep & Hout).
    split; [eapply same_settings_trans; eassumption|]. split.
    + intros k st Hg. destruct (Z.eq_dec k (pid proc)) as [->|Hne].
      * destruct (Hkeep _ _ Hg1) as (st' & Hg' & Hs').
        exists st'. split; [exact Hg'|].
        destruct (Hsame st Hg) as (?&?&?). destruct Hs' as (?&?&?).
        repeat split; congruence.
      * rewrite <- (Hother k Hne) in Hg. apply Hkeep. exact Hg.
    + intros k Hk. cbn [map In] in Hk. rewrite Hout by tauto.
      apply Hother. intros E. apply Hk. left. congruence.
Qed.

(** X12. [_update_process_states] never forgets a process and never touches
    the state vector or the priority of one it knows: a tracked pid stays
    tracked with the same pid, priority and state vector, a pid that is not
    in the snapshot keeps its whole state, and nothing else of the scheduler
    changes. *)
Theorem update_process_states_keeps (s : Scheduler (A := A)) (m : SystemMetrics A)
    (w : World) :
  let s' := fst (_update_process_states rand s m w) in
  same_settings s s' /\
  (forall k st, PyDict.get k (process_states s) = Some st ->
     exists st', PyDict.get k (process_states s') = Some st' /\ same_state st st') /\
  (forall k, ~ In k (map pid (processes m)) ->
     PyDict.get k (process_states s') = PyDict.get k (process_states s)).
Proof.
  cbv zeta. rewrite update_process_states_fold. apply fold_track_keeps.
Qed.

Lemma fold_track_tracks (m : SystemMetrics A) (ps : list (ProcessMetrics A)) :
  forall (s : Scheduler (A := A)) (w : World) (proc : ProcessMetrics A),
  NoDup (map pid ps) -> In proc ps ->
  exists st, PyDict.get (pid proc) (process_states (fst (fold_left (track m) ps (s, w))))
             = Some st /\
    resource_usage st = usage_of proc /\ last_update st = timestamp m.
Proof.
  induction ps as [|p ps IH]; intros s w proc Hnd Hin; [destruct Hin|].
  cbn [fold_left]. cbn [map] in Hnd. inversion Hnd as [|? ? Hnotin Hnd']; subst.
  destruct (track_spec m s w p) as (_ & (st1 & _ & Hg1 & Hu & Ht & _) & _).
  destruct (track m (s, w) p) as [s1 w1] eqn:Et. cbn [fst] in *.
  destruct Hin as [->|Hin].
  - exists st1. split; [|split; assumption].
    destruct (fold_track_keeps m ps s1 w1) as (_ & _ & Hout).
    rewrite (Hout (pid proc) Hnotin). exact Hg1.
  - apply IH; assumption.
Qed.

(** X13. After [_update_process_states] on a snapshot whose pids are
    distinct, every process of the snapshot is tracked, with the usage the
    snapshot reports and the snapshot's time stamp. *)
Theorem update_process_states_tracks (s : Scheduler (A := A)) (m : SystemMetrics A)
    (w : World) (proc : ProcessMetrics A) :
  NoDup (map pid (processes m)) -> In proc (processes m) ->
  exists st, PyDict.get (pid proc) (process_states (fst (_update_process_states rand s m w)))
             = Some st /\
    resource_usage st = usage_of proc /\ last_update st = timestamp m.
Proof.
  rewrite update_process_states_fold. apply fold_track_tracks.
Qed.

(** ** What a pass leaves alone *)

Lemma store_optimized_get (d : PyDict.dict ProcessState) :
  forall (os : list (list A)) (k : Z) (st : ProcessState),
  PyDict.get k d = Some st ->
  exists st', PyDict.get k (store_optimized d os) = Some st' /\
    st_pid st' = st_pid st /\ resource_usage st' = resource_usage st /\
    last_update st' = last_update st.
Proof.
  induction d as [|[k0 st0] d IH]; intros os k st; cbn [PyDict.get]; [discriminate|].
  destruct os as [|o os]; cbn [store_optimized PyDict.get].
  - intros Hg. exists st. auto.
  - destruct (Z.eqb k k0).
    + intros [= <-]. eexists. split; [reflexivity|]. cbn. auto.
    + apply IH.
Qed.

Lemma pass_qubits (s : Scheduler (A := A)) (w : World) :
  num_qubits (fst (_optimize_scheduling clock s w)) = num_qubits s.
Proof.
  unfold _optimize_scheduling. destruct (PyDict.values (process_states s)); reflexivity.
Qed.

(** X14. A relaxation pass rewrites the state vector and the priority of a
    tracked process and nothing else of it: the same pids are tracked, in
    the same order, each with the pid, usage and time stamp it had; and the
    dimension and the annealing constants of the scheduler stay. *)
Theorem pass_keeps_processes (s : Scheduler (A := A)) (w : World) :
  let s' := fst (_optimize_scheduling clock s w) in
  PyDict.keys (process_states s') = PyDict.keys (process_states s) /\
  (forall k st, PyDict.get k (process_states s) = Some st ->
     exists st', PyDict.get k (process_states s') = Some st' /\
       st_pid st' = st_pid st /\ resource_usage st' = resource_usage st /\
       last_update st' = last_update st) /\
  num_qubits s' = num_qubits s /\ annealing_rate s' = annealing_rate s /\
  min_temperature s' = min_temperature s.
Proof.
  cbv zeta. rewrite optimize_scheduling_states. cbv zeta.
  split; [apply store_optimized_keys|]. split; [intros k st; apply store_optimized_get|].
  unfold _optimize_scheduling. destruct (PyDict.values (process_states s)); auto.
Qed.

(** ** States filed under their own pid *)

Definition wellkeyed (d : PyDict.dict (ProcessState (A := A))) : Prop :=
  NoDup (PyDict.keys d) /\ Forall (fun e => st_pid (snd e) = fst e) d.

Lemma wellkeyed_set (d : PyDict.dict ProcessState) (k : Z) (st : ProcessState) :
  wellkeyed d -> st_pid st = k -> wellkeyed (PyDict.set k st d).
Proof.
  intros [Hnd Hall] Hk. split.
  - destruct (PyDict.contains k d) eqn:Ec.
    + rewrite dict_keys_set_present by exact Ec. exact Hnd.
    + rewrite dict_keys_set_absent by exact Ec.
      apply NoDup_app; [exact Hnd | repeat constructor; intros [] |].
      intros x Hin [<-|[]]. apply dict_contains_keys in Hin. congruence.
  - apply Forall_forall. intros [k0 st0] Hin. apply dict_set_in in Hin.
    destruct Hin as [E|Hin]; [injection E as -> ->; exact Hk|].
    rewrite Forall_forall in Hall. apply (Hall _ Hin).
Qed.

Lemma wellkeyed_track (m : SystemMetrics A) (s : Scheduler) (w : World)
    (proc : ProcessMetrics A) :
  wellkeyed (process_states s) -> wellkeyed (process_states (fst (track m (s, w) proc))).
Proof.
  intros Hw. destruct (track_spec m s w proc) as (_ & (st1 & -> & _ & _ & _ & Hpid & _) & _).
  apply wellkeyed_set; [exact Hw|]. rewrite Hpid.
  destruct (PyDict.get (pid proc) (process_states s)) as [st|] eqn:Eg; [|reflexivity].
  apply dict_get_in in Eg. destruct Hw as [_ Hall]. rewrite Forall_forall in Hall.
  apply (Hall _ Eg).
Qed.

Lemma wellkeyed_fold_track (m : SystemMetrics A) (ps : list (ProcessMetrics A)) :
  forall (s : Scheduler (A := A)) (w : World),
  wellkeyed (process_states s) ->
  wellkeyed (process_states (fst (fold_left (track m) ps (s, w)))).
Proof.
  induction ps as [|proc ps IH]; intros s w Hw; cbn [fold_left]; [exact Hw|].
  pose proof (wellkeyed_track m s w proc Hw) as Hw1.
  destruct (track m (s, w) proc) as [s1 w1]. apply IH. exact Hw1.
Qed.

Lemma store_optimized_pids (d : PyDict.dict ProcessState) :
  forall os : list (list A),
  Forall (fun e => st_pid (snd e) = fst e) d ->
  Forall (fun e => st_pid (snd e) = fst e) (store_optimized d os).
Proof.
  induction d as [|[k st] d IH]; intros [|o os] Hall; cbn [store_optimized];
    try exact Hall.
  inversion Hall; subst. constructor; [assumption | apply IH; assumption].
Qed.

Lemma wellkeyed_pass (s : Scheduler (A := A)) (w : World) :
  wellkeyed (process_states s) ->
  wellkeyed (process_states (fst (_optimize_scheduling clock s w))).
Proof.
  intros [Hnd Hall]. rewrite optimize_scheduling_states. cbv zeta. split.
  - rewrite store_optimized_keys. exact Hnd.
  - apply store_optimized_pids. exact Hall.
Qed.

Lemma wellkeyed_update (s : Scheduler (A := A)) (m : SystemMetrics A) (w : World) :
  wellkeyed (process_states s) ->
  wellkeyed (process_states (fst (update clock rand s m w))).
Proof.
  intros Hw. unfold update. rewrite update_process_states_fold.
  pose proof (wellkeyed_fold_track m (processes m) s w Hw) as Hw1.
  destruct (fold_left (track m) (processes m) (s, w)) as [s1 w1]. cbn [fst] in Hw1.
  destruct (_should_optimize clock s1 w1) as [[|] w2]; [|exact Hw1].
  apply wellkeyed_pass. exact Hw1.
Qed.

(** The priorities a record of the log holds. *)
Lemma logged_priorities (d : PyDict.dict (ProcessState (A := A))) :
  wellkeyed d ->
  forall (acc : PyDict.dict A) (k : Z),
  PyDict.get k
    (fold_left (fun ps state => PyDict.set (st_pid state) (st_priority state) ps)
               (PyDict.values d) acc) =
  match PyDict.get k d with
  | Some st => Some (st_priority st)
  | None => PyDict.get k acc
  end.
Proof.
  induction d as [|[k0 st0] d IH]; intros [Hnd Hall] acc k; [reflexivity|].
  cbn [PyDict.values map fold_left snd PyDict.get].
  cbn [PyDict.keys map fst] in Hnd. inversion Hnd as [|? ? Hnotin Hnd']; subst.
  inversion Hall as [|? ? Hk Hall']; subst. cbn [fst snd] in Hk.
  change (map snd d) with (PyDict.values d). rewrite IH by (split; assumption).
  rewrite Hk. destruct (Z.eqb_spec k k0) as [->|Hne].
  - rewrite (dict_get_none_keys k0 d Hnotin). apply dict_get_set_eq.
  - rewrite dict_get_set_ne by congruence. reflexivity.
Qed.

(** X15. A pass over a non-empty, well-keyed set of states appends exactly
    one record to the optimization log: it carries the temperature the pass
    ran at (before the decay) and, for every tracked pid, the priority the
    pass stored for it, and for no other pid. *)
Theorem pass_logs_stored_priorities (s : Scheduler (A := A)) (w : World) :
  wellkeyed (process_states s) -> process_states s <> [] ->
  let s' := fst (_optimize_scheduling clock s w) in
  exists record,
    optimization_history s' = optimization_history s ++ [record] /\
    h_temperature record = temperature s /\
    forall k, PyDict.get k (h_priorities record) =
              option_map st_priority (PyDict.get k (process_states s')).
Proof.
  intros Hw Hne. cbv zeta.
  pose proof (wellkeyed_pass s w Hw) as Hw'. rewrite optimize_scheduling_states in *.
  cbv zeta in *. unfold _optimize_scheduling.
  destruct (process_states s) as [|[k0 st0] d] eqn:Ed; [congruence|].
  cbn [PyDict.values map]. unfold datetime_now. cbn [fst optimization_history].
  eexists. split; [reflexivity|]. split; [reflexivity|]. intros k.
  cbn [h_priorities]. change (st0 :: map snd d) with (PyDict.values ((k0, st0) :: d)).
  rewrite logged_priorities by exact Hw'.
  destruct (PyDict.get k _); reflexivity.
Qed.

(** ** The dimension of the state vectors *)

Definition all_dim (nq : nat) (cs : list (list A)) : Prop :=
  Forall (fun v => List.length v = nq) cs.

Lemma vadd_length (u v : list A) :
  List.length (vadd u v) = Nat.min (List.length u) (List.length v).
Proof. unfold vadd. rewrite length_map. apply length_combine. Qed.

Lemma vsub_length (u v : list A) :
  List.length (vsub u v) = Nat.min (List.length u) (List.length v).
Proof. unfold vsub. rewrite length_map. apply length_combine. Qed.

Lemma all_dim_nth (nq : nat) (cs : list (list A)) (i : nat) :
  all_dim nq cs -> (i < List.length cs)%nat -> List.length (nth i cs []) = nq.
Proof.
  intros Hall Hi. unfold all_dim in Hall. rewrite Forall_forall in Hall.
  apply Hall. apply nth_In. exact Hi.
Qed.

Lemma force_on_length (nq : nat) (h : matrix) (cs : list (list A)) (i : nat) :
  all_dim nq cs -> (i < List.length cs)%nat ->
  List.length (force_on nq h cs i) = nq.
Proof.
  intros Hall Hi. unfold force_on.
  assert (Hgen : forall (js : list nat) (force : list A),
            (forall j, In j js -> (j < List.length cs)%nat) ->
            List.length force = nq ->
            List.length
              (fold_left
                 (fun force j =>
                    if Nat.eqb i j then force
                    else vadd force (vscale (entry h i j)
                                       (vsub (nth j cs []) (nth i cs []))))
                 js force) = nq).
  { induction js as [|j js IH]; intros force Hjs Hf; cbn [fold_left]; [exact Hf|].
    apply IH; [intros k Hk; apply Hjs; right; exact Hk|].
    destruct (Nat.eqb i j); [exact Hf|].
    rewrite vadd_length. unfold vscale. rewrite length_map, vsub_length.
    rewrite (all_dim_nth nq cs j Hall) by (apply Hjs; left; reflexivity).
    rewrite (all_dim_nth nq cs i Hall Hi), Hf. lia. }
  apply Hgen.
  - intros j Hj. apply in_seq in Hj. exact (proj2 Hj).
  - apply repeat_length.
Qed.

Lemma evolve_dim (nq : nat) (temp : A) (h : matrix) (cs : list (list A)) (i : nat) :
  all_dim nq cs -> (i < List.length cs)%nat -> all_dim nq (evolve nq temp h cs i).
Proof.
  intros Hall Hi. unfold evolve, all_dim. apply Forall_forall. intros v Hin.
  apply In_nth with (d := []) in Hin. destruct Hin as (j & Hj & <-).
  rewrite list_set_length in Hj. destruct (Nat.eq_dec i j) as [<-|Hne].
  - rewrite nth_list_set_eq by exact Hi. unfold vdivs, pushed, vmuls.
    rewrite length_map, vadd_length, length_map. unfold ndarray in *.
    rewrite (all_dim_nth nq cs i Hall Hi), (force_on_length nq h cs i Hall Hi). lia.
  - rewrite nth_list_set_ne by exact Hne. apply all_dim_nth; assumption.
Qed.

Lemma anneal_step_dim (nq : nat) (temp : A) (h : matrix) (cs : list (list A)) :
  all_dim nq cs -> all_dim nq (anneal_step nq temp h cs).
Proof.
  unfold anneal_step.
  assert (Hgen : forall (l : list nat) (cs0 : list (list A)),
            (forall i, In i l -> (i < List.length cs0)%nat) ->
            all_dim nq cs0 -> all_dim nq (fold_left (evolve nq temp h) l cs0)).
  { induction l as [|i l IH]; intros cs0 Hl Hall; cbn [fold_left]; [exact Hall|].
    apply IH.
    - intros k Hk. unfold evolve. rewrite list_set_length. apply Hl. right. exact Hk.
    - apply evolve_dim; [exact Hall|]. apply Hl. left. reflexivity. }
  intros Hall. apply Hgen; [|exact Hall]. intros i Hi. apply in_seq in Hi.
  exact (proj2 Hi).
Qed.

Lemma anneal_steps_dim (k nq : nat) (temp : A) (h : matrix) (cs : list (list A)) :
  all_dim nq cs -> all_dim nq (anneal_steps k nq temp h cs).
Proof.
  intros Hall. unfold anneal_steps. induction k as [|k IH]; [exact Hall|].
  rewrite Nat.iter_succ. apply anneal_step_dim. exact IH.
Qed.

(** Every tracked state vector has the dimension of the scheduler. *)
Definition shaped (s : Scheduler (A := A)) : Prop :=
  Forall (fun e => List.length (quantum_state (snd e)) = num_qubits s) (process_states s).

Lemma store_optimized_dim (nq : nat) (d : PyDict.dict ProcessState) :
  forall os : list (list A),
  Forall (fun e => List.length (quantum_state (snd e)) = nq) d ->
  all_dim nq os ->
  Forall (fun e => List.length (quantum_state (snd e)) = nq) (store_optimized d os).
Proof.
  induction d as [|[k st] d IH]; intros [|o os] Hd Ho; cbn [store_optimized];
    try exact Hd.
  inversion Hd; subst. inversion Ho; subst.
  constructor; [cbn; assumption | apply IH; assumption].
Qed.

Lemma shaped_pass (s : Scheduler (A := A)) (w : World) :
  shaped s -> shaped (fst (_optimize_scheduling clock s w)).
Proof.
  intros Hs. unfold shaped.
  rewrite pass_qubits.
  rewrite optimize_scheduling_states. cbv zeta.
  apply store_optimized_dim; [exact Hs|].
  unfold _quantum_annealing. apply anneal_steps_dim.
  unfold all_dim, PyDict.values. rewrite map_map. apply Forall_map.
  exact Hs.
Qed.

Lemma shaped_track (m : SystemMetrics A) (s : Scheduler) (w : World)
    (proc : ProcessMetrics A) :
  (forall k n, List.length (rand k n) = n) ->
  shaped s -> shaped (fst (track m (s, w) proc)).
Proof.
  intros Hrand Hs. unfold shaped in *.
  destruct (track_spec m s w proc)
    as ((-> & _) & (st1 & -> & _ & _ & _ & _ & Hlen & _) & _).
  apply Forall_forall. intros [k0 st0] Hin. apply dict_set_in in Hin.
  rewrite Forall_forall in Hs.
  destruct Hin as [E|Hin]; [|apply (Hs _ Hin)].
  injection E as -> ->. cbn [snd]. rewrite Hlen.
  destruct (PyDict.get (pid proc) (process_states s)) as [st|] eqn:Eg; [|apply Hrand].
  apply dict_get_in in Eg. apply (Hs _ Eg).
Qed.

Lemma shaped_update (s : Scheduler (A := A)) (m : SystemMetrics A) (w : World) :
  (forall k n, List.length (rand k n) = n) ->
  shaped s -> shaped (fst (update clock rand s m w)).
Proof.
  intros Hrand Hs. unfold update. rewrite update_process_states_fold.
  assert (H1 : shaped (fst (fold_left (track m) (processes m) (s, w)))).
  { revert s w Hs. induction (processes m) as [|proc ps IH]; intros s w Hs;
      cbn [fold_left]; [exact Hs|].
    pose proof (shaped_track m s w proc Hrand Hs) as Hs1.
    destruct (track m (s, w) proc) as [s1 w1]. apply IH. exact Hs1. }
  destruct (fold_left (track m) (processes m) (s, w)) as [s1 w1]. cbn [fst] in H1.
  destruct (_should_optimize clock s1 w1) as [[|] w2]; [|exact H1].
  apply shaped_pass. exact H1.
Qed.

(** The scheduler after a run of updates from its construction. *)
Definition run (n : nat) (ms : list (SystemMetrics A)) (w : World)
    : Scheduler (A := A) * World :=
  fold_left (fun sw m => update clock rand (fst sw) m (snd sw)) ms (init clock n w).

(** X16. In every state the scheduler reaches, no pid is tracked twice,
    every state is filed under its own pid, and, numpy's draws having the
    length asked for, every state vector has [num_qubits] components. *)
Theorem reachable_states_wellformed (n : nat) (ms : list (SystemMetrics A)) (w : World) :
  (forall k n, List.length (rand k n) = n) ->
  wellkeyed (process_states (fst (run n ms w))) /\ shaped (fst (run n ms w)) /\
  num_qubits (fst (run n ms w)) = n.
Proof.
  intros Hrand. unfold run.
  assert (Hgen : forall sw : Scheduler (A := A) * World,
            wellkeyed (process_states (fst sw)) -> shaped (fst sw) ->
            num_qubits (fst sw) = n ->
            let sw' := fold_left (fun sw m => update clock rand (fst sw) m (snd sw)) ms sw in
            wellkeyed (process_states (fst sw')) /\ shaped (fst sw') /\
            num_qubits (fst sw') = n).
  { induction ms as [|m ms IH]; intros sw Hw Hs Hn; cbn [fold_left]; [auto|].
    apply IH.
    - apply wellkeyed_update. exact Hw.
    - apply shaped_update; assumption.
    - rewrite <- Hn. unfold update.
      rewrite update_process_states_fold.
      destruct (fold_track_keeps m (processes m) (fst sw) (snd sw)) as ((Hq & _) & _).
      destruct (fold_left (track m) (processes m) (fst sw, snd sw)) as [s1 w1].
      cbn [fst] in Hq.
      destruct (_should_optimize clock s1 w1) as [[|] w2]; [|exact Hq].
      cbn [fst]. rewrite pass_qubits. exact Hq. }
  apply Hgen.
  - split; [constructor|constructor].
  - constructor.
  - reflexivity.
Qed.

End Generic.

Section ExactCoupling.
Local Open Scope R_scope.

Lemma interaction_comm (s1 s2 : ProcessState (A := R)) :
  _calculate_interaction s1 s2 = _calculate_interaction s2 s1.
Proof.
  unfold _calculate_interaction. cbn [fadd fsub fdiv fabs of_Z real_arith].
  rewrite (Rabs_minus_sym (cpu (resource_usage s1)) (cpu (resource_usage s2))),
          (Rabs_minus_sym (memory (resource_usage s1)) (memory (resource_usage s2))).
  replace (Z.abs (io (resource_usage s1) - io (resource_usage s2)))
    with (Z.abs (io (resource_usage s2) - io (resource_usage s1))) by lia.
  reflexivity.
Qed.

(** X17. The interaction of two processes does not depend on their order,
    and it is zero exactly when their cpu, memory and io usage coincide. *)
Theorem interaction_symmetric_and_definite (s1 s2 : ProcessState (A := R)) :
  _calculate_interaction s1 s2 = _calculate_interaction s2 s1 /\
  (_calculate_interaction s1 s2 = 0 <-> resource_usage s1 = resource_usage s2).
Proof.
  unfold _calculate_interaction. cbn [fadd fsub fdiv fabs of_Z real_arith].
  destruct (resource_usage s1) as [c1 m1 i1], (resource_usage s2) as [c2 m2 i2].
  cbn [cpu memory io].
  pose proof (Rabs_pos (c1 - c2)) as Hc. pose proof (Rabs_pos (m1 - m2)) as Hm.
  pose proof (IZR_le _ _ (Z.abs_nonneg (i1 - i2))) as Hi.
  split.
  - rewrite (Rabs_minus_sym c1 c2), (Rabs_minus_sym m1 m2).
    replace (Z.abs (i1 - i2)) with (Z.abs (i2 - i1)) by lia. reflexivity.
  - split.
    + intros Hz.
      assert (Hc0 : Rabs (c1 - c2) = 0) by lra.
      assert (Hm0 : Rabs (m1 - m2) = 0) by lra.
      assert (Hi0 : IZR (Z.abs (i1 - i2)) = 0) by lra.
      apply eq_IZR in Hi0.
      assert (c1 = c2).
      { destruct (Req_dec (c1 - c2) 0) as [E|E]; [lra|].
        apply Rabs_no_R0 in E. contradiction. }
      assert (m1 = m2).
      { destruct (Req_dec (m1 - m2) 0) as [E|E]; [lra|].
        apply Rabs_no_R0 in E. contradiction. }
      assert (i1 = i2) by lia. subst. reflexivity.
    + intros [= -> -> ->]. rewrite !Rminus_diag, Rabs_R0, Z.sub_diag. cbn. lra.
Qed.

(** X18. Off the diagonal, the entry of the coupling matrix for two tracked
    processes is their interaction, whichever comes first. *)
Theorem coupling_entry_is_interaction (states : list (ProcessState (A := R)))
    (i j : nat) (si sj : ProcessState) :
  nth_error states i = Some si -> nth_error states j = Some sj -> i <> j ->
  entry (_create_hamiltonian states) i j = _calculate_interaction si sj.
Proof.
  intros Hi Hj Hne. rewrite hamiltonian_entry. unfold coupling.
  assert (Hil : (i < List.length states)%nat) by (apply nth_error_Some; congruence).
  assert (Hjl : (j < List.length states)%nat) by (apply nth_error_Some; congruence).
  destruct (Nat.ltb_spec i j); cbn [andb].
  - destruct (Nat.ltb_spec j (List.length states)); [|lia]. rewrite Hi, Hj. reflexivity.
  - destruct (Nat.ltb_spec j i); [|lia]. cbn [andb].
    destruct (Nat.ltb_spec i (List.length states)); [|lia]. rewrite Hi, Hj.
    apply interaction_comm.
Qed.

(** Two states, of a process at 92% cpu and of one at 0%. *)
Definition busy_state : ProcessState (A := R) :=
  {| st_pid := 500; st_priority := 0; quantum_state := [1; 0];
     last_update := 0; resource_usage := {| cpu := 92; memory := 40; io := 0 |} |}.

Definition idle_state : ProcessState (A := R) :=
  {| st_pid := 501; st_priority := 0; quantum_state := [0; 1];
     last_update := 0; resource_usage := {| cpu := 0; memory := 40; io := 0 |} |}.

Lemma coupling_entry_is_interaction_witness :
  entry (_create_hamiltonian [busy_state; idle_state]) 1 0 =
  _calculate_interaction idle_state busy_state.
Proof.
  apply (coupling_entry_is_interaction [busy_state; idle_state] 1 0 idle_state busy_state);
    [reflexivity | reflexivity | discriminate].
Defined.

End ExactCoupling.

(** ** Concrete runs, in binary64 arithmetic *)

Lemma update_process_states_tracks_witness :
  exists st : ProcessState (A := PrimFloat.float),
    PyDict.get 501 (process_states (fst before_pass)) = Some st /\
    resource_usage st =
      usage_of (Scenario.proc 501 "idle.exe" (of_Z 0) (of_Z 40) None 3) /\
    last_update st = 2000000%Z.
Proof.
  unfold before_pass.
  destruct (init Scenario.clock 4 {| reads := 0; draws := 0 |}) as [s w].
  apply (update_process_states_tracks Scenario.rand_mixed s Scenario.loaded w
           (Scenario.proc 501 "idle.exe" (of_Z 0) (of_Z 40) None 3)).
  - cbn. repeat constructor; cbn; intuition discriminate.
  - right. left. reflexivity.
Defined.

Lemma before_pass_wellkeyed : wellkeyed (process_states (fst before_pass)).
Proof.
  split.
  - vm_compute. repeat constructor; cbn; intuition discriminate.
  - vm_compute. repeat constructor.
Qed.

Lemma pass_logs_stored_priorities_witness :
  exists record,
    optimization_history
      (fst (_optimize_scheduling Scenario.clock (fst before_pass) (snd before_pass))) =
      optimization_history (fst before_pass) ++ [record] /\
    h_temperature record = temperature (fst before_pass) /\
    forall k, PyDict.get k (h_priorities record) =
              option_map st_priority
                (PyDict.get k
                   (process_states
                      (fst (_optimize_scheduling Scenario.clock (fst before_pass)
                              (snd before_pass))))).
Proof.
  apply (pass_logs_stored_priorities Scenario.clock (fst before_pass) (snd before_pass)).
  - exact before_pass_wellkeyed.
  - vm_compute. discriminate.
Defined.

Lemma reachable_states_wellformed_witness :
  wellkeyed
    (process_states
       (fst (run (A := PrimFloat.float) Scenario.clock Scenario.rand_halves 4
               [Scenario.calm; Scenario.loaded] {| reads := 0; draws := 0 |}))) /\
  shaped (fst (run (A := PrimFloat.float) Scenario.clock Scenario.rand_halves 4
                 [Scenario.calm; Scenario.loaded] {| reads := 0; draws := 0 |})) /\
  num_qubits (fst (run (A := PrimFloat.float) Scenario.clock Scenario.rand_halves 4
                     [Scenario.calm; Scenario.loaded] {| reads := 0; draws := 0 |})) = 4%nat.
Proof.
  apply (reachable_states_wellformed Scenario.clock Scenario.rand_halves 4
           [Scenario.calm; Scenario.loaded] {| reads := 0; draws := 0 |}).
  intros [|k] n; apply repeat_length.
Defined.

End TrackingFacts.

(* ================================================================== *)
(** * Synthesis and application of actions (synergy_core.py) *)

Module SelectionFacts.
Import SystemMonitor SynergyCore SynergyFacts.

Section Generic.
Context {A : Type} `{Arith A}.
Variable OS : Type.
Variable win32 : Win32Call -> OS -> OS * bool.
Variable clock : nat -> Z.
Variable cpu_count : option Z.
Variable total_memory : Z.

Lemma insert_desc_permutation {X : Type} (key : X -> A) (x : X) (l : list X) :
  Permutation (x :: l) (insert_desc key x l).
Proof.
  induction l as [|y l IH]; cbn [insert_desc]; [reflexivity|].
  destruct (flt (key x) (key y)); [|reflexivity].
  rewrite perm_swap. apply perm_skip. exact IH.
Qed.

(** Sorting rearranges and neither drops nor invents an element. *)
Lemma sorted_desc_permutation {X : Type} (key : X -> A) (l : list X) :
  Permutation l (sorted_desc key l).
Proof.
  unfold sorted_desc. induction l as [|x l IH]; cbn [fold_right]; [reflexivity|].
  rewrite <- insert_desc_permutation. apply perm_skip. exact IH.
Qed.

(** The cpu action for a process. *)
Definition is_cpu_action (a : OptimizationAction (A := A)) (proc : ProcessMetrics A) : Prop :=
  a_pid a = pid proc /\ action_type a = cpu_optimization /\
  a_priority a = (cpu_percent proc / of_Z 100)%py /\
  parameters a = [("priority_class", VStr "BELOW_NORMAL");
                  ("affinity_mask", VInt (_calculate_optimal_affinity cpu_count proc))]%string.

Definition is_memory_action (a : OptimizationAction (A := A)) (proc : ProcessMetrics A)
    : Prop :=
  a_pid a = pid proc /\ action_type a = memory_optimization /\
  a_priority a = (memory_percent proc / of_Z 100)%py /\
  parameters a = [("priority_class", VStr "BELOW_NORMAL");
                  ("working_set_limit",
                   VInt (_calculate_working_set_limit total_memory proc))]%string.

(** The loop of [_optimize_cpu_usage] emits one action for each process
    of the list above 50%, in the order of the list. *)
Lemma cpu_loop_shape (l : list (ProcessMetrics A)) :
  forall (acc : list OptimizationAction) (w : World OS),
  exists more,
    fst (fold_left
           (fun (aw : list OptimizationAction * World OS) proc =>
              let (actions, w) := aw in
              if flt (of_Z 50) (cpu_percent proc) then
                let (now, w) := datetime_now clock w in
                (actions ++
                 [{| a_pid := pid proc;
                     action_type := cpu_optimization;
                     parameters := [("priority_class", VStr "BELOW_NORMAL");
                                    ("affinity_mask",
                                     VInt (_calculate_optimal_affinity cpu_count proc))]%string;
                     a_timestamp := now;
                     a_priority := (cpu_percent proc / of_Z 100)%py |}], w)
              else aw) l (acc, w)) = acc ++ more /\
    Forall2 is_cpu_action more
            (filter (fun proc => flt (of_Z 50) (cpu_percent proc)) l).
Proof.
  induction l as [|proc l IH]; intros acc w; cbn [fold_left filter].
  - exists []. rewrite app_nil_r. split; [reflexivity|constructor].
  - destruct (flt (of_Z 50) (cpu_percent proc)).
    + destruct (datetime_now clock w) as [now w1].
      lazymatch goal with |- context [fold_left _ l (acc ++ [?a], w1)] =>
        destruct (IH (acc ++ [a]) w1) as (more & -> & Hall); exists (a :: more) end.
      rewrite <- app_assoc. split; [reflexivity|].
      constructor; [repeat split | exact Hall].
    + apply IH.
Qed.

Lemma memory_loop_shape (l : list (ProcessMetrics A)) :
  forall (acc : list OptimizationAction) (w : World OS),
  exists more,
    fst (fold_left
           (fun (aw : list OptimizationAction * World OS) proc =>
              let (actions, w) := aw in
              if flt (of_Z 50) (memory_percent proc) then
                let (now, w) := datetime_now clock w in
                (actions ++
                 [{| a_pid := pid proc;
                     action_type := memory_optimization;
                     parameters := [("priority_class", VStr "BELOW_NORMAL");
                                    ("working_set_limit",
                                     VInt (_calculate_working_set_limit total_memory proc))]%string;
                     a_timestamp := now;
                     a_priority := (memory_percent proc / of_Z 100)%py |}], w)
              else aw) l (acc, w)) = acc ++ more /\
    Forall2 is_memory_action more
            (filter (fun proc => flt (of_Z 50) (memory_percent proc)) l).
Proof.
  induction l as [|proc l IH]; intros acc w; cbn [fold_left filter].
  - exists []. rewrite app_nil_r. split; [reflexivity|constructor].
  - destruct (flt (of_Z 50) (memory_percent proc)).
    + destruct (datetime_now clock w) as [now w1].
      lazymatch goal with |- context [fold_left _ l (acc ++ [?a], w1)] =>
        destruct (IH (acc ++ [a]) w1) as (more & -> & Hall); exists (a :: more) end.
      rewrite <- app_assoc. split; [reflexivity|].
      constructor; [repeat split | exact Hall].
    + apply IH.
Qed.

Lemma cpu_actions_shape (m : SystemMetrics A) (w : World OS) :
  Forall2 is_cpu_action (fst (_optimize_cpu_usage clock cpu_count m w))
    (filter (fun proc => flt (of_Z 50) (cpu_percent proc))
            (firstn 5 (sorted_desc cpu_percent (processes m)))).
Proof.
  unfold _optimize_cpu_usage.
  destruct (cpu_loop_shape (firstn 5 (sorted_desc cpu_percent (processes m))) [] w)
    as (more & -> & Hall). exact Hall.
Qed.

Lemma memory_actions_shape (m : SystemMetrics A) (w : World OS) :
  Forall2 is_memory_action (fst (_optimize_memory_usage clock total_memory m w))
    (filter (fun proc => flt (of_Z 50) (memory_percent proc))
            (firstn 5 (sorted_desc memory_percent (processes m)))).
Proof.
  unfold _optimize_memory_usage.
  destruct (memory_loop_shape (firstn 5 (sorted_desc memory_percent (processes m))) [] w)
    as (more & -> & Hall). exact Hall.
Qed.

Lemma Forall2_in_left {X Y : Type} (R : X -> Y -> Prop) (l : list X) (l' : list Y) (x : X) :
  Forall2 R l l' -> In x l -> exists y, In y l' /\ R x y.
Proof.
  induction 1 as [|a b l l' Hab Hall IH]; intros Hin; [destruct Hin|].
  destruct Hin as [<-|Hin]; [exists b; split; [left; reflexivity | exact Hab]|].
  destruct (IH Hin) as (y & Hy & Hr). exists y. split; [right; exact Hy | exact Hr].
Qed.

Lemma in_firstn {X : Type} (n : nat) (l : list X) (x : X) : In x (firstn n l) -> In x l.
Proof.
  intros Hin. rewrite <- (firstn_skipn n l). apply in_or_app. left. exact Hin.
Qed.

Lemma top5_in_snapshot {X : Type} (key : X -> A) (test : X -> bool) (l : list X) (x : X) :
  In x (filter test (firstn 5 (sorted_desc key l))) -> In x l /\ test x = true.
Proof.
  intros Hin. apply filter_In in Hin. destruct Hin as [Hin Ht]. split; [|exact Ht].
  apply in_firstn in Hin. eapply Permutation_in; [|exact Hin].
  symmetry. apply sorted_desc_permutation.
Qed.

Lemma top5_length {X : Type} (key : X -> A) (test : X -> bool) (l : list X) :
  (List.length (filter test (firstn 5 (sorted_desc key l))) <= 5)%nat.
Proof.
  eapply Nat.le_trans; [apply filter_length_le|]. apply firstn_le_length.
Qed.

Definition is_io_action (c : Core (A := A)) (a : OptimizationAction (A := A))
    (proc : ProcessMetrics A) : Prop :=
  a_pid a = pid proc /\ action_type a = io_optimization /\
  a_priority a = dec 8 10 /\
  parameters a = [("priority_class", VStr "BELOW_NORMAL");
                  ("io_priority", VStr "LOW")]%string /\
  exists io, io_counters proc = Some io /\
             (read_bytes io + write_bytes io > io_threshold c)%Z.

Definition is_thread_action (a : OptimizationAction (A := A)) (proc : ProcessMetrics A)
    : Prop :=
  a_pid a = pid proc /\ action_type a = thread_optimization /\
  a_priority a = dec 7 10 /\
  parameters a = [("priority_class", VStr "BELOW_NORMAL");
                  ("thread_limit", VInt 100)]%string /\
  (thread_count proc > 100)%Z.

(** What [_optimize_process] returns for one process: its io action, if
    its io exceeds the threshold, then its thread action, if it has more
    than 100 threads. *)
Lemma optimize_process_spec (c : Core) (proc : ProcessMetrics A) (w : World OS) :
  let actions := fst (_optimize_process clock c proc w) in
  Forall (fun a => is_io_action c a proc \/ is_thread_action a proc) actions /\
  (List.length actions <= 2)%nat /\
  ((thread_count proc > 100)%Z -> exists a, In a actions /\ is_thread_action a proc) /\
  (forall io, io_counters proc = Some io ->
     (read_bytes io + write_bytes io > io_threshold c)%Z ->
     exists a, In a actions /\ is_io_action c a proc).
Proof.
  assert (Hio_ok : forall io now,
            io_counters proc = Some io ->
            (read_bytes io + write_bytes io > io_threshold c)%Z ->
            is_io_action c
              {| a_pid := pid proc; action_type := io_optimization;
                 parameters := [("priority_class", VStr "BELOW_NORMAL");
                                ("io_priority", VStr "LOW")]%string;
                 a_timestamp := now; a_priority := dec 8 10 |} proc).
  { intros io now Eio Hgt. do 4 (split; [reflexivity|]). exists io. auto. }
  assert (Hthread_ok : forall now,
            (thread_count proc > 100)%Z ->
            is_thread_action
              {| a_pid := pid proc; action_type := thread_optimization;
                 parameters := [("priority_class", VStr "BELOW_NORMAL");
                                ("thread_limit", VInt 100)]%string;
                 a_timestamp := now; a_priority := dec 7 10 |} proc).
  { intros now Hgt. do 4 (split; [reflexivity|]). exact Hgt. }
  unfold _optimize_process.
  destruct (io_counters proc) as [io|] eqn:Eio.
  - destruct (Z.gtb_spec (read_bytes io + write_bytes io) (io_threshold c)) as [Hio|Hio];
      destruct (Z.gtb_spec (thread_count proc) 100) as [Ht|Ht];
      cbn [datetime_now fst snd app List.length].
    + split; [apply Forall_cons; [left; apply (Hio_ok io); [reflexivity|lia]|];
              apply Forall_cons; [right; apply Hthread_ok; lia | apply Forall_nil]|].
      split; [lia|]. split.
      * intros _. eexists. split; [right; left; reflexivity|]. apply Hthread_ok. lia.
      * intros io' [= <-] _. eexists. split; [left; reflexivity|].
        apply (Hio_ok io); [reflexivity|lia].
    + split; [apply Forall_cons; [left; apply (Hio_ok io); [reflexivity|lia]|];
              apply Forall_nil|].
      split; [lia|]. split; [lia|].
      intros io' [= <-] _. eexists. split; [left; reflexivity|].
      apply (Hio_ok io); [reflexivity|lia].
    + split; [apply Forall_cons; [right; apply Hthread_ok; lia | apply Forall_nil]|].
      split; [lia|]. split.
      * intros _. eexists. split; [left; reflexivity|]. apply Hthread_ok. lia.
      * intros io' [= <-] Hgt. lia.
    + split; [apply Forall_nil|]. split; [lia|]. split; [lia|].
      intros io' [= <-] Hgt. lia.
  - destruct (Z.gtb_spec (thread_count proc) 100) as [Ht|Ht];
      cbn [datetime_now fst snd app List.length].
    + split; [apply Forall_cons; [right; apply Hthread_ok; lia | apply Forall_nil]|].
      split; [lia|]. split.
      * intros _. eexists. split; [left; reflexivity|]. apply Hthread_ok. lia.
      * intros io' [=].
    + split; [apply Forall_nil|]. split; [lia|]. split; [lia|]. intros io' [=].
Qed.

(** The per-process loop of [_analyze_system_state]. *)
Lemma per_process_loop_spec (c : Core) (l : list (ProcessMetrics A)) :
  forall (acc : list OptimizationAction) (w : World OS),
  exists more,
    fst (fold_left
           (fun (aw : list OptimizationAction * World OS) proc =>
              let (actions, w) := aw in
              if _is_process_optimizable proc
              then let (more, w) := _optimize_process clock c proc w in (actions ++ more, w)
              else aw) l (acc, w)) = acc ++ more /\
    Forall (fun a => exists proc, In proc l /\ _is_process_optimizable proc = true /\
                       (is_io_action c a proc \/ is_thread_action a proc)) more /\
    (List.length more <= 2 * List.length l)%nat /\
    (forall proc, In proc l -> _is_process_optimizable proc = true ->
       ((thread_count proc > 100)%Z -> exists a, In a more /\ is_thread_action a proc) /\
       (forall io, io_counters proc = Some io ->
          (read_bytes io + write_bytes io > io_threshold c)%Z ->
          exists a, In a more /\ is_io_action c a proc)).
Proof.
  induction l as [|p l IH]; intros acc w; cbn [fold_left].
  - exists []. rewrite app_nil_r. split; [reflexivity|]. split; [constructor|].
    split; [cbn; lia|]. intros proc [].
  - destruct (_is_process_optimizable p) eqn:Ep.
    + pose proof (optimize_process_spec c p w) as (Hs & Hlen & Ht & Hio).
      destruct (_optimize_process clock c p w) as [mine w1]. cbn [fst] in *.
      destruct (IH (acc ++ mine) w1) as (more & -> & Hall & Hl & Hc).
      exists (mine ++ more). rewrite app_assoc. split; [reflexivity|].
      split; [|split].
      * apply Forall_app. split.
        -- eapply Forall_impl; [|exact Hs]. intros a Ha. exists p.
           split; [left; reflexivity|]. auto.
        -- eapply Forall_impl; [|exact Hall]. intros a (q & Hq & Ho & Ha). exists q.
           split; [right; exact Hq|]. auto.
      * rewrite length_app. cbn [List.length]. lia.
      * intros proc [<-|Hin] Ho.
        -- split.
           ++ intros Hgt. destruct (Ht Hgt) as (a & Ha & Hj). exists a.
              split; [apply in_or_app; left; exact Ha | exact Hj].
           ++ intros io Eio Hgt. destruct (Hio io Eio Hgt) as (a & Ha & Hj). exists a.
              split; [apply in_or_app; left; exact Ha | exact Hj].
        -- destruct (Hc proc Hin Ho) as [Ht' Hio']. split.
           ++ intros Hgt. destruct (Ht' Hgt) as (a & Ha & Hj). exists a.
              split; [apply in_or_app; right; exact Ha | exact Hj].
           ++ intros io Eio Hgt. destruct (Hio' io Eio Hgt) as (a & Ha & Hj). exists a.
              split; [apply in_or_app; right; exact Ha | exact Hj].
    + destruct (IH acc w) as (more & -> & Hall & Hl & Hc).
      exists more. split; [reflexivity|]. split; [|split].
      * eapply Forall_impl; [|exact Hall]. intros a (q & Hq & Ho & Ha). exists q.
        split; [right; exact Hq|]. auto.
      * cbn [List.length]. lia.
      * intros proc [<-|Hin] Ho; [congruence|]. apply Hc; assumption.
Qed.

(** The analysis in three parts. *)
Lemma analysis_parts (c : Core) (m : SystemMetrics A) (w : World OS) :
  exists cpu_actions memory_actions process_actions,
    fst (_analyze_system_state clock cpu_count total_memory c m w) =
      cpu_actions ++ memory_actions ++ process_actions /\
    Forall2 is_cpu_action cpu_actions
      (if flt (cpu_threshold c) (sys_cpu_percent m)
       then filter (fun proc => flt (of_Z 50) (cpu_percent proc))
                   (firstn 5 (sorted_desc cpu_percent (processes m)))
       else []) /\
    Forall2 is_memory_action memory_actions
      (if flt (memory_threshold c) (sys_memory_percent m)
       then filter (fun proc => flt (of_Z 50) (memory_percent proc))
                   (firstn 5 (sorted_desc memory_percent (processes m)))
       else []) /\
    Forall (fun a => exists proc, In proc (processes m) /\
                       _is_process_optimizable proc = true /\
                       (is_io_action c a proc \/ is_thread_action a proc))
           process_actions /\
    (List.length process_actions <= 2 * List.length (processes m))%nat /\
    (forall proc, In proc (processes m) -> _is_process_optimizable proc = true ->
       ((thread_count proc > 100)%Z ->
        exists a, In a process_actions /\ is_thread_action a proc) /\
       (forall io, io_counters proc = Some io ->
          (read_bytes io + write_bytes io > io_threshold c)%Z ->
          exists a, In a process_actions /\ is_io_action c a proc)).
Proof.
  unfold _analyze_system_state.
  assert (Hcpu : exists cpu_actions w1,
            (if flt (cpu_threshold c) (sys_cpu_percent m)
             then _optimize_cpu_usage clock cpu_count m w else ([], w)) = (cpu_actions, w1) /\
            Forall2 is_cpu_action cpu_actions
              (if flt (cpu_threshold c) (sys_cpu_percent m)
               then filter (fun proc => flt (of_Z 50) (cpu_percent proc))
                           (firstn 5 (sorted_desc cpu_percent (processes m)))
               else [])).
  { destruct (flt (cpu_threshold c) (sys_cpu_percent m)).
    - pose proof (cpu_actions_shape m w) as Hs.
      destruct (_optimize_cpu_usage clock cpu_count m w) as [l w1]. exists l, w1. auto.
    - exists [], w. split; [reflexivity|constructor]. }
  destruct Hcpu as (cpu_actions & w1 & -> & Hc).
  assert (Hmem : exists memory_actions w2,
            (if flt (memory_threshold c) (sys_memory_percent m)
             then let (more, w0) := _optimize_memory_usage clock total_memory m w1 in
                  (cpu_actions ++ more, w0)
             else (cpu_actions, w1)) = (cpu_actions ++ memory_actions, w2) /\
            Forall2 is_memory_action memory_actions
              (if flt (memory_threshold c) (sys_memory_percent m)
               then filter (fun proc => flt (of_Z 50) (memory_percent proc))
                           (firstn 5 (sorted_desc memory_percent (processes m)))
               else [])).
  { destruct (flt (memory_threshold c) (sys_memory_percent m)).
    - pose proof (memory_actions_shape m w1) as Hs.
      destruct (_optimize_memory_usage clock total_memory m w1) as [l w2]. exists l, w2. auto.
    - exists [], w1. rewrite app_nil_r. split; [reflexivity|constructor]. }
  destruct Hmem as (memory_actions & w2 & -> & Hm).
  destruct (per_process_loop_spec c (processes m) (cpu_actions ++ memory_actions) w2)
    as (process_actions & -> & Hp & Hl & Hcomplete).
  exists cpu_actions, memory_actions, process_actions.
  rewrite <- app_assoc. repeat split; try assumption; apply Hcomplete; assumption.
Qed.

(** X19. The candidates come in three groups, in this order: the cpu
    actions, present only when the aggregate cpu usage exceeds the cpu
    threshold; the memory actions, present only when the aggregate memory
    usage exceeds the memory threshold; the io and thread actions of the
    optimizable processes. Each candidate is the action of a process of the
    snapshot that qualifies for it. *)
Theorem analysis_in_three_groups (c : Core) (m : SystemMetrics A) (w : World OS) :
  exists cpu_actions memory_actions process_actions,
    fst (_analyze_system_state clock cpu_count total_memory c m w) =
      cpu_actions ++ memory_actions ++ process_actions /\
    Forall (fun a => flt (cpu_threshold c) (sys_cpu_percent m) = true /\
                     exists proc, In proc (processes m) /\
                       flt (of_Z 50) (cpu_percent proc) = true /\ is_cpu_action a proc)
           cpu_actions /\
    Forall (fun a => flt (memory_threshold c) (sys_memory_percent m) = true /\
                     exists proc, In proc (processes m) /\
                       flt (of_Z 50) (memory_percent proc) = true /\
                       is_memory_action a proc)
           memory_actions /\
    Forall (fun a => exists proc, In proc (processes m) /\
                       _is_process_optimizable proc = true /\
                       (is_io_action c a proc \/ is_thread_action a proc))
           process_actions /\
    (List.length cpu_actions <= 5)%nat /\
    (List.length memory_actions <= 5)%nat /\
    (List.length process_actions <= 2 * List.length (processes m))%nat.
Proof.
  destruct (analysis_parts c m w)
    as (cpu_actions & memory_actions & process_actions & E & Hc & Hm & Hp & Hl & _).
  exists cpu_actions, memory_actions, process_actions.
  split; [exact E|].
  split; [|split; [|split; [exact Hp|split; [|split; [|exact Hl]]]]].
  - apply Forall_forall. intros a Hin.
    destruct (flt (cpu_threshold c) (sys_cpu_percent m));
      [|inversion Hc; subst; destruct Hin].
    split; [reflexivity|].
    destruct (Forall2_in_left _ _ _ a Hc Hin) as (proc & Hq & Ha).
    apply top5_in_snapshot in Hq. destruct Hq as [Hq Ht]. exists proc. auto.
  - apply Forall_forall. intros a Hin.
    destruct (flt (memory_threshold c) (sys_memory_percent m));
      [|inversion Hm; subst; destruct Hin].
    split; [reflexivity|].
    destruct (Forall2_in_left _ _ _ a Hm Hin) as (proc & Hq & Ha).
    apply top5_in_snapshot in Hq. destruct Hq as [Hq Ht]. exists proc. auto.
  - rewrite (Forall2_length Hc).
    destruct (flt (cpu_threshold c) (sys_cpu_percent m)); [apply top5_length | cbn; lia].
  - rewrite (Forall2_length Hm).
    destruct (flt (memory_threshold c) (sys_memory_percent m));
      [apply top5_length | cbn; lia].
Qed.

(** X20. Every optimizable process of the snapshot with more than 100
    threads gets a thread action, and every one whose io exceeds the io
    threshold gets an io action, whatever the aggregate usage is. *)
Theorem busy_eligible_process_gets_actions (c : Core) (m : SystemMetrics A)
    (w : World OS) (proc : ProcessMetrics A) :
  In proc (processes m) -> _is_process_optimizable proc = true ->
  let actions := fst (_analyze_system_state clock cpu_count total_memory c m w) in
  ((thread_count proc > 100)%Z -> exists a, In a actions /\ is_thread_action a proc) /\
  (forall io, io_counters proc = Some io ->
     (read_bytes io + write_bytes io > io_threshold c)%Z ->
     exists a, In a actions /\ is_io_action c a proc).
Proof.
  intros Hin Ho. cbv zeta.
  destruct (analysis_parts c m w)
    as (cpu_actions & memory_actions & process_actions & -> & _ & _ & _ & _ & Hcomplete).
  destruct (Hcomplete proc Hin Ho) as [Ht Hio]. split.
  - intros Hgt. destruct (Ht Hgt) as (a & Ha & Hj). exists a.
    split; [|exact Hj]. apply in_or_app. right. apply in_or_app. right. exact Ha.
  - intros io Eio Hgt. destruct (Hio io Eio Hgt) as (a & Ha & Hj). exists a.
    split; [|exact Hj]. apply in_or_app. right. apply in_or_app. right. exact Ha.
Qed.

(** ** The affinity mask *)

(** X21. With [n] logical CPUs the affinity mask selects the first [k] of
    them and no other: all [n] for a process above 80% cpu, half of them,
    rounded down, otherwise. For a negative [k] the shift raises and the
    mask is 0xFFFF. *)
Theorem affinity_mask_bits (proc : ProcessMetrics A) (n : Z) :
  cpu_count = Some n ->
  let k := if flt (of_Z 80) (cpu_percent proc) then n else (n / 2)%Z in
  let mask := _calculate_optimal_affinity cpu_count proc in
  ((k < 0)%Z -> mask = 65535%Z) /\
  ((0 <= k)%Z -> (0 <= mask)%Z /\
                 forall i, (0 <= i)%Z -> Z.testbit mask i = (i <? k)%Z).
Proof.
  intros ->. cbv zeta. unfold _calculate_optimal_affinity.
  set (k := if flt (of_Z 80) (cpu_percent proc) then n else (n / 2)%Z).
  destruct (Z.ltb_spec k 0) as [Hneg|Hpos]; split; intros Hk;
    [reflexivity | lia | lia |].
  change (Z.shiftl 1 k - 1)%Z with (Z.pred (Z.shiftl 1 k)).
  fold (Z.ones k). split.
  - rewrite Z.ones_equiv. pose proof (Z.pow_pos_nonneg 2 k). lia.
  - intros i Hi. apply Z.testbit_ones_nonneg; assumption.
Qed.

(** ** The history over any number of invocations *)

Definition same_thresholds (c c' : Core (A := A)) : Prop :=
  action_threshold c' = action_threshold c /\ cpu_threshold c' = cpu_threshold c /\
  memory_threshold c' = memory_threshold c /\ io_threshold c' = io_threshold c.

Lemma apply_all_grows (actions : list (OptimizationAction (A := A))) :
  forall (c : Core) (w : World OS),
  exists added,
    optimization_history (fst (apply_all win32 c actions w)) =
      optimization_history c ++ added /\
    Forall (fun a => fle (action_threshold c) (a_priority a) = true) added /\
    same_thresholds c (fst (apply_all win32 c actions w)) /\
    last_optimization (fst (apply_all win32 c actions w)) = last_optimization c.
Proof.
  induction actions as [|a rest IH]; intros c w.
  - exists []. cbn. rewrite app_nil_r. repeat split. constructor.
  - rewrite apply_all_cons.
    destruct (fle (action_threshold c) (a_priority a)) eqn:Et; cbv zeta.
    + unfold _apply_optimization.
      destruct (apply_calls win32 a w) as [[[]|] w1]; cbn [fst snd].
      * destruct (IH (record_action c a) w1) as (added & Hh & Hall & Hs & Hl).
        exists (a :: added). cbn [record_action optimization_history action_threshold] in *.
        split; [rewrite Hh, <- app_assoc; reflexivity|].
        split; [constructor; assumption|]. split; assumption.
      * apply IH.
    + apply IH.
Qed.

Lemma process_grows (c : Core) (m : SystemMetrics A) (w : World OS) :
  exists added,
    optimization_history (fst (process win32 clock cpu_count total_memory c m w)) =
      optimization_history c ++ added /\
    Forall (fun a => fle (action_threshold c) (a_priority a) = true) added /\
    same_thresholds c (fst (process win32 clock cpu_count total_memory c m w)).
Proof.
  unfold process. destruct (_should_optimize clock c w) as [[|] w0]; cbn [negb].
  - destruct (_analyze_system_state clock cpu_count total_memory c m w0) as [actions w1].
    destruct (apply_all_grows actions c w1) as (added & Hh & Hall & Hs & _).
    destruct (apply_all win32 c actions w1) as [c' w2]. cbn [fst] in *.
    exists added. unfold datetime_now. cbn [fst optimization_history]. auto.
  - exists []. cbn [fst]. rewrite app_nil_r. repeat split. constructor.
Qed.

(** [process], invoked on one snapshot after the other. *)
Definition invocations (ms : list (SystemMetrics A)) (cw : Core (A := A) * World OS)
    : Core * World OS :=
  fold_left (fun cw m => process win32 clock cpu_count total_memory (fst cw) m (snd cw))
            ms cw.

(** X2. The history only grows, and only by actions whose priority passes
    the threshold: after any number of invocations the history that
    [get_optimization_history] returns is the old one followed by such
    actions, and the four thresholds are what they were. *)
Theorem history_is_append_only (ms : list (SystemMetrics A)) (c : Core) (w : World OS) :
  exists added,
    get_optimization_history (fst (invocations ms (c, w))) =
      get_optimization_history c ++ added /\
    Forall (fun a => fle (action_threshold c) (a_priority a) = true) added /\
    same_thresholds c (fst (invocations ms (c, w))).
Proof.
  unfold get_optimization_history, invocations. revert c w.
  induction ms as [|m ms IH]; intros c w; cbn [fold_left fst snd].
  - exists []. rewrite app_nil_r. repeat split. constructor.
  - destruct (process_grows c m w) as (added & Hh & Hall & Hs).
    destruct (process win32 clock cpu_count total_memory c m w) as [c1 w1].
    cbn [fst] in *.
    destruct (IH c1 w1) as (more & Hh' & Hall' & Hs').
    destruct Hs as (Ha & Hc & Hm & Hi). destruct Hs' as (Ha' & Hc' & Hm' & Hi').
    exists (added ++ more). split; [rewrite Hh', Hh, app_assoc; reflexivity|]. split.
    + apply Forall_app. split; [exact Hall|]. rewrite <- Ha. exact Hall'.
    + repeat split; congruence.
Qed.

(** A run that passes the cooldown check stamps [last_optimization] with
    the last clock reading it makes. *)
Lemma completed_run_stamp (c : Core) (m : SystemMetrics A) (w : World OS) :
  fst (_should_optimize clock c w) = true ->
  last_optimization (fst (process win32 clock cpu_count total_memory c m w)) =
    clock (pred (reads (snd (process win32 clock cpu_count total_memory c m w)))).
Proof.
  unfold process. destruct (_should_optimize clock c w) as [go w0]. cbn [fst].
  intros ->. cbn [negb].
  destruct (_analyze_system_state clock cpu_count total_memory c m w0) as [actions w1].
  destruct (apply_all win32 c actions w1) as [c' w2].
  unfold datetime_now. cbn. reflexivity.
Qed.

(** ** The calls of one application *)

Definition is_close (c : Win32Call) : bool :=
  match c with CloseHandle _ => true | _ => false end.

Definition on_handle (h : Z) (c : Win32Call) : bool :=
  match c with
  | OpenProcess _ => false
  | SetPriorityClass h' => Z.eqb h h'
  | SetProcessAffinityMask h' _ => Z.eqb h h'
  | SetProcessWorkingSetSizeEx h' _ => Z.eqb h h'
  | CloseHandle h' => Z.eqb h h'
  end.


End Generic.

(** ** Exact arithmetic *)

Section Exact.
Variable OS : Type.
Variable win32 : Win32Call -> OS -> OS * bool.
Variable clock : nat -> Z.
Variable cpu_count : option Z.
Variable total_memory : Z.

Definition by_key {X : Type} (key : X -> R) (x y : X) : Prop := (key y <= key x)%R.

Lemma insert_desc_sorted {X : Type} (key : X -> R) (x : X) (l : list X) :
  StronglySorted (by_key key) l -> StronglySorted (by_key key) (insert_desc key x l).
Proof.
  induction 1 as [|y l Hs IH Hall]; cbn [insert_desc]; [repeat constructor|].
  cbn [flt real_arith]. destruct (Exact.ltb (key x) (key y)) eqn:E.
  - apply exact_ltb_true in E. constructor; [exact IH|].
    apply Forall_forall. intros z Hz.
    apply (Permutation_in z (Permutation_sym (insert_desc_permutation key x l))) in Hz.
    destruct Hz as [<-|Hz]; [unfold by_key; lra|].
    rewrite Forall_forall in Hall. apply Hall. exact Hz.
  - apply exact_ltb_false in E. constructor; [constructor; assumption|].
    constructor; [exact E|].
    eapply Forall_impl; [|exact Hall]. intros z Hz. unfold by_key in *. lra.
Qed.

Lemma sorted_desc_sorted {X : Type} (key : X -> R) (l : list X) :
  StronglySorted (by_key key) (sorted_desc key l).
Proof.
  unfold sorted_desc. induction l as [|x l IH]; cbn [fold_right]; [constructor|].
  apply insert_desc_sorted. exact IH.
Qed.

Lemma sorted_split {X : Type} (key : X -> R) (l1 l2 : list X) :
  StronglySorted (by_key key) (l1 ++ l2) ->
  forall x y, In x l1 -> In y l2 -> (key y <= key x)%R.
Proof.
  induction l1 as [|a l1 IH]; intros Hs x y Hx Hy; [destruct Hx|].
  cbn [app] in Hs. apply StronglySorted_inv in Hs. destruct Hs as [Hs Hall].
  destruct Hx as [<-|Hx]; [|apply IH; assumption].
  rewrite Forall_forall in Hall. apply Hall. apply in_or_app. right. exact Hy.
Qed.

Lemma filter_all {X : Type} (f : X -> bool) (l : list X) :
  (forall x, In x l -> f x = true) -> filter f l = l.
Proof.
  induction l as [|a l IH]; intros Hall; cbn [filter]; [reflexivity|].
  rewrite (Hall a (or_introl eq_refl)). f_equal. apply IH. intros x Hx. apply Hall.
  right. exact Hx.
Qed.

Lemma Forall2_in_right {X Y : Type} (P : X -> Y -> Prop) (l : list X) (l' : list Y) (y : Y) :
  Forall2 P l l' -> In y l' -> exists x, In x l /\ P x y.
Proof.
  induction 1 as [|a b l l' Hab Hall IH]; intros Hin; [destruct Hin|].
  destruct Hin as [<-|Hin]; [exists a; split; [left; reflexivity | exact Hab]|].
  destruct (IH Hin) as (x & Hx & Hr). exists x. split; [right; exact Hx | exact Hr].
Qed.

(** X23. The five are the top five. A process of the snapshot above 50% cpu
    either gets a cpu action, or five cpu actions are emitted and each of
    them has a priority of at least this process's usage over 100. *)
Theorem cpu_actions_for_top_five (m : SystemMetrics R) (w : World OS)
    (q : ProcessMetrics R) :
  In q (processes m) -> (50 < cpu_percent q)%R ->
  let actions := fst (_optimize_cpu_usage clock cpu_count m w) in
  (exists a, In a actions /\ is_cpu_action cpu_count a q) \/
  (List.length actions = 5%nat /\
   forall a, In a actions -> (cpu_percent q / 100 <= a_priority a)%R).
Proof.
  intros Hin Hq. cbv zeta.
  pose proof (cpu_actions_shape OS clock cpu_count m w) as Hshape.
  set (sorted := sorted_desc cpu_percent (processes m)) in *.
  assert (Hqs : In q sorted).
  { eapply Permutation_in; [apply sorted_desc_permutation | exact Hin]. }
  rewrite <- (firstn_skipn 5 sorted) in Hqs. apply in_app_or in Hqs.
  destruct Hqs as [Hf|Hs].
  - left. apply (Forall2_in_right _ _ _ q Hshape). apply filter_In. split; [exact Hf|].
    cbn [flt of_Z real_arith]. apply exact_ltb_true. exact Hq.
  - right.
    assert (Hge : forall p, In p (firstn 5 sorted) -> (cpu_percent q <= cpu_percent p)%R).
    { intros p Hp. apply (sorted_split cpu_percent (firstn 5 sorted) (skipn 5 sorted));
        [rewrite firstn_skipn; apply sorted_desc_sorted | exact Hp | exact Hs]. }
    rewrite filter_all in Hshape.
    2: { intros p Hp. cbn [flt of_Z real_arith]. apply exact_ltb_true.
         specialize (Hge p Hp). lra. }
    split.
    + rewrite (Forall2_length Hshape). apply firstn_length_le.
      destruct (Nat.le_gt_cases 5 (List.length sorted)) as [Hle|Hlt]; [exact Hle|].
      rewrite skipn_all2 in Hs by lia. destruct Hs.
    + intros a Ha. destruct (Forall2_in_left _ _ _ a Hshape Ha) as (p & Hp & Hact).
      destruct Hact as (_ & _ & -> & _). specialize (Hge p Hp).
      cbn [fdiv of_Z real_arith]. lra.
Qed.

(** The limit for a process above 50% memory. *)
Lemma working_set_limit_bound (proc : ProcessMetrics R) :
  (0 < total_memory)%Z -> (50 < memory_percent proc)%R ->
  (37 * total_memory <= _calculate_working_set_limit total_memory proc)%Z.
Proof.
  intros Ht Hm. unfold _calculate_working_set_limit, dec.
  cbn [flt fmul fdiv of_Z trunc real_arith]. unfold Exact.trunc.
  apply IZR_lt in Ht.
  set (f := if Exact.ltb 80 (memory_percent proc) then (5 / 10)%R else (75 / 100)%R).
  assert (Hx : (37 * IZR total_memory < memory_percent proc * IZR total_memory * f)%R).
  { unfold f. destruct (Exact.ltb 80 (memory_percent proc)) eqn:E.
    - apply exact_ltb_true in E. nra.
    - apply exact_ltb_false in E. nra. }
  destruct (Rle_dec 0 (memory_percent proc * IZR total_memory * f)) as [_|Hn];
    [|exfalso; apply Hn; lra].
  destruct (base_Int_part (memory_percent proc * IZR total_memory * f)) as [_ Hlow].
  assert (Hlt : (IZR (37 * total_memory) - 1 <
                 IZR (Int_part (memory_percent proc * IZR total_memory * f)))%R).
  { rewrite mult_IZR. lra. }
  rewrite <- minus_IZR in Hlt. apply lt_IZR in Hlt. lia.
Qed.

(** X24. The working-set limit is the memory percentage, not the fraction,
    times the total memory times 0.5 or 0.75. In exact arithmetic, the limit
    of every memory action is therefore at least 37 times the total memory
    of the host. *)
Theorem memory_actions_limit_exceeds_memory (m : SystemMetrics R) (w : World OS) :
  (0 < total_memory)%Z ->
  Forall (fun a => exists limit,
            param "working_set_limit" (parameters a) = Some (VInt limit) /\
            (37 * total_memory <= limit)%Z)
         (fst (_optimize_memory_usage clock total_memory m w)).
Proof.
  intros Ht. apply Forall_forall. intros a Ha.
  destruct (Forall2_in_left _ _ _ a (memory_actions_shape OS clock total_memory m w) Ha)
    as (proc & Hp & Hact).
  apply filter_In in Hp. destruct Hp as [_ Hgt].
  cbn [flt of_Z real_arith] in Hgt. apply exact_ltb_true in Hgt.
  destruct Hact as (_ & _ & _ & ->). eexists. split; [reflexivity|].
  apply working_set_limit_bound; assumption.
Qed.

Lemma gate_closed (c : Core (A := R)) (w : World OS) :
  (clock (reads w) - last_optimization c < 500000)%Z ->
  fst (_should_optimize clock c w) = false.
Proof.
  intros Hlt. unfold _should_optimize, datetime_now, total_seconds, dec. cbn [fst].
  cbn [fle fdiv of_Z real_arith].
  apply IZR_lt in Hlt.
  destruct (Exact.leb (5 / 10) (IZR (clock (reads w) - last_optimization c) / 1000000))
    eqn:El; [|reflexivity].
  apply exact_leb_true in El. lra.
Qed.

(** X25. Two invocations in a row. When the first one passes the cooldown
    check and the second one reads the clock less than half a second after
    the first one stamped [last_optimization], the second is a no-op: same
    core, same history, no call to the operating system. *)
Theorem second_invocation_within_cooldown (c : Core (A := R)) (m1 m2 : SystemMetrics R)
    (w : World OS) :
  fst (_should_optimize clock c w) = true ->
  let first := process win32 clock cpu_count total_memory c m1 w in
  (clock (reads (snd first)) - clock (pred (reads (snd first))) < 500000)%Z ->
  let second := process win32 clock cpu_count total_memory (fst first) m2 (snd first) in
  fst second = fst first /\ calls (snd second) = calls (snd first) /\
  os (snd second) = os (snd first).
Proof.
  intros Hgo. cbv zeta. intros Hnear.
  rewrite <- (completed_run_stamp OS win32 clock cpu_count total_memory c m1 w Hgo)
    in Hnear.
  apply gate_closed in Hnear.
  destruct (process win32 clock cpu_count total_memory c m1 w) as [c1 w1].
  cbn [fst snd] in *. unfold process.
  destruct (_should_optimize clock c1 w1) as [go w2] eqn:E. cbn [fst] in Hnear. subst go.
  cbn [negb fst snd]. unfold _should_optimize, datetime_now in E.
  injection E as _ <-. cbn. auto.
Qed.

Lemma gate_open (c : Core (A := R)) (w : World OS) :
  (500000 <= clock (reads w) - last_optimization c)%Z ->
  fst (_should_optimize clock c w) = true.
Proof.
  intros Hle. unfold _should_optimize, datetime_now, total_seconds, dec. cbn [fst].
  cbn [fle fdiv of_Z real_arith]. apply IZR_le in Hle.
  apply exact_leb_true. lra.
Qed.

(** C9 (as amended). The cooldown is half a second on the clock: an
    invocation of [process] that reads the clock less than 500000
    microseconds after [last_optimization], which a completed run sets,
    is a no-op (the core, with its history and thresholds, is unchanged,
    and no call reaches the operating system); from 500000 microseconds
    on the check passes and the run stamps [last_optimization] with its
    last reading of the clock.  On every path [process] returns None, not
    a list. *)
Theorem invocation_within_cooldown (c : Core (A := R)) (m : SystemMetrics R)
    (w : World OS) :
  let elapsed := (clock (reads w) - last_optimization c)%Z in
  let result := process win32 clock cpu_count total_memory c m w in
  process_returns clock c m w = ReturnsNone /\
  ((elapsed < 500000)%Z ->
   fst result = c /\ os (snd result) = os w /\ calls (snd result) = calls w) /\
  ((500000 <= elapsed)%Z ->
   fst (_should_optimize clock c w) = true /\
   last_optimization (fst result) = clock (pred (reads (snd result)))).
Proof.
  cbv zeta. split; [|split].
  - unfold process_returns. destruct (_should_optimize clock c w) as [[|] w0]; reflexivity.
  - intros Hlt. apply process_gate_closed. apply gate_closed. exact Hlt.
  - intros Hle. pose proof (gate_open c w Hle) as Hgo. split; [exact Hgo|].
    apply completed_run_stamp. exact Hgo.
Qed.

(** A core whose last run was a second ago, by a clock that stands
    still. *)
Definition rested : Core (A := R) :=
  {| optimization_history := []; action_threshold := (7 / 10)%R;
     last_optimization := -1000000; cpu_threshold := 80%R; memory_threshold := 85%R;
     io_threshold := 1000000 |}.

Definition still (n : nat) : Z := 0%Z.

(** A clock that reads 0.4 s after the last run of [rested]. *)
Definition soon (n : nat) : Z := (-600000)%Z.

End Exact.

(** ** Concrete runs *)

Lemma busy_eligible_process_gets_actions_witness :
  exists a,
    In a (fst (_analyze_system_state Scenario.clock None gib16 (fst built) crowded
                 (snd built))) /\
    is_thread_action a (Scenario.proc 501 "b.exe" (of_Z 1) (of_Z 1) None 150).
Proof.
  apply (busy_eligible_process_gets_actions unit Scenario.clock None gib16 (fst built)
           crowded (snd built) (Scenario.proc 501 "b.exe" (of_Z 1) (of_Z 1) None 150)).
  - right. left. reflexivity.
  - vm_compute. reflexivity.
  - cbn. lia.
Defined.

Lemma affinity_mask_bits_witness :
  let proc := Scenario.proc 500 "worker.exe" (of_Z 92 : PrimFloat.float) (of_Z 40) None 10 in
  let k := if flt (of_Z 80) (cpu_percent proc) then 8%Z else (8 / 2)%Z in
  let mask := _calculate_optimal_affinity (Some 8%Z) proc in
  ((k < 0)%Z -> mask = 65535%Z) /\
  ((0 <= k)%Z -> (0 <= mask)%Z /\
                 forall i, (0 <= i)%Z -> Z.testbit mask i = (i <? k)%Z).
Proof.
  apply (affinity_mask_bits (Some 8%Z)
           (Scenario.proc 500 "worker.exe" (of_Z 92 : PrimFloat.float) (of_Z 40) None 10)
           8 eq_refl).
Defined.

Lemma cpu_actions_for_top_five_witness :
  let q := Scenario.proc 500 "worker.exe" (of_Z 92 : R) (of_Z 40) None 10 in
  let actions := fst (_optimize_cpu_usage Scenario.clock (Some 8%Z)
                        (Scenario.loaded (A := R)) start) in
  (exists a, In a actions /\ is_cpu_action (Some 8%Z) a q) \/
  (List.length actions = 5%nat /\
   forall a, In a actions -> (cpu_percent q / 100 <= a_priority a)%R).
Proof.
  apply (cpu_actions_for_top_five unit Scenario.clock (Some 8%Z) (Scenario.loaded (A := R))
           start (Scenario.proc 500 "worker.exe" (of_Z 92 : R) (of_Z 40) None 10)).
  - left. reflexivity.
  - cbn. lra.
Defined.

(** Aggregate memory 90%; one process at 75% memory. *)
Definition swollen : SystemMetrics R :=
  Scenario.snapshot 2000000 (of_Z 20) (of_Z 90)
    [Scenario.proc 700 "cache.exe" (of_Z 5) (of_Z 75) None 4].

Lemma memory_actions_limit_exceeds_memory_witness :
  exists a limit,
    fst (_optimize_memory_usage Scenario.clock gib16 swollen start) = [a] /\
    a_pid a = 700%Z /\
    param "working_set_limit" (parameters a) = Some (VInt limit) /\
    (37 * gib16 <= limit)%Z.
Proof.
  pose proof (memory_actions_limit_exceeds_memory unit Scenario.clock gib16 swollen start
                eq_refl) as Hall.
  pose proof (memory_actions_shape unit Scenario.clock gib16 swollen start) as Hshape.
  assert (Hf : filter (fun proc : ProcessMetrics R => flt (of_Z 50) (memory_percent proc))
                 (firstn 5 (sorted_desc memory_percent (processes swollen)))
               = [Scenario.proc 700 "cache.exe" (of_Z 5) (of_Z 75) None 4]).
  { cbn [swollen Scenario.snapshot processes sorted_desc fold_right insert_desc firstn
         filter Scenario.proc memory_percent].
    replace (flt (of_Z 50) (of_Z 75 : R)) with true; [reflexivity|].
    symmetry. cbn [flt of_Z real_arith]. apply exact_ltb_true. lra. }
  rewrite Hf in Hshape.
  destruct (fst (_optimize_memory_usage Scenario.clock gib16 swollen start))
    as [|a [|b rest]]; [inversion Hshape | | inversion Hshape as [|? ? ? ? _ Hrest];
                                             inversion Hrest].
  inversion Hshape as [|? ? ? ? Ha _]; subst. destruct Ha as (Hpid & _).
  inversion Hall as [|? ? (limit & Hp & Hl) _]; subst.
  exists a, limit. repeat split; assumption.
Defined.

Lemma second_invocation_within_cooldown_witness :
  let first := process obliging still (Some 8%Z) gib16 rested (Scenario.loaded (A := R))
                 start in
  let second := process obliging still (Some 8%Z) gib16 (fst first)
                  (Scenario.loaded (A := R)) (snd first) in
  fst second = fst first /\ calls (snd second) = calls (snd first) /\
  os (snd second) = os (snd first).
Proof.
  apply (second_invocation_within_cooldown unit obliging still (Some 8%Z) gib16 rested
           (Scenario.loaded (A := R)) (Scenario.loaded (A := R)) start).
  - unfold _should_optimize, datetime_now, total_seconds, dec, still, rested.
    cbn [fst last_optimization fle fdiv of_Z real_arith].
    apply exact_leb_true. cbn. lra.
  - unfold still. lia.
Defined.

Lemma invocation_within_cooldown_witness :
  let result := process obliging soon (Some 8%Z) gib16 rested (Scenario.loaded (A := R))
                  start in
  fst result = rested /\ os (snd result) = os start /\ calls (snd result) = calls start.
Proof.
  apply (invocation_within_cooldown unit obliging soon (Some 8%Z) gib16 rested
           (Scenario.loaded (A := R)) start).
  unfold soon, rested. cbn. lia.
Defined.

(** C9, the claim as stated fails: the second invocation, within the
    cooldown of the first run, returns None; it does not return an empty
    list. *)
Lemma second_invocation_returns_none :
  fst (_should_optimize Scenario.clock (fst first_run) (snd first_run)) = false /\
  process_returns Scenario.clock (fst first_run) crowded (snd first_run) = ReturnsNone /\
  process_returns Scenario.clock (fst first_run) crowded (snd first_run) <> ReturnsList [].
Proof.
  split; [vm_compute; reflexivity|]. split; [vm_compute; reflexivity|].
  vm_compute. discriminate.
Qed.

End SelectionFacts.

(* ================================================================== *)
(** * Windows, training and drift of the learner (continual_learner.py) *)

Lemma dict_get_map {V W : Type} (g : V -> W) (k : Z) (d : PyDict.dict V) :
  PyDict.get k (map (fun e : Z * V => (fst e, g (snd e))) d) =
  option_map g (PyDict.get k d).
Proof.
  induction d as [|[k' v] d IH]; cbn; [reflexivity|].
  destruct (Z.eqb k k'); [reflexivity | exact IH].
Qed.

Lemma dict_contains_known {V : Type} (k k' : Z) (v : V) (d : PyDict.dict V) :
  PyDict.contains k d = true ->
  PyDict.contains k' (PyDict.set k v d) = PyDict.contains k' d.
Proof.
  intros Hk. rewrite dict_contains_set. destruct (Z.eqb_spec k' k) as [->|Hne];
    [rewrite Hk; reflexivity | reflexivity].
Qed.

Module WindowFacts.
Import SystemMonitor ContinualLearner LearnerFacts.

Section Generic.
Context {A : Type} `{Arith A}.
Variable Model : Type.
Variable Moments : Type.
Variable new_predictor : nat -> Model.
Variable new_moments : Model -> Moments.
Variable forward : Model -> list (ProcessFeatures (A := A)) -> A * A * A.
Variable train_step :
  Model -> A -> Moments -> list (ProcessFeatures (A := A)) -> Model * Moments.
Variable Drift : Type.
Variable drift_update : Drift -> list A -> Drift * bool.
Variable drift_detected : Drift -> bool.
Variable Anomaly : Type.
Variable learn_one : Anomaly -> list A -> Anomaly * bool.
Variable score_one : Anomaly -> list A -> option A.

(** The three dicts have the same keys; a window holds at most 10
    samples; every optimizer runs at the shared learning rate. *)
Definition wellformed (l : Learner (A := A) Model Moments Drift Anomaly) : Prop :=
  sequence_length l = 10%nat /\
  (forall pid, PyDict.contains pid (optimizers l) =
               PyDict.contains pid (process_predictors l)) /\
  (forall pid, PyDict.contains pid (feature_history l) =
               PyDict.contains pid (process_predictors l)) /\
  (forall pid, (List.length (get_model_history l pid) <= 10)%nat) /\
  (forall pid opt, PyDict.get pid (optimizers l) = Some opt -> lr opt = learning_rate l).

Lemma wellformed_init (d : Drift) (a : Anomaly) :
  wellformed (init Model Moments d a).
Proof.
  unfold wellformed, get_model_history. cbn. repeat split; try lia. intros pid opt [=].
Qed.

Lemma train_history (l : Learner (A := A) Model Moments Drift Anomaly) (pid : Z) :
  feature_history (_train_process_model train_step l pid) = feature_history l /\
  sequence_length (_train_process_model train_step l pid) = sequence_length l /\
  learning_rate (_train_process_model train_step l pid) = learning_rate l /\
  created (_train_process_model train_step l pid) = created l.
Proof.
  unfold _train_process_model.
  destruct (PyDict.get pid (feature_history l)); [|auto].
  destruct (PyDict.get pid (process_predictors l)); [|auto].
  destruct (PyDict.get pid (optimizers l)); [|auto].
  destruct (train_step _ _ _ _). cbn. auto.
Qed.

Lemma wellformed_train (l : Learner (A := A) Model Moments Drift Anomaly) (pid : Z) :
  wellformed l -> wellformed (_train_process_model train_step l pid).
Proof.
  intros Hw. pose proof Hw as (Hs & Ho & Hh & Hlen & Hlr).
  unfold _train_process_model.
  destruct (PyDict.get pid (feature_history l)) as [features|] eqn:Ef; [|exact Hw].
  destruct (PyDict.get pid (process_predictors l)) as [model|] eqn:Em; [|exact Hw].
  destruct (PyDict.get pid (optimizers l)) as [opt|] eqn:Eo; [|exact Hw].
  destruct (train_step model (lr opt) (moments opt) features) as [model' m'].
  assert (Hkp : PyDict.contains pid (process_predictors l) = true)
    by (apply dict_contains_get; eauto).
  assert (Hko : PyDict.contains pid (optimizers l) = true)
    by (apply dict_contains_get; eauto).
  unfold wellformed, get_model_history.
  cbn [with_models sequence_length optimizers process_predictors feature_history
       learning_rate].
  split; [exact Hs|]. split; [|split; [|split]].
  - intros p. rewrite !dict_contains_known by assumption. apply Ho.
  - intros p. rewrite dict_contains_known by assumption. apply Hh.
  - exact Hlen.
  - intros p o. destruct (Z.eqb_spec p pid) as [->|Hne].
    + rewrite dict_get_set_eq. intros [= <-]. cbn [lr]. apply (Hlr pid). exact Eo.
    + rewrite dict_get_set_ne by congruence. apply Hlr.
Qed.

(** The learner after the pid was made known, before the sample is
    appended. *)
Definition known (l : Learner (A := A) Model Moments Drift Anomaly) (pid : Z)
    : Learner (A := A) Model Moments Drift Anomaly :=
  if PyDict.contains pid (process_predictors l) then l
  else
    let model := new_predictor (created l) in
    with_history
      (with_models l
         (PyDict.set pid model (process_predictors l))
         (PyDict.set pid {| lr := learning_rate l; moments := new_moments model |}
                     (optimizers l))
         (S (created l)))
      (PyDict.set pid [] (feature_history l)).

Lemma wellformed_known (l : Learner (A := A) Model Moments Drift Anomaly) (pid : Z) :
  wellformed l ->
  wellformed (known l pid) /\
  PyDict.contains pid (process_predictors (known l pid)) = true /\
  get_model_history (known l pid) pid = get_model_history l pid.
Proof.
  intros Hw. pose proof Hw as (Hs & Ho & Hh & Hlen & Hlr). unfold known.
  destruct (PyDict.contains pid (process_predictors l)) eqn:Ek; [auto|].
  cbv zeta. split; [|split].
  - unfold wellformed, get_model_history.
    cbn [with_models with_history sequence_length optimizers process_predictors
         feature_history learning_rate].
    split; [exact Hs|]. split; [|split; [|split]].
    + intros p. rewrite !dict_contains_set, Ho. reflexivity.
    + intros p. rewrite !dict_contains_set, Hh. reflexivity.
    + intros p. destruct (Z.eqb_spec p pid) as [->|Hne].
      * rewrite dict_get_set_eq. cbn. lia.
      * rewrite dict_get_set_ne by congruence. apply Hlen.
    + intros p o. destruct (Z.eqb_spec p pid) as [->|Hne].
      * rewrite dict_get_set_eq. intros [= <-]. reflexivity.
      * rewrite dict_get_set_ne by congruence. apply Hlr.
  - cbn [with_models with_history process_predictors].
    rewrite dict_contains_set, Z.eqb_refl. reflexivity.
  - unfold get_model_history. cbn [with_models with_history feature_history].
    rewrite dict_get_set_eq. rewrite <- Hh in Ek. unfold PyDict.contains in Ek.
    destruct (PyDict.get pid (feature_history l)); [discriminate|reflexivity].
Qed.

(** The window after a sample is appended. *)
Definition slide (window : list (ProcessFeatures (A := A))) (f : ProcessFeatures)
    : list ProcessFeatures :=
  if Nat.ltb (List.length window) 10 then window ++ [f] else tl window ++ [f].

Lemma slide_spec (window : list (ProcessFeatures (A := A))) (f : ProcessFeatures) :
  (List.length window <= 10)%nat ->
  (if Nat.ltb 10 (List.length (window ++ [f])) then tl (window ++ [f]) else window ++ [f])
  = slide window f /\
  (List.length (slide window f) <= 10)%nat /\
  Nat.leb 10 (List.length (slide window f)) = Nat.leb 9 (List.length window).
Proof.
  intros Hle. unfold slide. rewrite length_app. cbn [List.length].
  destruct (Nat.ltb_spec (List.length window) 10) as [Hlt|Hge].
  - destruct (Nat.ltb_spec 10 (List.length window + 1)) as [Hc|_]; [lia|].
    split; [reflexivity|]. rewrite length_app. cbn [List.length].
    split; [lia|].
    destruct (Nat.leb_spec 10 (List.length window + 1));
      destruct (Nat.leb_spec 9 (List.length window)); try reflexivity; lia.
  - destruct (Nat.ltb_spec 10 (List.length window + 1)) as [_|Hc]; [|lia].
    destruct window as [|x window]; [cbn in Hge; lia|]. cbn [tl app List.length] in *.
    split; [reflexivity|]. rewrite length_app. cbn [List.length].
    split; [lia|].
    destruct (Nat.leb_spec 10 (List.length window + 1));
      destruct (Nat.leb_spec 9 (S (List.length window))); try reflexivity; lia.
Qed.

(** [_update_process_model] in three steps: make the pid known, append
    the sample, train if the window is full. *)
Lemma update_process_model_steps (l : Learner (A := A) Model Moments Drift Anomaly)
    (pid : Z) (f : ProcessFeatures) :
  wellformed l ->
  let slid :=
    with_history (known l pid)
      (PyDict.set pid (slide (get_model_history l pid) f)
                  (feature_history (known l pid))) in
  _update_process_model new_predictor new_moments train_step l pid f =
    if Nat.leb 9 (List.length (get_model_history l pid))
    then _train_process_model train_step slid pid
    else slid.
Proof.
  intros Hw. cbv zeta.
  destruct (wellformed_known l pid Hw) as (Hwk & Hk & Hg).
  unfold _update_process_model. fold (known l pid).
  pose proof Hwk as (Hs & _ & Hh & Hlen & _).
  rewrite <- Hh in Hk. apply dict_contains_get in Hk. destruct Hk as [window Ewin].
  rewrite Ewin. cbv zeta. cbn [sequence_length with_history]. rewrite Hs.
  assert (Hwl : get_model_history l pid = window).
  { rewrite <- Hg. unfold get_model_history. rewrite Ewin. reflexivity. }
  rewrite Hwl.
  assert (Hle : (List.length window <= 10)%nat).
  { specialize (Hlen pid). unfold get_model_history in Hlen. rewrite Ewin in Hlen.
    exact Hlen. }
  destruct (slide_spec window f Hle) as (-> & _ & ->). reflexivity.
Qed.

Lemma wellformed_slide (l : Learner (A := A) Model Moments Drift Anomaly) (pid : Z)
    (f : ProcessFeatures) :
  wellformed l ->
  wellformed (with_history (known l pid)
                (PyDict.set pid (slide (get_model_history l pid) f)
                            (feature_history (known l pid)))).
Proof.
  intros Hw. destruct (wellformed_known l pid Hw) as (Hwk & Hk & Hg).
  pose proof Hwk as (Hs & Ho & Hh & Hlen & Hlr).
  unfold wellformed, get_model_history.
  cbn [with_history sequence_length optimizers process_predictors feature_history
       learning_rate].
  split; [exact Hs|]. split; [exact Ho|]. split; [|split; [|exact Hlr]].
  - intros p. rewrite dict_contains_known; [apply Hh|]. rewrite Hh. exact Hk.
  - intros p. destruct (Z.eqb_spec p pid) as [->|Hne].
    + rewrite dict_get_set_eq. apply slide_spec.
      destruct Hw as (_ & _ & _ & Hl & _). apply Hl.
    + rewrite dict_get_set_ne by congruence. apply Hlen.
Qed.

Lemma wellformed_feed (l : Learner (A := A) Model Moments Drift Anomaly) (pid : Z)
    (f : ProcessFeatures) :
  wellformed l ->
  wellformed (_update_process_model new_predictor new_moments train_step l pid f).
Proof.
  intros Hw. rewrite update_process_model_steps by exact Hw. cbv zeta.
  destruct (Nat.leb 9 _); [apply wellformed_train|]; apply wellformed_slide; exact Hw.
Qed.

Lemma wellformed_reset (pids : list Z) :
  forall l : Learner (A := A) Model Moments Drift Anomaly,
  wellformed l ->
  (forall p, In p pids -> PyDict.contains p (process_predictors l) = true) ->
  wellformed (reset_models new_predictor new_moments pids l).
Proof.
  induction pids as [|p rest IH]; intros l Hw Hin; cbn [reset_models]; [exact Hw|].
  cbv zeta. cbn [feature_history with_models].
  pose proof Hw as (Hs & Ho & Hh & Hlen & Hlr).
  assert (Hp : PyDict.contains p (process_predictors l) = true)
    by (apply Hin; left; reflexivity).
  assert (Hph : PyDict.contains p (feature_history l) = true) by (rewrite Hh; exact Hp).
  assert (Hpo : PyDict.contains p (optimizers l) = true) by (rewrite Ho; exact Hp).
  pose proof Hph as Hg. apply dict_contains_get in Hg. destruct Hg as [window ->].
  apply IH.
  - unfold wellformed, get_model_history.
    cbn [with_models with_history sequence_length optimizers process_predictors
         feature_history learning_rate].
    split; [exact Hs|]. split; [|split; [|split]].
    + intros q. rewrite !dict_contains_known by assumption. apply Ho.
    + intros q. rewrite !dict_contains_known by assumption. apply Hh.
    + intros q. destruct (Z.eqb_spec q p) as [->|Hne].
      * rewrite dict_get_set_eq. cbn. lia.
      * rewrite dict_get_set_ne by congruence. apply Hlen.
    + intros q o. destruct (Z.eqb_spec q p) as [->|Hne].
      * rewrite dict_get_set_eq. intros [= <-]. reflexivity.
      * rewrite dict_get_set_ne by congruence. apply Hlr.
  - intros q Hq. cbn [with_models with_history process_predictors].
    rewrite dict_contains_known by assumption. apply Hin. right. exact Hq.
Qed.

Lemma wellformed_drift (l : Learner (A := A) Model Moments Drift Anomaly) :
  wellformed l -> wellformed (_handle_drift new_predictor new_moments l).
Proof.
  intros Hw. apply wellformed_reset; [exact Hw|].
  intros p Hp. apply dict_contains_keys. exact Hp.
Qed.

Lemma wellformed_detect_drift (l : Learner (A := A) Model Moments Drift Anomaly)
    (m : SystemMetrics A) :
  wellformed l ->
  wellformed (_detect_drift new_predictor new_moments drift_update drift_detected l m).
Proof.
  intros Hw. unfold _detect_drift.
  destruct (drift_update (drift_detector l) (aggregate m)) as [d ok].
  assert (Hd : wellformed (with_drift_detector l d)) by exact Hw.
  destruct ok; [|exact Hd]. destruct (drift_detected d); [|exact Hd].
  apply wellformed_drift. exact Hd.
Qed.

Lemma wellformed_anomaly (l : Learner (A := A) Model Moments Drift Anomaly)
    (v : list A) :
  wellformed l -> wellformed (_handle_anomaly l v).
Proof.
  intros (Hs & Ho & Hh & Hlen & Hlr).
  unfold wellformed, get_model_history, _handle_anomaly.
  cbn [sequence_length optimizers process_predictors feature_history learning_rate].
  split; [exact Hs|]. split; [|split; [exact Hh|split; [exact Hlen|]]].
  - intros p. rewrite <- Ho. unfold PyDict.contains.
    rewrite (dict_get_map (fun o : Optimizer Moments =>
               {| lr := fmul (learning_rate l) (of_Z 2); moments := moments o |})).
    destruct (PyDict.get p (optimizers l)); reflexivity.
  - intros p o.
    rewrite (dict_get_map (fun o : Optimizer Moments =>
               {| lr := fmul (learning_rate l) (of_Z 2); moments := moments o |})).
    destruct (PyDict.get p (optimizers l)); [intros [= <-]; reflexivity | discriminate].
Qed.

Lemma wellformed_detect_anomalies (l : Learner (A := A) Model Moments Drift Anomaly)
    (m : SystemMetrics A) :
  wellformed l -> wellformed (_detect_anomalies learn_one score_one l m).
Proof.
  intros Hw. unfold _detect_anomalies.
  destruct (learn_one (anomaly_detector l) (aggregate m)) as [a ok].
  assert (Hd : wellformed (with_anomaly_detector l a)) by exact Hw.
  destruct ok; [|exact Hd]. destruct (score_one a (aggregate m)) as [s|]; [|exact Hd].
  destruct (flt _ _); [|exact Hd]. apply wellformed_anomaly. exact Hd.
Qed.

Lemma wellformed_feeds (ps : list (ProcessMetrics A)) (m : SystemMetrics A) :
  forall l : Learner (A := A) Model Moments Drift Anomaly,
  wellformed l ->
  wellformed
    (fold_left
       (fun l proc =>
          _update_process_model new_predictor new_moments train_step l (pid proc)
            (_extract_features proc m)) ps l).
Proof.
  induction ps as [|proc ps IH]; intros l Hw; cbn [fold_left]; [exact Hw|].
  apply IH. apply wellformed_feed. exact Hw.
Qed.

Lemma wellformed_update (l : Learner (A := A) Model Moments Drift Anomaly)
    (m : SystemMetrics A) :
  wellformed l ->
  wellformed (update new_predictor new_moments train_step drift_update drift_detected
                     learn_one score_one l m).
Proof.
  intros Hw. unfold update.
  apply wellformed_detect_anomalies, wellformed_detect_drift, wellformed_feeds. exact Hw.
Qed.

(** The learner after the ticks [ms], from the initial state. *)
Definition after_ticks (d : Drift) (a : Anomaly) (ms : list (SystemMetrics A))
    : Learner (A := A) Model Moments Drift Anomaly :=
  fold_left
    (update new_predictor new_moments train_step drift_update drift_detected
            learn_one score_one)
    ms (init Model Moments d a).

Lemma wellformed_after_ticks (d : Drift) (a : Anomaly) (ms : list (SystemMetrics A)) :
  wellformed (after_ticks d a ms).
Proof.
  unfold after_ticks.
  assert (Hgen : forall l : Learner (A := A) Model Moments Drift Anomaly,
             wellformed l ->
             wellformed
               (fold_left
                  (update new_predictor new_moments train_step drift_update
                          drift_detected learn_one score_one) ms l)).
  { induction ms as [|m ms IH]; intros l Hl; cbn [fold_left]; [exact Hl|].
    apply IH. apply wellformed_update. exact Hl. }
  apply Hgen. apply wellformed_init.
Qed.

(** X26. In every state reached from the initial one by ticks: the window
    [get_model_history] returns holds at most 10 samples; a pid has a
    predictor exactly when it has an optimizer and exactly when it has a
    window; and every optimizer runs at the learner's current learning rate. *)
Theorem reachable_learner_is_wellformed (d : Drift) (a : Anomaly)
    (ms : list (SystemMetrics A)) (pid : Z) :
  let l := after_ticks d a ms in
  (List.length (get_model_history l pid) <= 10)%nat /\
  PyDict.contains pid (optimizers l) = PyDict.contains pid (process_predictors l) /\
  PyDict.contains pid (feature_history l) = PyDict.contains pid (process_predictors l) /\
  forall opt, PyDict.get pid (optimizers l) = Some opt -> lr opt = learning_rate l.
Proof.
  cbv zeta. destruct (wellformed_after_ticks d a ms) as (_ & Ho & Hh & Hlen & Hlr).
  split; [apply Hlen|]. split; [apply Ho|]. split; [apply Hh|]. apply Hlr.
Qed.

(** ** The anomaly check *)

Lemma refused_keeps_rate (l : Learner (A := A) Model Moments Drift Anomaly)
    (m : SystemMetrics A) :
  (forall a v, snd (learn_one a v) = false) ->
  learning_rate (update new_predictor new_moments train_step drift_update drift_detected
                        learn_one score_one l m) = learning_rate l.
Proof.
  intros Hraise. unfold update.
  destruct (same_rate_feeds Model Moments new_predictor new_moments train_step
              Drift Anomaly (processes m) m l) as [Hr _].
  match goal with |- context [_detect_drift _ _ _ _ ?x m] =>
    destruct (same_rate_detect_drift Model Moments new_predictor new_moments
                Drift drift_update drift_detected Anomaly x m) as [Hr' _];
    set (l2 := _detect_drift new_predictor new_moments drift_update drift_detected x m) in *
  end.
  unfold _detect_anomalies. pose proof (Hraise (anomaly_detector l2) (aggregate m)) as Hk.
  destruct (learn_one (anomaly_detector l2) (aggregate m)) as [a ok]. cbn [snd] in Hk.
  subst ok. cbn [learning_rate with_anomaly_detector]. rewrite Hr'. exact Hr.
Qed.


(** ** The sliding window *)

Lemma train_keeps_history (l : Learner (A := A) Model Moments Drift Anomaly) (pid q : Z) :
  get_model_history (_train_process_model train_step l pid) q = get_model_history l q.
Proof.
  unfold get_model_history. destruct (train_history l pid) as (-> & _). reflexivity.
Qed.

Lemma known_keeps_history (l : Learner (A := A) Model Moments Drift Anomaly) (pid q : Z) :
  wellformed l -> get_model_history (known l pid) q = get_model_history l q.
Proof.
  intros Hw. destruct (Z.eqb_spec q pid) as [->|Hne]; [apply wellformed_known; exact Hw|].
  unfold known. destruct (PyDict.contains pid (process_predictors l)); [reflexivity|].
  unfold get_model_history. cbn [with_models with_history feature_history].
  rewrite dict_get_set_ne by congruence. reflexivity.
Qed.

Lemma feed_history (l : Learner (A := A) Model Moments Drift Anomaly) (pid : Z)
    (f : ProcessFeatures) (q : Z) :
  wellformed l ->
  get_model_history (_update_process_model new_predictor new_moments train_step l pid f) q
  = if Z.eqb q pid then slide (get_model_history l pid) f else get_model_history l q.
Proof.
  intros Hw. rewrite update_process_model_steps by exact Hw. cbv zeta.
  assert (Hp : get_model_history
                 (with_history (known l pid)
                    (PyDict.set pid (slide (get_model_history l pid) f)
                                (feature_history (known l pid)))) q
               = if Z.eqb q pid then slide (get_model_history l pid) f
                 else get_model_history l q).
  { unfold get_model_history at 1. cbn [with_history feature_history].
    destruct (Z.eqb_spec q pid) as [->|Hne].
    - rewrite dict_get_set_eq. reflexivity.
    - rewrite dict_get_set_ne by congruence.
      change (get_model_history (known l pid) q = get_model_history l q).
      apply known_keeps_history. exact Hw. }
  destruct (Nat.leb 9 _); [rewrite train_keeps_history|]; exact Hp.
Qed.

(** X27. The window of a pid is a queue of capacity 10. In a reachable
    state, feeding a sample of [pid] appends it to the window of [pid],
    after dropping the oldest sample when the window already holds 10, and
    leaves every other window as it is. *)
Theorem window_is_a_sliding_queue (d : Drift) (a : Anomaly) (ms : list (SystemMetrics A))
    (pid : Z) (f : ProcessFeatures (A := A)) :
  let l := after_ticks d a ms in
  let l' := _update_process_model new_predictor new_moments train_step l pid f in
  let window := get_model_history l pid in
  get_model_history l' pid =
    (if Nat.ltb (List.length window) 10 then window ++ [f] else tl window ++ [f]) /\
  forall q, q <> pid -> get_model_history l' q = get_model_history l q.
Proof.
  cbv zeta. pose proof (wellformed_after_ticks d a ms) as Hw. split.
  - rewrite feed_history by exact Hw. rewrite Z.eqb_refl. reflexivity.
  - intros q Hne. rewrite feed_history by exact Hw.
    destruct (Z.eqb_spec q pid); [contradiction|reflexivity].
Qed.

(** ** Training *)

Lemma known_of_known (l : Learner (A := A) Model Moments Drift Anomaly) (pid : Z)
    (model : Model) :
  PyDict.get pid (process_predictors l) = Some model -> known l pid = l.
Proof.
  intros Hm. unfold known.
  assert (Hc : PyDict.contains pid (process_predictors l) = true)
    by (apply dict_contains_get; eauto).
  rewrite Hc. reflexivity.
Qed.

(** X28. A model is trained on full windows only. In a reachable state,
    feeding a sample of a pid whose window then holds fewer than 10 samples
    leaves every model and every optimizer as it is; feeding one that fills
    the window, or slides a full one, makes one training step of the model
    of that pid, on the 10 samples of the window, at the rate of its
    optimizer. *)
Theorem training_waits_for_a_full_window (d : Drift) (a : Anomaly)
    (ms : list (SystemMetrics A)) (pid : Z) (f : ProcessFeatures (A := A))
    (model : Model) (opt : Optimizer (A := A) Moments) :
  let l := after_ticks d a ms in
  PyDict.get pid (process_predictors l) = Some model ->
  PyDict.get pid (optimizers l) = Some opt ->
  let l' := _update_process_model new_predictor new_moments train_step l pid f in
  let window := get_model_history l' pid in
  if Nat.ltb (List.length (get_model_history l pid)) 9 then
    process_predictors l' = process_predictors l /\ optimizers l' = optimizers l
  else
    List.length window = 10%nat /\
    PyDict.get pid (process_predictors l') =
      Some (fst (train_step model (lr opt) (moments opt) window)) /\
    PyDict.get pid (optimizers l') =
      Some {| lr := lr opt; moments := snd (train_step model (lr opt) (moments opt) window) |}.
Proof.
  cbv zeta. intros Hm Ho. pose proof (wellformed_after_ticks d a ms) as Hw.
  set (l := after_ticks d a ms) in *.
  rewrite feed_history by exact Hw. rewrite Z.eqb_refl.
  rewrite update_process_model_steps by exact Hw. cbv zeta.
  rewrite (known_of_known l pid model Hm).
  pose proof Hw as (_ & _ & _ & Hlen & _). specialize (Hlen pid).
  destruct (Nat.ltb_spec (List.length (get_model_history l pid)) 9) as [Hlt|Hge].
  - destruct (Nat.leb_spec 9 (List.length (get_model_history l pid))) as [Hc|_]; [lia|].
    split; reflexivity.
  - destruct (Nat.leb_spec 9 (List.length (get_model_history l pid))) as [_|Hc]; [|lia].
    split.
    + unfold slide.
      destruct (Nat.ltb_spec (List.length (get_model_history l pid)) 10) as [Hlt|Hfull].
      * rewrite length_app. cbn [List.length]. lia.
      * destruct (get_model_history l pid) as [|x window]; [cbn in Hge; lia|].
        cbn [tl List.length] in *. rewrite length_app. cbn [List.length]. lia.
    + unfold _train_process_model.
      cbn [with_history feature_history process_predictors optimizers].
      rewrite dict_get_set_eq, Hm, Ho.
      destruct (train_step model (lr opt) (moments opt)
                  (slide (get_model_history l pid) f)) as [model' m'].
      cbn [with_models process_predictors optimizers fst snd].
      rewrite !dict_get_set_eq. split; reflexivity.
Qed.

(** ** Nothing is evicted *)

Lemma train_keeps_known (l : Learner (A := A) Model Moments Drift Anomaly) (pid q : Z) :
  PyDict.contains q (process_predictors l) = true ->
  PyDict.contains q (process_predictors (_train_process_model train_step l pid)) = true.
Proof.
  intros Hq. unfold _train_process_model.
  destruct (PyDict.get pid (feature_history l)); [|exact Hq].
  destruct (PyDict.get pid (process_predictors l)); [|exact Hq].
  destruct (PyDict.get pid (optimizers l)); [|exact Hq].
  destruct (train_step _ _ _ _). cbn [with_models process_predictors].
  rewrite dict_contains_set, Hq. apply orb_true_r.
Qed.

Lemma feed_keeps_known (l : Learner (A := A) Model Moments Drift Anomaly) (pid : Z)
    (f : ProcessFeatures) (q : Z) :
  q = pid \/ PyDict.contains q (process_predictors l) = true ->
  PyDict.contains q
    (process_predictors
       (_update_process_model new_predictor new_moments train_step l pid f)) = true.
Proof.
  intros Hq. unfold _update_process_model. fold (known l pid).
  assert (Hk : PyDict.contains q (process_predictors (known l pid)) = true).
  { unfold known. destruct (PyDict.contains pid (process_predictors l)) eqn:E.
    - destruct Hq as [->|Hq]; assumption.
    - cbn [with_models with_history process_predictors]. rewrite dict_contains_set.
      destruct Hq as [->|Hq]; [rewrite Z.eqb_refl; reflexivity|].
      rewrite Hq. apply orb_true_r. }
  destruct (PyDict.get pid (feature_history (known l pid))); [|exact Hk].
  cbv zeta. destruct (Nat.leb _ _); [apply train_keeps_known|]; exact Hk.
Qed.

Lemma feeds_keep_known (ps : list (ProcessMetrics A)) (m : SystemMetrics A) (q : Z) :
  forall l : Learner (A := A) Model Moments Drift Anomaly,
  (exists proc, In proc ps /\ pid proc = q) \/
  PyDict.contains q (process_predictors l) = true ->
  PyDict.contains q
    (process_predictors
       (fold_left
          (fun l proc =>
             _update_process_model new_predictor new_moments train_step l (pid proc)
               (_extract_features proc m)) ps l)) = true.
Proof.
  induction ps as [|proc ps IH]; intros l Hq; cbn [fold_left].
  - destruct Hq as [(p & [] & _)|Hq]. exact Hq.
  - apply IH. destruct Hq as [(p & [<-|Hin] & Hp)|Hq].
    + right. apply feed_keeps_known. left. symmetry. exact Hp.
    + left. exists p. auto.
    + right. apply feed_keeps_known. right. exact Hq.
Qed.

Lemma update_keeps_known (l : Learner (A := A) Model Moments Drift Anomaly)
    (m : SystemMetrics A) (q : Z) :
  (exists proc, In proc (processes m) /\ pid proc = q) \/
  PyDict.contains q (process_predictors l) = true ->
  PyDict.contains q
    (process_predictors
       (update new_predictor new_moments train_step drift_update drift_detected
               learn_one score_one l m)) = true.
Proof.
  intros Hq. unfold update.
  apply (feeds_keep_known (processes m) m q l) in Hq.
  set (l1 := fold_left _ (processes m) l) in *. clearbody l1.
  assert (Hd : PyDict.contains q
                 (process_predictors
                    (_detect_drift new_predictor new_moments drift_update
                                   drift_detected l1 m)) = true).
  { unfold _detect_drift. destruct (drift_update _ _) as [d ok].
    destruct ok; [|exact Hq]. destruct (drift_detected d); [|exact Hq].
    apply reset_models_keeps_predictors. exact Hq. }
  set (l2 := _detect_drift _ _ _ _ l1 m) in *. clearbody l2.
  unfold _detect_anomalies. destruct (learn_one _ _) as [a ok].
  destruct ok; [|exact Hd]. destruct (score_one a _); [|exact Hd].
  destruct (flt _ _); exact Hd.
Qed.

(** X29. Nothing is ever evicted: a pid that occurred in the snapshot of
    some tick has a predictor in every later state, whether or not the
    process still exists. *)
Theorem seen_pid_keeps_its_model (d : Drift) (a : Anomaly) (ms : list (SystemMetrics A))
    (m : SystemMetrics A) (proc : ProcessMetrics A) :
  In m ms -> In proc (processes m) ->
  PyDict.contains (pid proc) (process_predictors (after_ticks d a ms)) = true.
Proof.
  unfold after_ticks. generalize (init Model Moments d a : Learner Model Moments Drift Anomaly).
  induction ms as [|m0 ms IH]; intros l Hm Hp; [destruct Hm|].
  cbn [fold_left]. destruct Hm as [->|Hm]; [|apply IH; assumption].
  assert (Hk : PyDict.contains (pid proc)
                 (process_predictors
                    (update new_predictor new_moments train_step drift_update
                            drift_detected learn_one score_one l m)) = true).
  { apply update_keeps_known. left. exists proc. auto. }
  set (l1 := update _ _ _ _ _ _ _ l m) in *. clearbody l1. clear IH Hp.
  revert l1 Hk. induction ms as [|m1 ms IH]; intros l1 Hk; cbn [fold_left]; [exact Hk|].
  apply IH. apply update_keeps_known. right. exact Hk.
Qed.

(** ** A drift event *)

Lemma reset_models_other (pids : list Z) (q : Z) :
  forall l : Learner (A := A) Model Moments Drift Anomaly,
  ~ In q pids ->
  PyDict.get q (process_predictors (reset_models new_predictor new_moments pids l)) =
  PyDict.get q (process_predictors l).
Proof.
  induction pids as [|p rest IH]; intros l Hn; cbn [reset_models]; [reflexivity|].
  cbv zeta. cbn [feature_history with_models].
  assert (Hne : p <> q) by (intros ->; apply Hn; left; reflexivity).
  destruct (PyDict.get p (feature_history l)).
  - rewrite IH by (intros Hin; apply Hn; right; exact Hin).
    cbn [with_models with_history process_predictors].
    apply dict_get_set_ne. exact Hne.
  - cbn [with_models process_predictors]. apply dict_get_set_ne. exact Hne.
Qed.

Lemma reset_models_effect (pids : list Z) :
  forall l : Learner (A := A) Model Moments Drift Anomaly,
  (forall p, In p pids -> PyDict.contains p (feature_history l) = true) ->
  let l' := reset_models new_predictor new_moments pids l in
  created l' = (created l + List.length pids)%nat /\
  learning_rate l' = learning_rate l /\
  (forall pid, In pid pids ->
     exists k, (created l <= k < created l')%nat /\
               PyDict.get pid (process_predictors l') = Some (new_predictor k)).
Proof.
  induction pids as [|p rest IH]; intros l Hall; cbv zeta; cbn [reset_models].
  - cbn [List.length]. split; [lia|]. split; [reflexivity|]. intros pid [].
  - cbv zeta. cbn [feature_history with_models].
    pose proof (Hall p (or_introl eq_refl)) as Hp. apply dict_contains_get in Hp.
    destruct Hp as [window Ew]. rewrite Ew.
    match goal with |- context [reset_models _ _ rest ?x] => set (l1 := x) end.
    assert (Hall1 : forall q, In q rest -> PyDict.contains q (feature_history l1) = true).
    { intros q Hq. subst l1. cbn [with_history feature_history].
      rewrite dict_contains_set, (Hall q (or_intror Hq)). apply orb_true_r. }
    destruct (IH l1 Hall1) as (Hc & Hr & Hm). cbv zeta in Hc, Hm.
    assert (Hc1 : created l1 = S (created l)) by reflexivity.
    split; [rewrite Hc, Hc1; cbn [List.length]; lia|].
    split; [rewrite Hr; reflexivity|].
    intros pid Hin.
    destruct (in_dec Z.eq_dec pid rest) as [Hrest|Hnot].
    + destruct (Hm pid Hrest) as (k & Hk & Hg). exists k. split; [lia | exact Hg].
    + destruct Hin as [->|Hin]; [|contradiction].
      exists (created l). split; [lia|].
      rewrite reset_models_other by exact Hnot. subst l1.
      cbn [with_models with_history process_predictors]. apply dict_get_set_eq.
Qed.

Lemma reset_models_keys (pids : list Z) :
  forall l : Learner (A := A) Model Moments Drift Anomaly,
  (forall p, In p pids -> PyDict.contains p (process_predictors l) = true) ->
  PyDict.keys (process_predictors (reset_models new_predictor new_moments pids l)) =
  PyDict.keys (process_predictors l).
Proof.
  induction pids as [|p rest IH]; intros l Hall; cbn [reset_models]; [reflexivity|].
  cbv zeta. cbn [feature_history with_models].
  pose proof (Hall p (or_introl eq_refl)) as Hp.
  destruct (PyDict.get p (feature_history l)).
  - rewrite IH.
    + cbn [with_models with_history process_predictors].
      apply dict_keys_set_present. exact Hp.
    + intros q Hq. cbn [with_models with_history process_predictors].
      rewrite dict_contains_set, (Hall q (or_intror Hq)). apply orb_true_r.
  - cbn [with_models process_predictors].
    apply dict_keys_set_present. exact Hp.
Qed.

(** X30. A drift event in a reachable state: the learner keeps the pids it
    knows, in their order; every one of them gets a model initialised during
    the reset, and an empty window; the count of initialisations grows by
    the number of pids; the learning rate stays what it is, also when an
    anomaly had raised it before. *)
Theorem drift_replaces_every_model (d : Drift) (a : Anomaly)
    (ms : list (SystemMetrics A)) :
  let l := after_ticks d a ms in
  let l' := _handle_drift new_predictor new_moments l in
  PyDict.keys (process_predictors l') = PyDict.keys (process_predictors l) /\
  created l' = (created l + List.length (PyDict.keys (process_predictors l)))%nat /\
  learning_rate l' = learning_rate l /\
  forall pid, PyDict.contains pid (process_predictors l) = true ->
    get_model_history l' pid = [] /\
    exists k, (created l <= k < created l')%nat /\
              PyDict.get pid (process_predictors l') = Some (new_predictor k).
Proof.
  cbv zeta. pose proof (wellformed_after_ticks d a ms) as Hw.
  set (l := after_ticks d a ms) in *. pose proof Hw as (_ & _ & Hh & _ & _).
  assert (Hall : forall p, In p (PyDict.keys (process_predictors l)) ->
                           PyDict.contains p (feature_history l) = true).
  { intros p Hp. rewrite Hh. apply dict_contains_keys. exact Hp. }
  unfold _handle_drift.
  destruct (reset_models_effect (PyDict.keys (process_predictors l)) l Hall)
    as (Hc & Hr & Hm). cbv zeta in Hc, Hm.
  split; [apply reset_models_keys; intros p Hp; apply dict_contains_keys; exact Hp|].
  split; [exact Hc|]. split; [exact Hr|].
  intros pid Hk. apply dict_contains_keys in Hk. split; [|apply Hm; exact Hk].
  unfold get_model_history. rewrite reset_models_history by exact Hall.
  replace (existsb (Z.eqb pid) (PyDict.keys (process_predictors l))) with true;
    [reflexivity|].
  symmetry. apply existsb_exists. exists pid. split; [exact Hk | apply Z.eqb_refl].
Qed.

End Generic.

(** ** Concrete runs, in binary64 arithmetic *)

(** The ticks of [step], from the initial state. *)
Definition ticks (ms : list (SystemMetrics PrimFloat.float))
    : Learner (A := PrimFloat.float) nat unit unit unit :=
  after_ticks nat unit (fun k => k) (fun _ => tt) untrained
              unit (fun d _ => (d, true)) (fun _ => false)
              unit array_refused never_scored tt tt ms.


Lemma training_waits_for_a_full_window_witness :
  let l := ticks [Scenario.calm] in
  let l' := _update_process_model (fun k => k) (fun _ => tt) untrained l 500 sample in
  process_predictors l' = process_predictors l /\ optimizers l' = optimizers l.
Proof.
  pose proof (training_waits_for_a_full_window nat unit (fun k => k) (fun _ => tt) untrained
                unit (fun d _ => (d, true)) (fun _ => false)
                unit array_refused never_scored tt tt [Scenario.calm] 500 sample
                0%nat {| lr := dec 1 1000; moments := tt |}) as Hw.
  cbv zeta in Hw. fold (ticks [Scenario.calm]) in Hw.
  assert (Hm : PyDict.get 500 (process_predictors (ticks [Scenario.calm])) = Some 0%nat)
    by (vm_compute; reflexivity).
  assert (Ho : PyDict.get 500 (optimizers (ticks [Scenario.calm])) =
               Some {| lr := dec 1 1000; moments := tt |})
    by (vm_compute; reflexivity).
  specialize (Hw Hm Ho).
  match type of Hw with
  | if ?c then _ else _ =>
      assert (E : c = true) by (vm_compute; reflexivity); rewrite E in Hw
  end.
  exact Hw.
Defined.

Lemma seen_pid_keeps_its_model_witness :
  PyDict.contains 500
    (process_predictors (ticks [Scenario.calm; Scenario.loaded; Scenario.loaded])) = true.
Proof.
  apply (seen_pid_keeps_its_model nat unit (fun k => k) (fun _ => tt) untrained
           unit (fun d _ => (d, true)) (fun _ => false)
           unit array_refused never_scored tt tt
           [Scenario.calm; Scenario.loaded; Scenario.loaded] Scenario.calm
           (Scenario.proc 500 "a.exe" (of_Z 16) (of_Z 5) None 3)).
  - left. reflexivity.
  - left. reflexivity.
Defined.

End WindowFacts.

(* ================================================================== *)
(** * Similarity in binary64 (quantum_entanglement.py) *)

Module SimilarityFloat.
Import QuantumEntanglement.

(** ** Zeros and nan in binary64 *)

(** The float is +0.0 or -0.0. *)
Definition is_zero (x : PrimFloat.float) : bool :=
  match FloatOps.Prim2SF x with SpecFloat.S754_zero _ => true | _ => false end.

(** The float is a zero or nan. *)
Definition zero_or_nan (x : PrimFloat.float) : bool :=
  match FloatOps.Prim2SF x with
  | SpecFloat.S754_zero _ | SpecFloat.S754_nan => true
  | _ => false
  end.

Lemma zero_is_zero : is_zero (of_Z 0) = true.
Proof. vm_compute. reflexivity. Qed.

(** [x == 0] holds of the two zeros only. *)
Lemma feq_zero (x : PrimFloat.float) : feq x (of_Z 0) = true -> is_zero x = true.
Proof.
  cbn [feq float_arith]. rewrite FloatAxioms.eqb_spec. unfold is_zero.
  replace (FloatOps.Prim2SF (of_Z 0)) with (SpecFloat.S754_zero false)
    by (vm_compute; reflexivity).
  destruct (FloatOps.Prim2SF x) as [s|s| |s m e]; cbn; try reflexivity; try discriminate;
    destruct s; discriminate.
Qed.

(** A zero times anything is a zero or nan. *)
Lemma mul_zero_l (x y : PrimFloat.float) :
  is_zero x = true -> zero_or_nan (fmul x y) = true.
Proof.
  unfold is_zero, zero_or_nan. cbn [fmul float_arith]. rewrite FloatAxioms.mul_spec.
  unfold FloatAxioms.SF64mul.
  destruct (FloatOps.Prim2SF x) as [s|s| |s m e]; try discriminate. intros _.
  destruct (FloatOps.Prim2SF y); reflexivity.
Qed.

Lemma mul_zero_r (x y : PrimFloat.float) :
  is_zero y = true -> zero_or_nan (fmul x y) = true.
Proof.
  unfold is_zero, zero_or_nan. cbn [fmul float_arith]. rewrite FloatAxioms.mul_spec.
  unfold FloatAxioms.SF64mul.
  destruct (FloatOps.Prim2SF y) as [s|s| |s m e]; try discriminate. intros _.
  destruct (FloatOps.Prim2SF x); reflexivity.
Qed.

(** The sum of two floats that are zeros or nan is a zero or nan. *)
Lemma add_zero_or_nan (x y : PrimFloat.float) :
  zero_or_nan x = true -> zero_or_nan y = true -> zero_or_nan (fadd x y) = true.
Proof.
  unfold zero_or_nan. cbn [fadd float_arith]. rewrite FloatAxioms.add_spec.
  unfold FloatAxioms.SF64add.
  destruct (FloatOps.Prim2SF x) as [s|s| |s m e]; try discriminate; intros _;
    destruct (FloatOps.Prim2SF y) as [s'|s'| |s' m' e']; try discriminate; intros _;
    try reflexivity; destruct s, s'; reflexivity.
Qed.

(** [0 < x] fails for a zero and for nan. *)
Lemma not_positive (x : PrimFloat.float) :
  zero_or_nan x = true -> flt (of_Z 0) x = false.
Proof.
  unfold zero_or_nan. cbn [flt float_arith]. rewrite FloatAxioms.ltb_spec.
  replace (FloatOps.Prim2SF (of_Z 0)) with (SpecFloat.S754_zero false)
    by (vm_compute; reflexivity).
  destruct (FloatOps.Prim2SF x) as [s|s| |s m e]; try discriminate; reflexivity.
Qed.

Lemma np_any_false (a b c : PrimFloat.float) :
  np_any [a; b; c] = false ->
  is_zero a = true /\ is_zero b = true /\ is_zero c = true.
Proof.
  unfold np_any. cbn [existsb]. rewrite !orb_false_iff, !negb_false_iff.
  intros (Ha & Hb & Hc & _). repeat split; apply feq_zero; assumption.
Qed.

Lemma dot_zero_left (a b c x y z : PrimFloat.float) :
  is_zero a = true -> is_zero b = true -> is_zero c = true ->
  zero_or_nan (np_dot [a; b; c] [x; y; z]) = true.
Proof.
  intros Ha Hb Hc. unfold np_dot. cbn [combine fold_left fst snd].
  repeat apply add_zero_or_nan; try (apply mul_zero_l; assumption).
  unfold zero_or_nan. vm_compute. reflexivity.
Qed.

Lemma dot_zero_right (a b c x y z : PrimFloat.float) :
  is_zero a = true -> is_zero b = true -> is_zero c = true ->
  zero_or_nan (np_dot [x; y; z] [a; b; c]) = true.
Proof.
  intros Ha Hb Hc. unfold np_dot. cbn [combine fold_left fst snd].
  repeat apply add_zero_or_nan; try (apply mul_zero_r; assumption).
  unfold zero_or_nan. vm_compute. reflexivity.
Qed.

Lemma normalized_triple (p : Process (A := PrimFloat.float)) :
  exists x y z, fst (normalize (metrics p)) = [x; y; z].
Proof.
  unfold metrics, normalize.
  destruct (np_any _); unfold fst, vdivs; cbn [map]; eauto.
Qed.

(** The result is 0 or positive. *)
Lemma positive_spec (x : PrimFloat.float) :
  flt (of_Z 0) x = true ->
  flt x (of_Z 0) = false /\ feq x x = true.
Proof.
  cbn [flt feq float_arith]. rewrite !FloatAxioms.ltb_spec, FloatAxioms.eqb_spec.
  replace (FloatOps.Prim2SF (of_Z 0)) with (SpecFloat.S754_zero false)
    by (vm_compute; reflexivity).
  destruct (FloatOps.Prim2SF x) as [s|s| |s m e]; cbn; try discriminate.
  - destruct s; [discriminate|]. intros _. split; reflexivity.
  - destruct s; [discriminate|]. intros _. split; [reflexivity|].
    unfold SpecFloat.SFeqb, SpecFloat.SFcompare.
    rewrite Z.compare_refl, Pos.compare_refl. reflexivity.
Qed.

(** X7. In binary64, [_calculate_similarity] never returns nan and never
    a negative number, whatever the usage values are, nan and inf
    included: a result that is not positive is 0. *)
Theorem similarity_never_negative_nor_nan (p1 p2 : Process (A := PrimFloat.float)) :
  flt (_calculate_similarity p1 p2) (of_Z 0) = false /\
  feq (_calculate_similarity p1 p2) (_calculate_similarity p1 p2) = true /\
  (flt (of_Z 0) (_calculate_similarity p1 p2) = false ->
   _calculate_similarity p1 p2 = of_Z 0).
Proof.
  unfold _calculate_similarity, py_max. cbv zeta.
  set (s := np_dot _ _).
  destruct (flt (of_Z 0) s) eqn:E.
  - destruct (positive_spec s E) as [Hn He]. rewrite E. repeat split; try assumption.
    discriminate.
  - repeat split; vm_compute; reflexivity.
Qed.

(** ** Concrete vectors *)

Definition usage (k : Z) (cpu mem io : PrimFloat.float) : Process (A := PrimFloat.float) :=
  {| pid := Some k; cpu_percent := Some cpu; memory_percent := Some mem;
     io_rate := Some io |}.

(** No usage at all: two explicit zeros and a missing key. *)
Definition unused : Process (A := PrimFloat.float) :=
  {| pid := Some 501%Z; cpu_percent := Some (of_Z 0); memory_percent := Some (of_Z 0);
     io_rate := None |}.

(** The usage vector (50, 50, 0), the one of all ones, and one whose
    squares underflow to zero. *)
Definition halves : Process (A := PrimFloat.float) := usage 500 (of_Z 50) (of_Z 50) (of_Z 0).
Definition ones : Process (A := PrimFloat.float) := usage 502 (of_Z 1) (of_Z 1) (of_Z 1).
Definition tiny : Process (A := PrimFloat.float) :=
  usage 503 (dec 1 (10 ^ 200)) (of_Z 0) (of_Z 0).




End SimilarityFloat.
